(** * Subscription service: a shallow embedding and its verified properties

    The development follows the layering of the repository:

    - [GoTime]      the part of Go's [time] package the code calls
                    ([time.Parse] with the layout ["01-2006"], [AddDate]);
    - [GoErrors]    Go [error] values as built by [github.com/pkg/errors];
    - [Like]        PostgreSQL's [LIKE] / [ILIKE] pattern matching;
    - [Sql]         the statements the repository sends, read from their text:
                    a lexer, a parser for the fragment of SQL they use, and an
                    executor over the [subscriptions] table of the migration;
    - [Repository]  [internal/repository]: the six persistence operations;
    - [Service]     [internal/service/subscription.go];
    - [Handlers]    [internal/handlers]: the mapping to HTTP status codes.

    Definitions come first, the lemmas and theorems follow. *)

From Stdlib Require Import ZArith NArith List String Ascii Bool Lia.
From Stdlib Require Import Permutation Sorted DecimalString.
Import ListNotations.

Local Open Scope string_scope.
Local Open Scope list_scope.
Local Open Scope Z_scope.

(* ================================================================== *)
(** * Go's [time] package, as far as the repository uses it          *)
(* ================================================================== *)

Module GoTime.

(** A calendar date.  Every [time.Time] the code obtains from
    [time.Parse("01-2006", _)] is midnight UTC of the first day of a month,
    and the [DATE] columns keep the calendar date only, so parsed values are
    carried as dates. *)
Record Date := mkDate { year : Z; month : Z; day : Z }.

(** An instant read from [time.Now()] (the unit is immaterial). *)
Definition Timestamp := Z.

Definition date_compare (a b : Date) : comparison :=
  match year a ?= year b with
  | Eq => match month a ?= month b with
          | Eq => day a ?= day b
          | c => c
          end
  | c => c
  end.

Definition date_ltb (a b : Date) : bool :=
  match date_compare a b with Lt => true | _ => false end.

Definition date_leb (a b : Date) : bool :=
  match date_compare a b with Gt => false | _ => true end.

Definition date_geb (a b : Date) : bool :=
  match date_compare a b with Lt => false | _ => true end.

Definition date_eqb (a b : Date) : bool :=
  match date_compare a b with Eq => true | _ => false end.

(** [isDigit(s, i)] of [time/format.go], at the head of the string. *)
Definition isDigit (c : ascii) : bool :=
  ((48 <=? nat_of_ascii c) && (nat_of_ascii c <=? 57))%nat.

Definition digit_val (c : ascii) : Z := Z.of_nat (nat_of_ascii c) - 48.

(** [getnum(s, fixed = true)]: exactly two digits. *)
Definition getnum_fixed (s : string) : option (Z * string) :=
  match s with
  | String c0 (String c1 rest) =>
      if isDigit c0 && isDigit c1
      then Some (digit_val c0 * 10 + digit_val c1, rest)
      else None
  | _ => None
  end.

(** [skip(value, prefix)] for the one-character prefix ["-"]. *)
Definition skip_dash (s : string) : option string :=
  match s with
  | String c rest => if Ascii.eqb c "-" then Some rest else None
  | EmptyString => None
  end.

(** The [stdLongYear] case: at least four characters, the first a digit,
    and [atoi] of the first four succeeds (so all four are digits). *)
Definition get_long_year (s : string) : option (Z * string) :=
  match s with
  | String c0 (String c1 (String c2 (String c3 rest))) =>
      if isDigit c0 && isDigit c1 && isDigit c2 && isDigit c3
      then Some (((digit_val c0 * 10 + digit_val c1) * 10 + digit_val c2) * 10
                 + digit_val c3, rest)
      else None
  | _ => None
  end.

(** [time.Parse("01-2006", value)]: a two-digit month in 1..12, a dash, a
    four-digit year and nothing after it; the day defaults to 1.  [None] is
    the [*time.ParseError] result. *)
Definition Parse (value : string) : option Date :=
  match getnum_fixed value with
  | None => None
  | Some (m, rest) =>
      if (m <=? 0) || (12 <? m) then None        (* month out of range *)
      else
        match skip_dash rest with
        | None => None
        | Some rest =>
            match get_long_year rest with
            | None => None
            | Some (y, rest) =>
                match rest with
                | EmptyString => Some (mkDate y m 1)
                | _ => None                        (* extra text *)
                end
            end
        end
  end.

(** [t.AddDate(0, months, 0)]: Go normalises the month into 1..12 and
    carries into the year ([norm] in [time.Date]).  The day of the month
    stays as it is; all callers pass a first of the month, which exists in
    every month. *)
Definition AddMonths (months : Z) (t : Date) : Date :=
  let m := month t - 1 + months in
  mkDate (year t + m / 12) (m mod 12 + 1) (day t).

End GoTime.

(* ================================================================== *)
(** * Go [error] values                                               *)
(* ================================================================== *)

Module GoErrors.

(** What [database/sql] with the [lib/pq] driver can answer instead of a
    result.  The PostgreSQL conditions are named after their SQLSTATE. *)
Inductive DriverError :=
| ErrNoRows                    (* sql.ErrNoRows *)
| ErrBadConn                   (* the statement did not reach the server *)
| syntax_error                 (* 42601 *)
| undefined_table              (* 42P01 *)
| undefined_column             (* 42703 *)
| undefined_parameter          (* 42P02 *)
| indeterminate_datatype       (* 42P18 *)
| parameter_count_mismatch     (* pq: got n parameters but the statement requires m *)
| invalid_text_representation  (* 22P02 *)
| numeric_value_out_of_range   (* 22003 *)
| string_data_right_truncation (* 22001 *)
| not_null_violation           (* 23502 *)
| unique_violation             (* 23505 *)
| check_violation              (* 23514 *)
| ambiguous_parameter          (* 42P08 *)
| duplicate_column             (* 42701 *)
| invalid_escape_sequence      (* 22025 *)
| scan_error                   (* sql: Scan error on column ... *)
| feature_not_supported.       (* 0A000: outside the modelled fragment *)

Definition driver_message (e : DriverError) : string :=
  match e with
  | ErrNoRows => "sql: no rows in result set"
  | ErrBadConn => "driver: bad connection"
  | syntax_error => "pq: syntax error"
  | undefined_table => "pq: relation does not exist"
  | undefined_column => "pq: column does not exist"
  | undefined_parameter => "pq: there is no parameter"
  | indeterminate_datatype => "pq: could not determine data type of parameter"
  | parameter_count_mismatch => "pq: wrong number of parameters"
  | invalid_text_representation => "pq: invalid input syntax"
  | numeric_value_out_of_range => "pq: integer out of range"
  | string_data_right_truncation =>
      "pq: value too long for type character varying(255)"
  | not_null_violation => "pq: null value violates not-null constraint"
  | unique_violation =>
      "pq: duplicate key value violates unique constraint"
  | check_violation => "pq: new row violates check constraint"
  | ambiguous_parameter => "pq: inconsistent types deduced for parameter"
  | duplicate_column => "pq: column specified more than once"
  | invalid_escape_sequence =>
      "pq: LIKE pattern must not end with escape character"
  | scan_error => "sql: Scan error"
  | feature_not_supported => "pq: feature not supported"
  end.

(** A non-nil Go [error].  A nil [error] is [None] of [option error]. *)
Inductive error :=
| New (msg : string)                    (* errors.New(msg) *)
| ParseError (value : string)           (* *time.ParseError *)
| Driver (e : DriverError)              (* from database/sql or lib/pq *)
| WithMessage (cause : error) (msg : string).  (* errors.Wrap(cause, msg) *)

(** [errors.Wrap(err, msg)]: nil stays nil. *)
Definition Wrap (err : option error) (msg : string) : option error :=
  match err with
  | None => None
  | Some e => Some (WithMessage e msg)
  end.

(** [errors.Cause(err)]. *)
Fixpoint Cause (e : error) : error :=
  match e with
  | WithMessage c _ => Cause c
  | _ => e
  end.

(** [err.Error()].  The text of a [*time.ParseError] starts with
    [parsing time] followed by the quoted value; what follows it names the
    layout element and is left out. *)
Fixpoint Error (e : error) : string :=
  match e with
  | New msg => msg
  | ParseError v => "parsing time " ++ v
  | Driver d => driver_message d
  | WithMessage c msg => msg ++ ": " ++ Error c
  end.

(** [err == sql.ErrNoRows]: identity with the sentinel value. *)
Definition is_ErrNoRows (e : option error) : bool :=
  match e with
  | Some (Driver ErrNoRows) => true
  | _ => false
  end.

(** [time.Parse] as a Go call: a value and an [error]. *)
Definition time_Parse (value : string) : GoTime.Date * option error :=
  match GoTime.Parse value with
  | Some d => (d, None)
  | None => (GoTime.mkDate 1 1 1, Some (ParseError value))
  end.

End GoErrors.

(* ================================================================== *)
(** * The data model ([internal/models])                              *)
(* ================================================================== *)

(** A [uuid.UUID]: a 128-bit value. *)
Definition Uuid := N.

(** Modelled from the spec: the declarations of package [models] are not
    among the sources.  The fields are those the repository, the service and
    the table definition name; optional fields are Go pointers. *)
Module Sub.
Record t := mk {
  ID : Uuid;
  ServiceName : string;
  Price : Z;
  UserID : Uuid;
  StartDate : GoTime.Date;
  EndDate : option GoTime.Date;
  CreatedAt : GoTime.Timestamp;
  UpdatedAt : GoTime.Timestamp
}.
(** The zero value of the struct ([var sub models.Subscription]). *)
Definition zero : t := mk 0%N "" 0 0%N (GoTime.mkDate 1 1 1) None 0 0.
End Sub.
Definition Subscription := Sub.t.

Module CreateReq.
Record t := mk {
  ServiceName : string;
  Price : Z;
  UserID : Uuid;
  StartDate : string;
  EndDate : option string
}.
End CreateReq.
Definition CreateSubscriptionRequest := CreateReq.t.

Module UpdateReq.
Record t := mk {
  ServiceName : option string;
  Price : option Z;
  StartDate : option string;
  EndDate : option string
}.
End UpdateReq.
Definition UpdateSubscriptionRequest := UpdateReq.t.

Module Filter.
Record t := mk {
  UserID : option Uuid;
  ServiceName : option string;
  StartDate : option string;
  EndDate : option string
}.
End Filter.
Definition SubscriptionFilter := Filter.t.

(* ================================================================== *)
(** * PostgreSQL pattern matching: [LIKE] and [ILIKE]                 *)
(* ================================================================== *)

Module Like.

Definition lower_char (c : ascii) : ascii :=
  let n := nat_of_ascii c in
  if ((65 <=? n) && (n <=? 90))%nat then ascii_of_nat (n + 32) else c.

Fixpoint lower (s : string) : string :=
  match s with
  | EmptyString => EmptyString
  | String c s' => String (lower_char c) (lower s')
  end.

Inductive pat :=
| PLit (c : ascii)     (* an ordinary or escaped character *)
| PAnyChar             (* _ *)
| PAnyString.          (* % *)

(** The pattern read left to right; backslash is the escape character.
    [None]: the pattern ends with the escape character. *)
Fixpoint compile (p : string) : option (list pat) :=
  match p with
  | EmptyString => Some []
  | String c rest =>
      if Ascii.eqb c "\" then
        match rest with
        | EmptyString => None
        | String c' rest' => option_map (cons (PLit c')) (compile rest')
        end
      else if Ascii.eqb c "%" then option_map (cons PAnyString) (compile rest)
      else if Ascii.eqb c "_" then option_map (cons PAnyChar) (compile rest)
      else option_map (cons (PLit c)) (compile rest)
  end.

Fixpoint matches (ps : list pat) (s : string) {struct ps} : bool :=
  match ps with
  | [] => match s with EmptyString => true | _ => false end
  | PLit c :: ps' =>
      match s with
      | String c' s' => Ascii.eqb c c' && matches ps' s'
      | EmptyString => false
      end
  | PAnyChar :: ps' =>
      match s with
      | String _ s' => matches ps' s'
      | EmptyString => false
      end
  | PAnyString :: ps' =>
      (fix skip (s : string) : bool :=
         matches ps' s
         || match s with
            | String _ s' => skip s'
            | EmptyString => false
            end) s
  end.

(** The pattern that matches a text literally. *)
Fixpoint literals (s : string) : list pat :=
  match s with
  | EmptyString => []
  | String c s' => PLit c :: literals s'
  end.

(** [s LIKE p]; [None] is the error for a pattern ending in the escape. *)
Definition like (s p : string) : option bool :=
  option_map (fun ps => matches ps s) (compile p).

(** [s ILIKE p]: both sides are lower-cased, then matched. *)
Definition ilike (s p : string) : option bool := like (lower s) (lower p).

(** Plain substring search, the reading the specification gives to the
    service-name filter. *)
Fixpoint contains (needle hay : string) : bool :=
  String.prefix needle hay
  || match hay with
     | String _ hay' => contains needle hay'
     | EmptyString => false
     end.

Definition contains_ci (needle hay : string) : bool :=
  contains (lower needle) (lower hay).

(** The characters [LIKE] gives a meaning to. *)
Definition is_meta (c : ascii) : bool :=
  Ascii.eqb c "%" || Ascii.eqb c "_" || Ascii.eqb c "\".

Fixpoint plain (s : string) : bool :=
  match s with
  | EmptyString => true
  | String c s' => negb (is_meta c) && plain s'
  end.

End Like.

(* ================================================================== *)
(** * The SQL the repository sends, and the table it is run against   *)
(* ================================================================== *)

Module Sql.
Import GoErrors.

(** ** Results of the driver *)

Inductive result (A : Type) :=
| Ok (a : A)
| Fail (e : DriverError).
Arguments Ok {A} a.
Arguments Fail {A} e.

Definition bind {A B} (r : result A) (k : A -> result B) : result B :=
  match r with
  | Ok a => k a
  | Fail e => Fail e
  end.

Notation "x <- r ;; k" := (bind r (fun x => k))
  (at level 61, r at next level, right associativity).
Notation "' p <- r ;; k" := (bind r (fun x => let p := x in k))
  (at level 61, p pattern, r at next level, right associativity).

(** ** The [subscriptions] table of the migration *)

Inductive Column :=
| c_id | c_service_name | c_price | c_user_id
| c_start_date | c_end_date | c_created_at | c_updated_at.

Definition all_columns : list Column :=
  [c_id; c_service_name; c_price; c_user_id;
   c_start_date; c_end_date; c_created_at; c_updated_at].

Definition column_eqb (a b : Column) : bool :=
  match a, b with
  | c_id, c_id | c_service_name, c_service_name | c_price, c_price
  | c_user_id, c_user_id | c_start_date, c_start_date
  | c_end_date, c_end_date | c_created_at, c_created_at
  | c_updated_at, c_updated_at => true
  | _, _ => false
  end.

Definition column_of_name (w : string) : result Column :=
  if String.eqb w "id" then Ok c_id
  else if String.eqb w "service_name" then Ok c_service_name
  else if String.eqb w "price" then Ok c_price
  else if String.eqb w "user_id" then Ok c_user_id
  else if String.eqb w "start_date" then Ok c_start_date
  else if String.eqb w "end_date" then Ok c_end_date
  else if String.eqb w "created_at" then Ok c_created_at
  else if String.eqb w "updated_at" then Ok c_updated_at
  else Fail undefined_column.

Inductive ColType := TUuid | TText | TInt4 | TDate | TTimestamp.

Definition coltype_eqb (a b : ColType) : bool :=
  match a, b with
  | TUuid, TUuid | TText, TText | TInt4, TInt4
  | TDate, TDate | TTimestamp, TTimestamp => true
  | _, _ => false
  end.

(** [UUID], [VARCHAR(255)], [INTEGER], [DATE], [TIMESTAMP]. *)
Definition col_type (c : Column) : ColType :=
  match c with
  | c_id | c_user_id => TUuid
  | c_service_name => TText
  | c_price => TInt4
  | c_start_date | c_end_date => TDate
  | c_created_at | c_updated_at => TTimestamp
  end.

(** ** Lexical analysis *)

Inductive token :=
| TkWord (w : string)      (* keyword or identifier, folded to lower case *)
| TkNum (n : nat)
| TkParam (n : nat)        (* $n *)
| TkComma | TkLParen | TkRParen
| TkEq | TkLt | TkLe | TkGt | TkGe.

Inductive lex_state :=
| LIdle
| LWord (acc : string)
| LNum (n : nat)
| LParam (n : option nat)
| LLt | LGt.

Definition is_space (c : ascii) : bool :=
  let n := nat_of_ascii c in
  ((n =? 32) || (n =? 9) || (n =? 10) || (n =? 13))%nat.

Definition is_letter (c : ascii) : bool :=
  let n := nat_of_ascii c in
  (((65 <=? n) && (n <=? 90)) || ((97 <=? n) && (n <=? 122)) || (n =? 95))%nat.

Definition is_digit (c : ascii) : bool :=
  let n := nat_of_ascii c in ((48 <=? n) && (n <=? 57))%nat.

Definition digit (c : ascii) : nat := (nat_of_ascii c - 48)%nat.

(** The token in progress takes one more character, if it can. *)
Definition extend (st : lex_state) (c : ascii) : option lex_state :=
  match st with
  | LWord acc =>
      if is_letter c || is_digit c
      then Some (LWord (acc ++ String (Like.lower_char c) "")) else None
  | LNum n => if is_digit c then Some (LNum (10 * n + digit c)%nat) else None
  | LParam None => if is_digit c then Some (LParam (Some (digit c))) else None
  | LParam (Some n) =>
      if is_digit c then Some (LParam (Some (10 * n + digit c)%nat)) else None
  | _ => None
  end.

(** The token in progress is complete. *)
Definition flush (st : lex_state) : option (list token) :=
  match st with
  | LIdle => Some []
  | LWord acc => Some [TkWord acc]
  | LNum n => Some [TkNum n]
  | LParam None => None
  | LParam (Some n) => Some [TkParam n]
  | LLt => Some [TkLt]
  | LGt => Some [TkGt]
  end.

(** A character that starts a token (or is one). *)
Definition start (c : ascii) : option (list token * lex_state) :=
  if is_space c then Some ([], LIdle)
  else if is_letter c then Some ([], LWord (String (Like.lower_char c) ""))
  else if is_digit c then Some ([], LNum (digit c))
  else if Ascii.eqb c "$" then Some ([], LParam None)
  else if Ascii.eqb c "," then Some ([TkComma], LIdle)
  else if Ascii.eqb c "(" then Some ([TkLParen], LIdle)
  else if Ascii.eqb c ")" then Some ([TkRParen], LIdle)
  else if Ascii.eqb c "=" then Some ([TkEq], LIdle)
  else if Ascii.eqb c "<" then Some ([], LLt)
  else if Ascii.eqb c ">" then Some ([], LGt)
  else None.

Fixpoint lex (s : string) (st : lex_state) : option (list token) :=
  match s with
  | EmptyString => flush st
  | String c s' =>
      match st, Ascii.eqb c "=" with
      | LLt, true => option_map (cons TkLe) (lex s' LIdle)
      | LGt, true => option_map (cons TkGe) (lex s' LIdle)
      | _, _ =>
          match extend st c with
          | Some st' => lex s' st'
          | None =>
              match flush st, start c with
              | Some done, Some (now, st') =>
                  option_map (fun r => done ++ now ++ r) (lex s' st')
              | _, _ => None
              end
          end
      end
  end.

Definition tokens (q : string) : result (list token) :=
  match lex q LIdle with
  | Some ts => Ok ts
  | None => Fail syntax_error
  end.

(** ** Syntax *)

Inductive cmp_op := OpEq | OpLt | OpLe | OpGt | OpGe.

Inductive cond :=
| CNum (a : nat) (op : cmp_op) (b : nat)        (* 1=1 *)
| CCmp (c : Column) (op : cmp_op) (p : nat)     (* column op $p *)
| CILike (c : Column) (p : nat)                 (* column ILIKE $p *)
| CIsNull (c : Column)                          (* column IS NULL *)
| COr (a b : cond)
| CAnd (a b : cond).

Inductive projection :=
| PColumns (cs : list Column)
| PCoalesceSum (c : Column) (dflt : nat).       (* COALESCE(SUM(c), dflt) *)

Inductive assignment :=
| SetParam (c : Column) (p : nat)               (* c = $p *)
| SetNull (c : Column).                         (* c = NULL *)

Inductive stmt :=
| Insert (cols : list Column) (vals : list nat)
| Select (proj : projection) (where_ : cond) (order_ : option (Column * bool))
| Update (sets : list assignment) (where_ : cond)
| Delete (where_ : cond).

Definition op_of_token (t : token) : option cmp_op :=
  match t with
  | TkEq => Some OpEq | TkLt => Some OpLt | TkLe => Some OpLe
  | TkGt => Some OpGt | TkGe => Some OpGe
  | _ => None
  end.

Definition is_word (w : string) (t : token) : bool :=
  match t with TkWord w' => String.eqb w w' | _ => false end.

Definition p_table (ts : list token) : result (list token) :=
  match ts with
  | TkWord w :: rest =>
      if String.eqb w "subscriptions" then Ok rest else Fail undefined_table
  | _ => Fail syntax_error
  end.

(** [column {, column}] *)
Fixpoint p_columns (ts : list token) : result (list Column * list token) :=
  match ts with
  | TkWord w :: TkComma :: rest =>
      c <- column_of_name w ;;
      ' (cs, rest') <- p_columns rest ;;
      Ok (c :: cs, rest')
  | TkWord w :: rest => c <- column_of_name w ;; Ok ([c], rest)
  | _ => Fail syntax_error
  end.

(** [$n {, $n}] *)
Fixpoint p_params (ts : list token) : result (list nat * list token) :=
  match ts with
  | TkParam n :: TkComma :: rest =>
      ' (ns, rest') <- p_params rest ;; Ok (n :: ns, rest')
  | TkParam n :: rest => Ok ([n], rest)
  | _ => Fail syntax_error
  end.

(** [column = ($n | NULL) {, column = ($n | NULL)}] *)
Fixpoint p_assignments (ts : list token)
  : result (list assignment * list token) :=
  match ts with
  | TkWord w :: TkEq :: TkParam n :: TkComma :: rest =>
      c <- column_of_name w ;;
      ' (l, rest') <- p_assignments rest ;;
      Ok (SetParam c n :: l, rest')
  | TkWord w :: TkEq :: TkParam n :: rest =>
      c <- column_of_name w ;; Ok ([SetParam c n], rest)
  | TkWord w :: TkEq :: TkWord v :: rest =>
      if String.eqb v "null" then
        c <- column_of_name w ;;
        match rest with
        | TkComma :: rest' =>
            ' (l, rest'') <- p_assignments rest' ;;
            Ok (SetNull c :: l, rest'')
        | _ => Ok ([SetNull c], rest)
        end
      else Fail syntax_error
  | _ => Fail syntax_error
  end.

(** A comparison without parentheses. *)
Definition p_atom (ts : list token) : result (cond * list token) :=
  match ts with
  | TkNum a :: t :: TkNum b :: rest =>
      match op_of_token t with
      | Some op => Ok (CNum a op b, rest)
      | None => Fail syntax_error
      end
  | TkWord w :: TkWord k :: rest =>
      if String.eqb k "is" then
        match rest with
        | TkWord n :: rest' =>
            if String.eqb n "null"
            then c <- column_of_name w ;; Ok (CIsNull c, rest')
            else Fail syntax_error
        | _ => Fail syntax_error
        end
      else if String.eqb k "ilike" then
        match rest with
        | TkParam p :: rest' => c <- column_of_name w ;; Ok (CILike c p, rest')
        | _ => Fail syntax_error
        end
      else Fail syntax_error
  | TkWord w :: t :: TkParam p :: rest =>
      match op_of_token t with
      | Some op => c <- column_of_name w ;; Ok (CCmp c op p, rest)
      | None => Fail syntax_error
      end
  | _ => Fail syntax_error
  end.

(** [{OR atom}], after a first atom. *)
Fixpoint p_or (fuel : nat) (acc : cond) (ts : list token)
  : result (cond * list token) :=
  match fuel, ts with
  | S fuel', TkWord w :: rest =>
      if String.eqb w "or" then
        ' (a, rest') <- p_atom rest ;; p_or fuel' (COr acc a) rest'
      else Ok (acc, ts)
  | _, _ => Ok (acc, ts)
  end.

(** An atom, or a parenthesised disjunction of atoms. *)
Definition p_term (ts : list token) : result (cond * list token) :=
  match ts with
  | TkLParen :: rest =>
      ' (a, rest') <- p_atom rest ;;
      ' (d, rest'') <- p_or (List.length rest') a rest' ;;
      match rest'' with
      | TkRParen :: rest''' => Ok (d, rest''')
      | _ => Fail syntax_error
      end
  | _ => p_atom ts
  end.

(** [{AND term}], after a first term. *)
Fixpoint p_and (fuel : nat) (acc : cond) (ts : list token)
  : result (cond * list token) :=
  match fuel, ts with
  | S fuel', TkWord w :: rest =>
      if String.eqb w "and" then
        ' (t, rest') <- p_term rest ;; p_and fuel' (CAnd acc t) rest'
      else Ok (acc, ts)
  | _, _ => Ok (acc, ts)
  end.

Definition p_cond (ts : list token) : result (cond * list token) :=
  ' (t, rest) <- p_term ts ;; p_and (List.length rest) t rest.

(** [WHERE cond] *)
Definition p_where (ts : list token) : result (cond * list token) :=
  match ts with
  | TkWord w :: rest =>
      if String.eqb w "where" then p_cond rest else Fail syntax_error
  | _ => Fail syntax_error
  end.

(** [[ORDER BY column [ASC | DESC]]] and the end of the statement. *)
Definition p_order (ts : list token) : result (option (Column * bool)) :=
  match ts with
  | [] => Ok None
  | [TkWord o; TkWord b; TkWord w] =>
      if String.eqb o "order" && String.eqb b "by"
      then c <- column_of_name w ;; Ok (Some (c, false))
      else Fail syntax_error
  | [TkWord o; TkWord b; TkWord w; TkWord d] =>
      if String.eqb o "order" && String.eqb b "by" then
        c <- column_of_name w ;;
        if String.eqb d "desc" then Ok (Some (c, true))
        else if String.eqb d "asc" then Ok (Some (c, false))
        else Fail syntax_error
      else Fail syntax_error
  | _ => Fail syntax_error
  end.

Definition p_projection (ts : list token) : result (projection * list token) :=
  match ts with
  | TkWord f :: TkLParen :: TkWord g :: TkLParen :: TkWord w :: TkRParen
      :: TkComma :: TkNum d :: TkRParen :: rest =>
      if String.eqb f "coalesce" && String.eqb g "sum"
      then c <- column_of_name w ;; Ok (PCoalesceSum c d, rest)
      else Fail feature_not_supported
  | _ => ' (cs, rest) <- p_columns ts ;; Ok (PColumns cs, rest)
  end.

Definition expect_end {A} (a : A) (ts : list token) : result A :=
  match ts with [] => Ok a | _ => Fail syntax_error end.

Definition p_stmt (ts : list token) : result stmt :=
  match ts with
  | TkWord k :: rest =>
      if String.eqb k "insert" then
        match rest with
        | TkWord i :: rest1 =>
            if String.eqb i "into" then
              rest2 <- p_table rest1 ;;
              match rest2 with
              | TkLParen :: rest3 =>
                  ' (cs, rest4) <- p_columns rest3 ;;
                  match rest4 with
                  | TkRParen :: TkWord v :: TkLParen :: rest5 =>
                      if String.eqb v "values" then
                        ' (ps, rest6) <- p_params rest5 ;;
                        match rest6 with
                        | [TkRParen] => Ok (Insert cs ps)
                        | _ => Fail syntax_error
                        end
                      else Fail syntax_error
                  | _ => Fail syntax_error
                  end
              | _ => Fail syntax_error
              end
            else Fail syntax_error
        | _ => Fail syntax_error
        end
      else if String.eqb k "select" then
        ' (proj, rest1) <- p_projection rest ;;
        match rest1 with
        | TkWord f :: rest2 =>
            if String.eqb f "from" then
              rest3 <- p_table rest2 ;;
              ' (c, rest4) <- p_where rest3 ;;
              o <- p_order rest4 ;;
              Ok (Select proj c o)
            else Fail syntax_error
        | _ => Fail syntax_error
        end
      else if String.eqb k "update" then
        rest1 <- p_table rest ;;
        match rest1 with
        | TkWord s :: rest2 =>
            if String.eqb s "set" then
              ' (l, rest3) <- p_assignments rest2 ;;
              ' (c, rest4) <- p_where rest3 ;;
              expect_end (Update l c) rest4
            else Fail syntax_error
        | _ => Fail syntax_error
        end
      else if String.eqb k "delete" then
        match rest with
        | TkWord f :: rest1 =>
            if String.eqb f "from" then
              rest2 <- p_table rest1 ;;
              ' (c, rest3) <- p_where rest2 ;;
              expect_end (Delete c) rest3
            else Fail syntax_error
        | _ => Fail syntax_error
        end
      else Fail syntax_error
  | _ => Fail syntax_error
  end.

(** From the text of a statement to its syntax tree. *)
Definition parse (q : string) : result stmt :=
  ts <- tokens q ;; p_stmt ts.

(** ** Values *)

(** What the Go code passes as a statement argument. *)
Inductive Value :=
| VUuid (u : Uuid)
| VString (s : string)
| VInt (n : Z)
| VDate (d : GoTime.Date)            (* a time.Time from time.Parse *)
| VTimestamp (t : GoTime.Timestamp)  (* a time.Time from time.Now *)
| VNull.                             (* a nil pointer *)

(** What a column holds. *)
Inductive SqlVal :=
| SNull
| SUuid (u : Uuid)
| SText (s : string)
| SInt (n : Z)
| SDate (d : GoTime.Date)
| STimestamp (t : GoTime.Timestamp).

Definition int4_min : Z := -2147483648.
Definition int4_max : Z := 2147483647.

(** An argument read at the type the statement gives its parameter.  The
    code always passes an argument of the Go type that corresponds to the
    column; the other conversions of PostgreSQL are not modelled. *)
Definition coerce (ty : ColType) (v : Value) : result SqlVal :=
  match v, ty with
  | VNull, _ => Ok SNull
  | VUuid u, TUuid => Ok (SUuid u)
  | VString s, TText => Ok (SText s)
  | VInt n, TInt4 =>
      if (int4_min <=? n) && (n <=? int4_max) then Ok (SInt n)
      else Fail numeric_value_out_of_range
  | VDate d, TDate => Ok (SDate d)
  | VTimestamp t, TTimestamp => Ok (STimestamp t)
  | _, _ => Fail feature_not_supported
  end.

Definition value_of (c : Column) (r : Subscription) : SqlVal :=
  match c with
  | c_id => SUuid (Sub.ID r)
  | c_service_name => SText (Sub.ServiceName r)
  | c_price => SInt (Sub.Price r)
  | c_user_id => SUuid (Sub.UserID r)
  | c_start_date => SDate (Sub.StartDate r)
  | c_end_date =>
      match Sub.EndDate r with Some d => SDate d | None => SNull end
  | c_created_at => STimestamp (Sub.CreatedAt r)
  | c_updated_at => STimestamp (Sub.UpdatedAt r)
  end.

(** ** Parameters: their number and types *)

Fixpoint cond_params (c : cond) : list (nat * ColType) :=
  match c with
  | CNum _ _ _ => []
  | CCmp col _ p => [(p, col_type col)]
  | CILike _ p => [(p, TText)]
  | CIsNull _ => []
  | COr a b | CAnd a b => cond_params a ++ cond_params b
  end.

Definition set_params (a : assignment) : list (nat * ColType) :=
  match a with
  | SetParam c p => [(p, col_type c)]
  | SetNull _ => []
  end.

Definition stmt_params (s : stmt) : list (nat * ColType) :=
  match s with
  | Insert cols vals => combine vals (map col_type cols)
  | Select _ w _ => cond_params w
  | Update sets w => flat_map set_params sets ++ cond_params w
  | Delete w => cond_params w
  end.

Fixpoint map_result {A B} (f : A -> result B) (l : list A) : result (list B) :=
  match l with
  | [] => Ok []
  | a :: l' => b <- f a ;; bs <- map_result f l' ;; Ok (b :: bs)
  end.

Definition param_type (ps : list (nat * ColType)) (i : nat) : result ColType :=
  match filter (fun p => Nat.eqb (fst p) i) ps with
  | [] => Fail indeterminate_datatype
  | (_, t) :: rest =>
      if forallb (fun p => coltype_eqb t (snd p)) rest then Ok t
      else Fail ambiguous_parameter
  end.

(** The statement needs the parameters $1..$n, n the largest one named,
    and each needs one type. *)
Definition param_types (ps : list (nat * ColType)) : result (list ColType) :=
  if existsb (fun p => Nat.eqb (fst p) 0) ps then Fail undefined_parameter
  else map_result (param_type ps) (seq 1 (list_max (map fst ps))).

Definition bind_args (tys : list ColType) (args : list Value)
  : result (list SqlVal) :=
  if Nat.eqb (List.length args) (List.length tys)
  then map_result (fun p => coerce (fst p) (snd p)) (combine tys args)
  else Fail parameter_count_mismatch.

Definition param (bound : list SqlVal) (p : nat) : SqlVal :=
  nth (p - 1) bound SNull.

(** ** Static checks *)

Fixpoint check_cond (c : cond) : result unit :=
  match c with
  | CILike col _ =>
      if coltype_eqb (col_type col) TText then Ok tt
      else Fail feature_not_supported
  | COr a b | CAnd a b => _ <- check_cond a ;; check_cond b
  | _ => Ok tt
  end.

Definition assigned (a : assignment) : Column :=
  match a with SetParam c _ | SetNull c => c end.

Fixpoint distinct (cs : list Column) : bool :=
  match cs with
  | [] => true
  | c :: cs' => negb (existsb (column_eqb c) cs') && distinct cs'
  end.

Definition covers_all (cs : list Column) : bool :=
  forallb (fun c => existsb (column_eqb c) cs) all_columns.

Definition check_stmt (s : stmt) : result unit :=
  match s with
  | Insert cols vals =>
      if negb (Nat.eqb (List.length cols) (List.length vals))
      then Fail syntax_error
      else if negb (distinct cols) then Fail duplicate_column
      else if negb (covers_all cols) then Fail feature_not_supported
      else Ok tt
  | Select (PCoalesceSum c _) w _ =>
      if coltype_eqb (col_type c) TInt4 then check_cond w
      else Fail feature_not_supported
  | Select (PColumns _) w _ => check_cond w
  | Update sets w =>
      if distinct (map assigned sets) then check_cond w
      else Fail syntax_error
  | Delete w => check_cond w
  end.

(** ** Evaluation of conditions, in SQL's three-valued logic
    ([None] is NULL) *)

Definition sql_or (a b : option bool) : option bool :=
  match a, b with
  | Some true, _ | _, Some true => Some true
  | Some false, Some false => Some false
  | _, _ => None
  end.

Definition sql_and (a b : option bool) : option bool :=
  match a, b with
  | Some false, _ | _, Some false => Some false
  | Some true, Some true => Some true
  | _, _ => None
  end.

(** Values of one type compare; NULL compares with nothing.  Text is
    compared byte-wise (the code compares text with [ILIKE] only). *)
Definition sql_compare (a b : SqlVal) : option comparison :=
  match a, b with
  | SUuid x, SUuid y => Some (N.compare x y)
  | SText x, SText y => Some (String.compare x y)
  | SInt x, SInt y => Some (Z.compare x y)
  | SDate x, SDate y => Some (GoTime.date_compare x y)
  | STimestamp x, STimestamp y => Some (Z.compare x y)
  | _, _ => None
  end.

Definition holds (op : cmp_op) (c : comparison) : bool :=
  match op, c with
  | OpEq, Eq | OpLt, Lt | OpLe, Lt | OpLe, Eq
  | OpGt, Gt | OpGe, Gt | OpGe, Eq => true
  | _, _ => false
  end.

Fixpoint eval_cond (bound : list SqlVal) (r : Subscription) (c : cond)
  : result (option bool) :=
  match c with
  | CNum a op b => Ok (Some (holds op (Nat.compare a b)))
  | CCmp col op p =>
      Ok (option_map (holds op) (sql_compare (value_of col r) (param bound p)))
  | CILike col p =>
      match value_of col r, param bound p with
      | SText s, SText pattern =>
          match Like.ilike s pattern with
          | Some b => Ok (Some b)
          | None => Fail invalid_escape_sequence
          end
      | _, _ => Ok None
      end
  | CIsNull col =>
      Ok (Some match value_of col r with SNull => true | _ => false end)
  | COr a b =>
      x <- eval_cond bound r a ;; y <- eval_cond bound r b ;; Ok (sql_or x y)
  | CAnd a b =>
      x <- eval_cond bound r a ;; y <- eval_cond bound r b ;; Ok (sql_and x y)
  end.

(** A row is selected when the condition is true (not false, not NULL). *)
Definition selected (bound : list SqlVal) (w : cond) (r : Subscription)
  : result bool :=
  v <- eval_cond bound r w ;;
  Ok match v with Some true => true | _ => false end.

Fixpoint filter_rows (bound : list SqlVal) (w : cond) (t : list Subscription)
  : result (list Subscription) :=
  match t with
  | [] => Ok []
  | r :: t' =>
      b <- selected bound w r ;;
      rest <- filter_rows bound w t' ;;
      Ok (if b then r :: rest else rest)
  end.

(** ** Writing a column *)

Fixpoint all_spaces (s : string) : bool :=
  match s with
  | EmptyString => true
  | String c s' => Ascii.eqb c " " && all_spaces s'
  end.

(** Assignment to [VARCHAR(255)]: longer text is an error, unless what
    exceeds the limit is spaces only, which are then cut off. *)
Definition varchar255 (s : string) : result string :=
  if (String.length s <=? 255)%nat then Ok s
  else if all_spaces (String.substring 255 (String.length s - 255) s)
       then Ok (String.substring 0 255 s)
       else Fail string_data_right_truncation.

Definition set_column (c : Column) (v : SqlVal) (r : Subscription)
  : result Subscription :=
  let '(Sub.mk id name price user start end_ created updated) := r in
  match c, v with
  | c_id, SUuid u => Ok (Sub.mk u name price user start end_ created updated)
  | c_service_name, SText s =>
      s' <- varchar255 s ;;
      Ok (Sub.mk id s' price user start end_ created updated)
  | c_price, SInt n => Ok (Sub.mk id name n user start end_ created updated)
  | c_user_id, SUuid u => Ok (Sub.mk id name price u start end_ created updated)
  | c_start_date, SDate d =>
      Ok (Sub.mk id name price user d end_ created updated)
  | c_end_date, SDate d =>
      Ok (Sub.mk id name price user start (Some d) created updated)
  | c_end_date, SNull =>
      Ok (Sub.mk id name price user start None created updated)
  | c_created_at, STimestamp t =>
      Ok (Sub.mk id name price user start end_ t updated)
  | c_updated_at, STimestamp t =>
      Ok (Sub.mk id name price user start end_ created t)
  | _, SNull => Fail not_null_violation
  | _, _ => Fail invalid_text_representation
  end.

(** [CHECK (price > 0)] *)
Definition check_row (r : Subscription) : result Subscription :=
  if 0 <? Sub.Price r then Ok r else Fail check_violation.

Fixpoint store_columns (l : list (Column * SqlVal)) (r : Subscription)
  : result Subscription :=
  match l with
  | [] => Ok r
  | (c, v) :: l' => r' <- set_column c v r ;; store_columns l' r'
  end.

Definition assigned_value (bound : list SqlVal) (a : assignment)
  : Column * SqlVal :=
  match a with
  | SetParam c p => (c, param bound p)
  | SetNull c => (c, SNull)
  end.

(** ** Execution *)

Definition Table := list Subscription.

Definition has_id (u : Uuid) (t : Table) : bool :=
  existsb (fun r => N.eqb (Sub.ID r) u) t.

Fixpoint unique_ids (t : Table) : bool :=
  match t with
  | [] => true
  | r :: t' => negb (has_id (Sub.ID r) t') && unique_ids t'
  end.

(** [INSERT]: the row is built, checked, and added unless its primary key
    is taken. *)
Definition exec_insert (bound : list SqlVal) (cols : list Column)
    (vals : list nat) (t : Table) : result Table :=
  r <- store_columns (combine cols (map (param bound) vals)) Sub.zero ;;
  r <- check_row r ;;
  if has_id (Sub.ID r) t then Fail unique_violation else Ok (t ++ [r]).

(** [UPDATE]: every selected row is rewritten and checked; one failure
    fails the statement. *)
Fixpoint update_rows (bound : list SqlVal) (sets : list assignment)
    (w : cond) (t : Table) : result Table :=
  match t with
  | [] => Ok []
  | r :: t' =>
      b <- selected bound w r ;;
      r' <- (if b
             then r1 <- store_columns (map (assigned_value bound) sets) r ;;
                  check_row r1
             else Ok r) ;;
      rest <- update_rows bound sets w t' ;;
      Ok (r' :: rest)
  end.

Definition exec_update (bound : list SqlVal) (sets : list assignment)
    (w : cond) (t : Table) : result Table :=
  t' <- update_rows bound sets w t ;;
  if existsb (column_eqb c_id) (map assigned sets) && negb (unique_ids t')
  then Fail unique_violation
  else Ok t'.

(** [DELETE]: the selected rows go. *)
Fixpoint delete_rows (bound : list SqlVal) (w : cond) (t : Table)
  : result Table :=
  match t with
  | [] => Ok []
  | r :: t' =>
      b <- selected bound w r ;;
      rest <- delete_rows bound w t' ;;
      Ok (if b then rest else r :: rest)
  end.

(** [ORDER BY c [DESC]]: [r1] may stand before [r2]. *)
Definition in_order (o : Column * bool) (r1 r2 : Subscription) : bool :=
  let '(c, desc) := o in
  match sql_compare (value_of c r1) (value_of c r2) with
  | Some Lt => negb desc
  | Some Gt => desc
  | _ => true
  end.

Fixpoint insert_sorted (o : Column * bool) (r : Subscription) (l : Table)
  : Table :=
  match l with
  | [] => [r]
  | r' :: l' =>
      if in_order o r r' then r :: l else r' :: insert_sorted o r l'
  end.

(** The order among rows with equal keys is not fixed by SQL; here they
    keep the order of the table. *)
Definition sort_rows (o : option (Column * bool)) (l : Table) : Table :=
  match o with
  | None => l
  | Some o => fold_right (insert_sorted o) [] l
  end.

Definition sum_prices (l : Table) : Z :=
  fold_right (fun r acc => Sub.Price r + acc) 0 l.

(** The result rows of a [SELECT].  [SUM] over no rows is NULL, which
    [COALESCE] replaces.  [SUM] over [INTEGER] is a [bigint]; below 2^32 rows
    it cannot leave the 64-bit range, and the model sums in Z. *)
Definition project (p : projection) (l : Table) : list (list SqlVal) :=
  match p with
  | PColumns cs => map (fun r => map (fun c => value_of c r) cs) l
  | PCoalesceSum _ d =>
      match l with
      | [] => [[SInt (Z.of_nat d)]]
      | _ => [[SInt (sum_prices l)]]
      end
  end.

Definition exec (s : stmt) (bound : list SqlVal) (t : Table)
  : result (list (list SqlVal) * Table) :=
  match s with
  | Insert cols vals => t' <- exec_insert bound cols vals t ;; Ok ([], t')
  | Select p w o =>
      rows <- filter_rows bound w t ;; Ok (project p (sort_rows o rows), t)
  | Update sets w => t' <- exec_update bound sets w t ;; Ok ([], t')
  | Delete w => t' <- delete_rows bound w t ;; Ok ([], t')
  end.

(** What the server does with the text of a statement before it sees any
    argument: it is parsed and checked, and its parameters are typed. *)
Definition prepare (q : string) : result (stmt * list ColType) :=
  s <- parse q ;;
  _ <- check_stmt s ;;
  tys <- param_types (stmt_params s) ;;
  Ok (s, tys).

(** A statement from its text to its effect: prepared, the arguments bound,
    and run. *)
Definition run (q : string) (args : list Value) (t : Table)
  : result (list (list SqlVal) * Table) :=
  ' (s, tys) <- prepare q ;;
  bound <- bind_args tys args ;;
  exec s bound t.

(** ** The database handle ([*sql.DB]) *)

(** The table, whether the server can be reached, and the statements that
    were submitted, oldest first. *)
Record DB := mkDB {
  table : Table;
  online : bool;
  log : list (string * list Value)
}.

Definition submit (q : string) (args : list Value) (db : DB)
  : result (list (list SqlVal)) * DB :=
  let log' := log db ++ [(q, args)] in
  if online db then
    match run q args (table db) with
    | Ok (rows, t') => (Ok rows, mkDB t' true log')
    | Fail e => (Fail e, mkDB (table db) true log')
    end
  else (Fail ErrBadConn, mkDB (table db) false log').

(** [db.ExecContext(ctx, query, args...)], the [sql.Result] dropped. *)
Definition ExecContext (q : string) (args : list Value) (db : DB)
  : option error * DB :=
  match submit q args db with
  | (Ok _, db') => (None, db')
  | (Fail e, db') => (Some (Driver e), db')
  end.

(** [db.QueryContext(ctx, query, args...)]: the rows and an error. *)
Definition QueryContext (q : string) (args : list Value) (db : DB)
  : (list (list SqlVal) * option error) * DB :=
  match submit q args db with
  | (Ok rows, db') => ((rows, None), db')
  | (Fail e, db') => (([], Some (Driver e)), db')
  end.

(** [db.QueryRowContext(ctx, query, args...)]: a [*sql.Row], which keeps
    the error until [Scan]. *)
Definition QueryRowContext (q : string) (args : list Value) (db : DB)
  : result (list (list SqlVal)) * DB := submit q args db.

(** [Scan] into the eight fields of a subscription, in the order of the
    column list of the two [SELECT]s. *)
Definition scan_subscription (vals : list SqlVal) : option Subscription :=
  match vals with
  | [SUuid id; SText name; SInt price; SUuid user; SDate start; SDate e;
     STimestamp created; STimestamp updated] =>
      Some (Sub.mk id name price user start (Some e) created updated)
  | [SUuid id; SText name; SInt price; SUuid user; SDate start; SNull;
     STimestamp created; STimestamp updated] =>
      Some (Sub.mk id name price user start None created updated)
  | _ => None
  end.

(** [row.Scan(&sub.ID, ...)] on a [*sql.Row]: the first row, or
    [sql.ErrNoRows].  On an error the destination keeps its value. *)
Definition Row_Scan_subscription (row : result (list (list SqlVal)))
    (dest : Subscription) : Subscription * option error :=
  match row with
  | Fail e => (dest, Some (Driver e))
  | Ok [] => (dest, Some (Driver ErrNoRows))
  | Ok (vals :: _) =>
      match scan_subscription vals with
      | Some s => (s, None)
      | None => (dest, Some (Driver scan_error))
      end
  end.

(** [row.Scan(&totalCost)] *)
Definition Row_Scan_int (row : result (list (list SqlVal))) (dest : Z)
  : Z * option error :=
  match row with
  | Fail e => (dest, Some (Driver e))
  | Ok [] => (dest, Some (Driver ErrNoRows))
  | Ok ([SInt n] :: _) => (n, None)
  | Ok _ => (dest, Some (Driver scan_error))
  end.

End Sql.

(* ================================================================== *)
(** * [fmt.Sprintf] with the verb [%d]                                *)
(* ================================================================== *)

Module Fmt.

Definition Itoa (n : nat) : string := NilZero.string_of_uint (Nat.to_uint n).

(** [fmt.Sprintf(format, a...)] for formats whose only verb is [%d] and
    integer operands: each [%d] takes the next operand (a verb without an
    operand prints as Go marks it). *)
Fixpoint Sprintf (format : string) (a : list nat) : string :=
  match format with
  | EmptyString => EmptyString
  | String c rest =>
      if Ascii.eqb c "%" then
        match rest with
        | String d rest' =>
            if Ascii.eqb d "d" then
              match a with
              | n :: a' => Itoa n ++ Sprintf rest' a'
              | [] => "%!d(MISSING)" ++ Sprintf rest' []
              end
            else String c (String d (Sprintf rest' a))
        | EmptyString => "%!(NOVERB)"
        end
      else String c (Sprintf rest a)
  end.

End Fmt.

(* ================================================================== *)
(** * [internal/repository]                                           *)
(* ================================================================== *)

Module Repository.
Import GoErrors Sql Fmt.
Local Open Scope string_scope.

(** Go's built-in [append(slice, elems...)]. *)
Definition append {A} (slice elems : list A) : list A := (slice ++ elems)%list.

(** The state of a function body that may [return] before its end. *)
Inductive flow (R A : Type) :=
| Return (r : R)
| Next (a : A).
Arguments Return {R A} r.
Arguments Next {R A} a.

Definition nullable_date (d : option GoTime.Date) : Value :=
  match d with Some d => VDate d | None => VNull end.

Definition Create (sub : Subscription) (db : DB) : option error * DB :=
  let query := "
        INSERT INTO subscriptions (id, service_name, price, user_id, start_date, end_date, created_at, updated_at)
        VALUES ($1, $2, $3, $4, $5, $6, $7, $8)
    " in
  let '(err, db) :=
    ExecContext query
      [VUuid (Sub.ID sub); VString (Sub.ServiceName sub);
       VInt (Sub.Price sub); VUuid (Sub.UserID sub);
       VDate (Sub.StartDate sub); nullable_date (Sub.EndDate sub);
       VTimestamp (Sub.CreatedAt sub); VTimestamp (Sub.UpdatedAt sub)] db in
  (Wrap err "failed to create subscription", db).

Definition GetByID (id : Uuid) (db : DB)
  : (option Subscription * option error) * DB :=
  let query := "
        SELECT id, service_name, price, user_id, start_date, end_date, created_at, updated_at
        FROM subscriptions WHERE id = $1
    " in
  let '(row, db) := QueryRowContext query [VUuid id] db in
  let '(sub, err) := Row_Scan_subscription row Sub.zero in
  if is_ErrNoRows err then ((None, None), db)
  else ((Some sub, Wrap err "failed to get subscription by id"), db).

(** [now] is the reading of [time.Now()]. *)
Definition Update (now : GoTime.Timestamp) (id : Uuid)
    (req : UpdateSubscriptionRequest) (db : DB) : option error * DB :=
  let query := "UPDATE subscriptions SET " in
  let args : list Value := [] in
  let argPos := 1%nat in
  let '(query, args, argPos) :=
    match UpdateReq.ServiceName req with
    | Some name =>
        (query ++ Sprintf "service_name = $%d, " [argPos],
         append args [VString name], S argPos)
    | None => (query, args, argPos)
    end in
  let '(query, args, argPos) :=
    match UpdateReq.Price req with
    | Some price =>
        (query ++ Sprintf "price = $%d, " [argPos],
         append args [VInt price], S argPos)
    | None => (query, args, argPos)
    end in
  match
    match UpdateReq.StartDate req with
    | Some s =>
        let '(startDate, err) := time_Parse s in
        match err with
        | Some _ => Return (Wrap err "invalid start date format")
        | None =>
            Next (query ++ Sprintf "start_date = $%d, " [argPos],
                  append args [VDate startDate], S argPos)
        end
    | None => Next (query, args, argPos)
    end
  with
  | Return err => (err, db)
  | Next (query, args, argPos) =>
      match
        match UpdateReq.EndDate req with
        | Some e =>
            if String.eqb e "" then
              Next (query ++ "end_date = NULL, ", args, argPos)
            else
              let '(endDate, err) := time_Parse e in
              match err with
              | Some _ => Return (Wrap err "invalid end date format")
              | None =>
                  Next (query ++ Sprintf "end_date = $%d, " [argPos],
                        append args [VDate endDate], S argPos)
              end
        | None => Next (query, args, argPos)
        end
      with
      | Return err => (err, db)
      | Next (query, args, argPos) =>
          let query :=
            query ++ Sprintf "updated_at = $%d WHERE id = $%d"
                       [argPos; (argPos + 1)%nat] in
          let args := append args [VTimestamp now; VUuid id] in
          let '(err, db) := ExecContext query args db in
          (Wrap err "failed to update subscription", db)
      end
  end.

Definition Delete (id : Uuid) (db : DB) : option error * DB :=
  let query := "DELETE FROM subscriptions WHERE id = $1" in
  let '(err, db) := ExecContext query [VUuid id] db in
  (Wrap err "failed to delete subscription", db).

(** The loop [for rows.Next() { rows.Scan(...); append }]. *)
Fixpoint scan_rows (rows : list (list SqlVal)) (subscriptions : list Subscription)
  : list Subscription * option error :=
  match rows with
  | [] => (subscriptions, None)
  | vals :: rows' =>
      match scan_subscription vals with
      | None => ([], Wrap (Some (Driver scan_error)) "failed to scan subscription")
      | Some sub => scan_rows rows' (append subscriptions [sub])
      end
  end.

Definition List (filter : SubscriptionFilter) (db : DB)
  : (list Subscription * option error) * DB :=
  let query := "
        SELECT id, service_name, price, user_id, start_date, end_date, created_at, updated_at
        FROM subscriptions WHERE 1=1
    " in
  let args : list Value := [] in
  let argPos := 1%nat in
  let '(query, args, argPos) :=
    match Filter.UserID filter with
    | Some u =>
        (query ++ Sprintf " AND user_id = $%d" [argPos],
         append args [VUuid u], S argPos)
    | None => (query, args, argPos)
    end in
  let '(query, args, argPos) :=
    match Filter.ServiceName filter with
    | Some name =>
        (query ++ Sprintf " AND service_name ILIKE $%d" [argPos],
         append args [VString ("%" ++ name ++ "%")], S argPos)
    | None => (query, args, argPos)
    end in
  let query := query ++ " ORDER BY created_at DESC" in
  let '((rows, err), db) := QueryContext query args db in
  match err with
  | Some _ => (([], Wrap err "failed to list subscriptions"), db)
  | None => (scan_rows rows [], db)
  end.

Definition GetTotalCost (filter : SubscriptionFilter) (db : DB)
  : (Z * option error) * DB :=
  let query := "SELECT COALESCE(SUM(price), 0) FROM subscriptions WHERE 1=1" in
  let args : list Value := [] in
  let argPos := 1%nat in
  let '(query, args, argPos) :=
    match Filter.UserID filter with
    | Some u =>
        (query ++ Sprintf " AND user_id = $%d" [argPos],
         append args [VUuid u], S argPos)
    | None => (query, args, argPos)
    end in
  let '(query, args, argPos) :=
    match Filter.ServiceName filter with
    | Some name =>
        (query ++ Sprintf " AND service_name ILIKE $%d" [argPos],
         append args [VString ("%" ++ name ++ "%")], S argPos)
    | None => (query, args, argPos)
    end in
  match
    match Filter.StartDate filter with
    | Some s =>
        let '(startDate, err) := time_Parse s in
        match err with
        | Some _ => Return (0, Wrap err "invalid start date format")
        | None =>
            Next (query ++ Sprintf " AND start_date >= $%d" [argPos],
                  append args [VDate startDate], S argPos)
        end
    | None => Next (query, args, argPos)
    end
  with
  | Return r => (r, db)
  | Next (query, args, argPos) =>
      match
        match Filter.EndDate filter with
        | Some e =>
            let '(endDate, err) := time_Parse e in
            match err with
            | Some _ => Return (0, Wrap err "invalid end date format")
            | None =>
                let nextMonth := GoTime.AddMonths 1 endDate in
                Next (query ++ Sprintf " AND (start_date < $%d OR end_date IS NULL OR end_date < $%d)" [argPos; argPos],
                      append args [VDate nextMonth], S argPos)
            end
        | None => Next (query, args, argPos)
        end
      with
      | Return r => (r, db)
      | Next (query, args, argPos) =>
          let '(row, db) := QueryRowContext query args db in
          let '(totalCost, err) := Row_Scan_int row 0 in
          ((totalCost, Wrap err "failed to calculate total cost"), db)
      end
  end.

End Repository.

(* ================================================================== *)
(** * [internal/service]                                              *)
(* ================================================================== *)

Module Service.
Import GoErrors Sql.

(** [newID] is the result of [uuid.New()], [now] and [now'] the two
    readings of [time.Now()]. *)
Definition CreateSubscription (newID : Uuid) (now now' : GoTime.Timestamp)
    (req : CreateSubscriptionRequest) (db : DB)
  : (option Subscription * option error) * DB :=
  let '(startDate, err) := time_Parse (CreateReq.StartDate req) in
  match err with
  | Some _ => ((None, Wrap err "invalid start date format"), db)
  | None =>
      match
        match CreateReq.EndDate req with
        | Some e =>
            let '(parsedEndDate, err) := time_Parse e in
            match err with
            | Some _ =>
                Repository.Return (Wrap err "invalid end date format")
            | None => Repository.Next (Some parsedEndDate)
            end
        | None => Repository.Next None
        end
      with
      | Repository.Return err => ((None, err), db)
      | Repository.Next endDate =>
          let subscription :=
            Sub.mk newID (CreateReq.ServiceName req) (CreateReq.Price req)
                   (CreateReq.UserID req) startDate endDate now now' in
          let '(err, db) := Repository.Create subscription db in
          match err with
          | Some _ =>
              ((None, Wrap err "failed to create subscription in repository"),
               db)
          | None => ((Some subscription, None), db)
          end
      end
  end.

Definition GetSubscription (id : Uuid) (db : DB)
  : (option Subscription * option error) * DB :=
  let '((subscription, err), db) := Repository.GetByID id db in
  match err with
  | Some _ =>
      ((None, Wrap err "failed to get subscription from repository"), db)
  | None =>
      match subscription with
      | None => ((None, Some (New "subscription not found")), db)
      | Some _ => ((subscription, None), db)
      end
  end.

Definition UpdateSubscription (now : GoTime.Timestamp) (id : Uuid)
    (req : UpdateSubscriptionRequest) (db : DB) : option error * DB :=
  let '((_, err), db) := GetSubscription id db in
  match err with
  | Some _ => (err, db)
  | None => Repository.Update now id req db
  end.

Definition DeleteSubscription (id : Uuid) (db : DB) : option error * DB :=
  let '((_, err), db) := GetSubscription id db in
  match err with
  | Some _ => (err, db)
  | None => Repository.Delete id db
  end.

Definition ListSubscriptions (filter : SubscriptionFilter) (db : DB)
  : (list Subscription * option error) * DB :=
  Repository.List filter db.

Definition GetTotalCost (filter : SubscriptionFilter) (db : DB)
  : (Z * option error) * DB :=
  Repository.GetTotalCost filter db.

End Service.


(* ================================================================== *)
(** * [internal/handlers]                                             *)
(* ================================================================== *)

Module Handlers.
Import GoErrors Sql.

Definition StatusOK : Z := 200.
Definition StatusCreated : Z := 201.
Definition StatusBadRequest : Z := 400.
Definition StatusNotFound : Z := 404.
Definition StatusInternalServerError : Z := 500.

(** The JSON value handed to [c.JSON]. *)
Inductive Body :=
| H_error (msg : string)                   (* gin.H{"error": msg} *)
| H_message (msg : string)                 (* gin.H{"message": msg} *)
| J_subscription (s : option Subscription) (* a *models.Subscription *)
| J_subscriptions (l : list Subscription)
| J_totalCost (n : Z).                     (* models.TotalCostResponse *)

(** [c.JSON(status, body)] *)
Record Response := JSON { status : Z; body : Body }.

(** [errors.Cause(err).Error() == "subscription not found"] *)
Definition is_not_found (e : error) : bool :=
  String.eqb (Error (Cause e)) "subscription not found".

(** What the service answered with an error: 404 for the not-found message,
    500 for everything else. *)
Definition service_failure (e : error) : Response :=
  if is_not_found e
  then JSON StatusNotFound (H_error "subscription not found")
  else JSON StatusInternalServerError (H_error (Error e)).

(** [bound] is the outcome of [c.ShouldBindJSON(&req)]; [newID], [now] and
    [now'] are read by the service from [uuid.New] and [time.Now]. *)
Definition CreateSubscription (newID : Uuid) (now now' : GoTime.Timestamp)
    (bound : CreateSubscriptionRequest * option error) (db : DB)
  : Response * DB :=
  let '(req, err) := bound in
  match err with
  | Some e => (JSON StatusBadRequest (H_error (Error e)), db)
  | None =>
      let '((subscription, err), db) :=
        Service.CreateSubscription newID now now' req db in
      match err with
      | Some e => (JSON StatusInternalServerError (H_error (Error e)), db)
      | None => (JSON StatusCreated (J_subscription subscription), db)
      end
  end.

(** [parsed] is the outcome of [uuid.Parse(c.Param("id"))]. *)
Definition GetSubscription (parsed : Uuid * option error) (db : DB)
  : Response * DB :=
  let '(id, err) := parsed in
  match err with
  | Some _ => (JSON StatusBadRequest (H_error "invalid subscription id"), db)
  | None =>
      let '((subscription, err), db) := Service.GetSubscription id db in
      match err with
      | Some e => (service_failure e, db)
      | None => (JSON StatusOK (J_subscription subscription), db)
      end
  end.

Definition UpdateSubscription (now : GoTime.Timestamp)
    (parsed : Uuid * option error)
    (bound : UpdateSubscriptionRequest * option error) (db : DB)
  : Response * DB :=
  let '(id, err) := parsed in
  match err with
  | Some _ => (JSON StatusBadRequest (H_error "invalid subscription id"), db)
  | None =>
      let '(req, err) := bound in
      match err with
      | Some e => (JSON StatusBadRequest (H_error (Error e)), db)
      | None =>
          let '(err, db) := Service.UpdateSubscription now id req db in
          match err with
          | Some e => (service_failure e, db)
          | None =>
              (JSON StatusOK (H_message "subscription updated successfully"),
               db)
          end
      end
  end.

Definition DeleteSubscription (parsed : Uuid * option error) (db : DB)
  : Response * DB :=
  let '(id, err) := parsed in
  match err with
  | Some _ => (JSON StatusBadRequest (H_error "invalid subscription id"), db)
  | None =>
      let '(err, db) := Service.DeleteSubscription id db in
      match err with
      | Some e => (service_failure e, db)
      | None =>
          (JSON StatusOK (H_message "subscription deleted successfully"), db)
      end
  end.

(** [var filter models.SubscriptionFilter]: every field is a nil pointer. *)
Definition no_filter : SubscriptionFilter := Filter.mk None None None None.

(** [filter.UserID = &id] and the three assignments like it. *)
Definition set_UserID (f : SubscriptionFilter) (id : Uuid) : SubscriptionFilter :=
  Filter.mk (Some id) (Filter.ServiceName f) (Filter.StartDate f)
            (Filter.EndDate f).

Definition set_ServiceName (f : SubscriptionFilter) (s : string)
  : SubscriptionFilter :=
  Filter.mk (Filter.UserID f) (Some s) (Filter.StartDate f) (Filter.EndDate f).

Definition set_StartDate (f : SubscriptionFilter) (s : string)
  : SubscriptionFilter :=
  Filter.mk (Filter.UserID f) (Filter.ServiceName f) (Some s) (Filter.EndDate f).

Definition set_EndDate (f : SubscriptionFilter) (s : string)
  : SubscriptionFilter :=
  Filter.mk (Filter.UserID f) (Filter.ServiceName f) (Filter.StartDate f)
            (Some s).

(** [user_id] and [service_name] are what [c.Query] returns (the empty text
    for a parameter the request does not have); [parsed] is the outcome of
    [uuid.Parse(userID)], which is called for a [user_id] that is not empty.
    A list without elements is the nil slice the repository returns when no
    row was appended. *)
Definition ListSubscriptions (user_id : string) (parsed : Uuid * option error)
    (service_name : string) (db : DB) : Response * DB :=
  let filter := no_filter in
  match
    if negb (String.eqb user_id "") then
      let '(id, err) := parsed in
      match err with
      | Some _ =>
          Repository.Return (JSON StatusBadRequest (H_error "invalid user id"))
      | None => Repository.Next (set_UserID filter id)
      end
    else Repository.Next filter
  with
  | Repository.Return r => (r, db)
  | Repository.Next filter =>
      let filter :=
        if negb (String.eqb service_name "")
        then set_ServiceName filter service_name else filter in
      let '((subscriptions, err), db) :=
        Service.ListSubscriptions filter db in
      match err with
      | Some e => (JSON StatusInternalServerError (H_error (Error e)), db)
      | None => (JSON StatusOK (J_subscriptions subscriptions), db)
      end
  end.

(** As above, with the query parameters [start_date] and [end_date]. *)
Definition GetTotalCost (user_id : string) (parsed : Uuid * option error)
    (service_name start_date end_date : string) (db : DB) : Response * DB :=
  let filter := no_filter in
  match
    if negb (String.eqb user_id "") then
      let '(id, err) := parsed in
      match err with
      | Some _ =>
          Repository.Return (JSON StatusBadRequest (H_error "invalid user id"))
      | None => Repository.Next (set_UserID filter id)
      end
    else Repository.Next filter
  with
  | Repository.Return r => (r, db)
  | Repository.Next filter =>
      let filter :=
        if negb (String.eqb service_name "")
        then set_ServiceName filter service_name else filter in
      let filter :=
        if negb (String.eqb start_date "")
        then set_StartDate filter start_date else filter in
      let filter :=
        if negb (String.eqb end_date "")
        then set_EndDate filter end_date else filter in
      let '((totalCost, err), db) := Service.GetTotalCost filter db in
      match err with
      | Some e => (JSON StatusInternalServerError (H_error (Error e)), db)
      | None => (JSON StatusOK (J_totalCost totalCost), db)
      end
  end.

End Handlers.

(* ================================================================== *)
(** * The specification's vocabulary                                  *)
(* ================================================================== *)

Module Spec.
Import GoErrors GoTime.

(** Modelled from the spec: the error taxonomy of section 7.  The code has no
    error types; the kind of an error is read off its root cause: a date that
    does not parse, the not-found error of the service ([errors.New] is called
    nowhere else), or an answer of the driver. *)
Inductive ErrorKind := ValidationError | NotFoundError | PersistenceError.

Definition kind (e : error) : ErrorKind :=
  match Cause e with
  | ParseError _ => ValidationError
  | New _ => NotFoundError
  | _ => PersistenceError
  end.


(** The filter of [list] in the words of section 4.1: [userId] exact,
    [serviceName] a case-insensitive substring, absent fields no constraint. *)
Definition matches_user (f : SubscriptionFilter) (r : Subscription) : bool :=
  match Filter.UserID f with
  | Some u => N.eqb (Sub.UserID r) u
  | None => true
  end.

Definition matches_name (f : SubscriptionFilter) (r : Subscription) : bool :=
  match Filter.ServiceName f with
  | Some name => Like.contains_ci name (Sub.ServiceName r)
  | None => true
  end.

Definition matches_list (f : SubscriptionFilter) (r : Subscription) : bool :=
  matches_user f r && matches_name f r.

(** What the code asks of the service name: it matches the pattern made of
    the filter text between two [%]. *)
Definition matches_pattern (f : SubscriptionFilter) (r : Subscription) : bool :=
  match Filter.ServiceName f with
  | Some name =>
      match Like.ilike (Sub.ServiceName r) ("%" ++ name ++ "%") with
      | Some b => b
      | None => false
      end
  | None => true
  end.

(** "Active in period" in the words of section 4.1 (a) and (b); [from] and
    [until] are the months of the filter. *)
Definition active_in_period (from until : option Date) (r : Subscription)
  : bool :=
  match from with
  | Some d => date_geb (Sub.StartDate r) d
  | None => true
  end
  &&
  match until with
  | Some e =>
      let boundary := AddMonths 1 e in
      date_ltb (Sub.StartDate r) boundary
      || match Sub.EndDate r with
         | None => true
         | Some x => date_ltb x boundary
         end
  | None => true
  end.

Definition month_of (text : option string) : option Date :=
  match text with
  | Some s => Parse s
  | None => None
  end.

Definition in_period (f : SubscriptionFilter) (r : Subscription) : bool :=
  active_in_period (month_of (Filter.StartDate f)) (month_of (Filter.EndDate f)) r.

Definition matches_cost (f : SubscriptionFilter) (r : Subscription) : bool :=
  matches_list f r && in_period f r.

(** The dates of a filter are months. *)
Definition is_month (text : option string) : bool :=
  match text with
  | Some s => match Parse s with Some _ => true | None => false end
  | None => true
  end.

(** The partial update of section 3: only supplied fields change, an empty
    [endDate] clears it, [updatedAt] is refreshed. *)
Definition apply_update (now : Timestamp) (req : UpdateSubscriptionRequest)
    (r : Subscription) : Subscription :=
  Sub.mk (Sub.ID r)
    (match UpdateReq.ServiceName req with
     | Some name => name
     | None => Sub.ServiceName r
     end)
    (match UpdateReq.Price req with
     | Some price => price
     | None => Sub.Price r
     end)
    (Sub.UserID r)
    (match month_of (UpdateReq.StartDate req) with
     | Some d => d
     | None => Sub.StartDate r
     end)
    (match UpdateReq.EndDate req with
     | Some e => if String.eqb e "" then None else Parse e
     | None => Sub.EndDate r
     end)
    (Sub.CreatedAt r)
    now.

(** A request the table accepts: the name fits [VARCHAR(255)], the price is a
    positive [INTEGER], the dates are months. *)
Definition acceptable (req : UpdateSubscriptionRequest) : bool :=
  match UpdateReq.ServiceName req with
  | Some name => (String.length name <=? 255)%nat
  | None => true
  end
  && match UpdateReq.Price req with
     | Some price => (0 <? price) && (price <=? Sql.int4_max)
     | None => true
     end
  && is_month (UpdateReq.StartDate req)
  && match UpdateReq.EndDate req with
     | Some e => String.eqb e "" || is_month (Some e)
     | None => true
     end.

(** The text is a statement the server accepts. *)
Definition well_formed (q : string) : bool :=
  match Sql.prepare q with
  | Sql.Ok _ => true
  | Sql.Fail _ => false
  end.

(** The text is a [SELECT]. *)
Definition is_query (q : string) : bool :=
  match Sql.prepare q with
  | Sql.Ok (Sql.Select _ _ _, _) => true
  | _ => false
  end.

(** No field is supplied. *)
Definition empty_request : UpdateSubscriptionRequest :=
  UpdateReq.mk None None None None.

(** The invariant [price > 0] of section 3. *)
Definition prices_positive (t : Sql.Table) : Prop :=
  Forall (fun r => 0 < Sub.Price r) t.

(** The record has the identifier. *)
Definition by_id (id : Uuid) (r : Subscription) : bool := N.eqb (Sub.ID r) id.

(** [updatedAt] refreshed, every other field as it was. *)
Definition touch (now : Timestamp) (r : Subscription) : Subscription :=
  Sub.mk (Sub.ID r) (Sub.ServiceName r) (Sub.Price r) (Sub.UserID r)
         (Sub.StartDate r) (Sub.EndDate r) (Sub.CreatedAt r) now.

(** A supplied date that the update would parse and that is not a month. *)
Definition has_bad_date (req : UpdateSubscriptionRequest) : bool :=
  negb (is_month (UpdateReq.StartDate req))
  || match UpdateReq.EndDate req with
     | Some e => negb (String.eqb e "") && negb (is_month (Some e))
     | None => false
     end.

(** A date of a create request that is not a month. *)
Definition bad_create_dates (req : CreateSubscriptionRequest) : bool :=
  negb (is_month (Some (CreateReq.StartDate req)))
  || negb (is_month (CreateReq.EndDate req)).

(** The service name of the filter has no character [LIKE] reads as a
    wildcard or an escape. *)
Definition plain_name (f : SubscriptionFilter) : bool :=
  match Filter.ServiceName f with
  | Some name => Like.plain name
  | None => true
  end.

(** No record has the identifier. *)
Definition absent (id : Uuid) (t : Sql.Table) : Prop :=
  Forall (fun r => Sub.ID r <> id) t.

(** Most recent first. *)
Definition newest_first (l : list Subscription) : Prop :=
  StronglySorted (fun a b => Sub.CreatedAt b <= Sub.CreatedAt a) l.

(** [sent db db']: [db'] is [db] after some statements were submitted. *)
Inductive sent : Sql.DB -> Sql.DB -> Prop :=
| sent_nothing db : sent db db
| sent_statement db q args db' :
    sent (snd (Sql.submit q args db)) db' -> sent db db'.

(** The operations of section 4.2, with what they read from the
    environment. *)
Inductive Request :=
| DoCreate (newID : Uuid) (now now' : Timestamp)
           (req : CreateSubscriptionRequest)
| DoGet (id : Uuid)
| DoUpdate (now : Timestamp) (id : Uuid) (req : UpdateSubscriptionRequest)
| DoDelete (id : Uuid)
| DoList (f : SubscriptionFilter)
| DoTotalCost (f : SubscriptionFilter).

(** The store after a request, and after a sequence of requests. *)
Definition serve (db : Sql.DB) (rq : Request) : Sql.DB :=
  match rq with
  | DoCreate newID now now' req =>
      snd (Service.CreateSubscription newID now now' req db)
  | DoGet id => snd (Service.GetSubscription id db)
  | DoUpdate now id req => snd (Service.UpdateSubscription now id req db)
  | DoDelete id => snd (Service.DeleteSubscription id db)
  | DoList f => snd (Service.ListSubscriptions f db)
  | DoTotalCost f => snd (Service.GetTotalCost f db)
  end.

Definition serve_all (rqs : list Request) (db : Sql.DB) : Sql.DB :=
  fold_left serve rqs db.

End Spec.

(* ================================================================== *)
(** * Sample data                                                     *)
(* ================================================================== *)

Module Sample.
Import GoTime.

Definition user : Uuid := 7%N.

(** Ongoing, started in February 2024. *)
Definition february : Subscription :=
  Sub.mk 1%N "Music" 10 user (mkDate 2024 2 1) None 100 100.

(** Ongoing, started in June 2024. *)
Definition june : Subscription :=
  Sub.mk 2%N "Video" 7 user (mkDate 2024 6 1) None 200 200.

(** Started in June 2024, ended in August 2024. *)
Definition june_to_august : Subscription :=
  Sub.mk 3%N "abc" 5 user (mkDate 2024 6 1) (Some (mkDate 2024 8 1)) 300 300.

Definition store : Sql.DB :=
  Sql.mkDB [february; june; june_to_august] true [].

(** The window March 2024 to May 2024. *)
Definition spring : SubscriptionFilter :=
  Filter.mk None None (Some "03-2024") (Some "05-2024").

(** A service name in which [_] stands for any character. *)
Definition wildcard : SubscriptionFilter :=
  Filter.mk None (Some "a_c") None None.

(** A start date written year first. *)
Definition year_first : SubscriptionFilter :=
  Filter.mk None None (Some "2024-03") None.

Definition by_user_and_name : SubscriptionFilter :=
  Filter.mk (Some user) (Some "VIDEO") None None.


(** A record with the price 0. *)
Definition free : Subscription :=
  Sub.mk 4%N "Radio" 0 user (mkDate 2024 1 1) None 400 400.

Definition create_free : CreateSubscriptionRequest :=
  CreateReq.mk "Music" 0 user "01-2024" None.

Definition create_video : CreateSubscriptionRequest :=
  CreateReq.mk "Video" 7 user "06-2024" None.

Definition update_year_first : UpdateSubscriptionRequest :=
  UpdateReq.mk (Some "Films") (Some 9) (Some "2024-03") None.

Definition clear_end : UpdateSubscriptionRequest :=
  UpdateReq.mk None None None (Some "").

Definition rename : UpdateSubscriptionRequest :=
  UpdateReq.mk (Some "Films") None None None.

End Sample.

(* ================================================================== *)
(** * Vocabulary of the further properties                            *)
(* ================================================================== *)

Module Further.
Import GoErrors GoTime.

(** A create request the table accepts: the name fits [VARCHAR(255)], the
    price is a positive [INTEGER], the dates are months. *)
Definition creatable (req : CreateSubscriptionRequest) : bool :=
  (String.length (CreateReq.ServiceName req) <=? 255)%nat
  && (0 <? CreateReq.Price req) && (CreateReq.Price req <=? Sql.int4_max)
  && Spec.is_month (Some (CreateReq.StartDate req))
  && Spec.is_month (CreateReq.EndDate req).

(** The two records agree on everything but the two timestamps. *)
Definition same_data (a b : Subscription) : Prop :=
  Sub.ID a = Sub.ID b /\ Sub.ServiceName a = Sub.ServiceName b
  /\ Sub.Price a = Sub.Price b /\ Sub.UserID a = Sub.UserID b
  /\ Sub.StartDate a = Sub.StartDate b /\ Sub.EndDate a = Sub.EndDate b.

(** The first day of a month. *)
Definition first_of_month (d : Date) : Prop :=
  day d = 1 /\ 1 <= month d <= 12.

(** The dates of the record are first days of months. *)
Definition on_months (r : Subscription) : Prop :=
  first_of_month (Sub.StartDate r)
  /\ match Sub.EndDate r with
     | Some e => first_of_month e
     | None => True
     end.

(** A date among the arguments of a statement is the first of a month. *)
Definition month_argument (v : Sql.Value) : Prop :=
  match v with
  | Sql.VDate d => first_of_month d
  | _ => True
  end.

(** The same, of a value of a column. *)
Definition month_value (v : Sql.SqlVal) : Prop :=
  match v with
  | Sql.SDate d => first_of_month d
  | _ => True
  end.

(** The statement assigns none of [id], [user_id] and [created_at]. *)
Definition keeps_fixed_fields (sets : list Sql.assignment) : bool :=
  forallb (fun a => negb (Sql.column_eqb (Sql.assigned a) Sql.c_id)
                    && negb (Sql.column_eqb (Sql.assigned a) Sql.c_user_id)
                    && negb (Sql.column_eqb (Sql.assigned a) Sql.c_created_at))
          sets.

(** No two records share an identifier. *)
Definition ids_unique (t : Sql.Table) : Prop := NoDup (map Sub.ID t).

(** The fields no update assigns. *)
Definition fixed_fields (r : Subscription) : Uuid * Uuid * Timestamp :=
  (Sub.ID r, Sub.UserID r, Sub.CreatedAt r).

(** A query parameter as the handlers read it: the empty text is no
    parameter. *)
Definition optional (s : string) : option string :=
  if String.eqb s "" then None else Some s.

(** The filter the two listing handlers build from the query parameters;
    [id] is the [user_id] as [uuid.Parse] read it. *)
Definition filter_of_query (user_id : string) (id : Uuid)
    (service_name start_date end_date : string) : SubscriptionFilter :=
  Filter.mk (if String.eqb user_id "" then None else Some id)
            (optional service_name) (optional start_date) (optional end_date).

(** What the code asks of a record for [list]: the user, and the service
    name as an [ILIKE] pattern. *)
Definition listed (f : SubscriptionFilter) (r : Subscription) : bool :=
  Spec.matches_user f r && Spec.matches_pattern f r.

(** What the code asks of a record for [getTotalCost]. *)
Definition counted (f : SubscriptionFilter) (r : Subscription) : bool :=
  Spec.matches_user f r && Spec.matches_pattern f r && Spec.in_period f r.

(** The record started in or before the month [e], or is ongoing, or ended
    in or before it. *)
Definition until_month (e : Date) (r : Subscription) : bool :=
  date_leb (Sub.StartDate r) e
  || match Sub.EndDate r with
     | None => true
     | Some x => date_leb x e
     end.

(** The filter without its end date. *)
Definition without_end (f : SubscriptionFilter) : SubscriptionFilter :=
  Filter.mk (Filter.UserID f) (Filter.ServiceName f) (Filter.StartDate f) None.

(** The error is one whose root cause is the driver's failure to reach the
    server. *)
Definition unreachable (err : option error) : Prop :=
  exists e, err = Some e /\ Cause e = Driver ErrBadConn.

(** Whether an optional field is supplied. *)
Definition supplied {A} (field : option A) : bool :=
  match field with Some _ => true | None => false end.

(** Which fields an update request supplies; for the end date also whether
    it is the empty text. *)
Definition update_fields (req : UpdateSubscriptionRequest)
  : bool * bool * bool * option bool :=
  (supplied (UpdateReq.ServiceName req), supplied (UpdateReq.Price req),
   supplied (UpdateReq.StartDate req),
   option_map (fun e => String.eqb e "") (UpdateReq.EndDate req)).

(** Which fields a filter supplies. *)
Definition filter_fields (f : SubscriptionFilter) : bool * bool * bool * bool :=
  (supplied (Filter.UserID f), supplied (Filter.ServiceName f),
   supplied (Filter.StartDate f), supplied (Filter.EndDate f)).

End Further.

(* ================================================================== *)
(** * More sample data                                                *)
(* ================================================================== *)

Module Cases.
Import GoTime.

(** A request whose end is before its start. *)
Definition create_backwards : CreateSubscriptionRequest :=
  CreateReq.mk "Radio" 3 Sample.user "06-2024" (Some "01-2024").

(** The sample store behind a connection that is down. *)
Definition unreachable_store : Sql.DB :=
  Sql.mkDB (Sql.table Sample.store) false [].

(** Two ongoing subscriptions. *)
Definition ongoing_store : Sql.DB :=
  Sql.mkDB [Sample.february; Sample.june] true [].

Definition make_free : UpdateSubscriptionRequest :=
  UpdateReq.mk (Some "Films") (Some 0) None None.

Definition rename_again : UpdateSubscriptionRequest :=
  UpdateReq.mk (Some "Books") None None None.

Definition by_name : SubscriptionFilter :=
  Filter.mk None (Some "Music") None None.

(** A price above the range of [INTEGER]. *)
Definition create_dear : CreateSubscriptionRequest :=
  CreateReq.mk "Opera" 3000000000 Sample.user "01-2024" None.

Definition make_dear : UpdateSubscriptionRequest :=
  UpdateReq.mk None (Some 3000000000) None None.

(** A create request whose end date is given as the empty text. *)
Definition create_open_end : CreateSubscriptionRequest :=
  CreateReq.mk "Radio" 3 Sample.user "06-2024" (Some "").

(** Updates with an empty name and with an empty start date. *)
Definition unname : UpdateSubscriptionRequest :=
  UpdateReq.mk (Some "") None None None.

Definition undate : UpdateSubscriptionRequest :=
  UpdateReq.mk None None (Some "") None.

(** What [uuid.Parse] answers for a text that is no UUID. *)
Definition no_uuid : Uuid * option GoErrors.error :=
  (0%N, Some (GoErrors.New "invalid UUID length: 3")).

Definition march : Date := mkDate 2024 3 1.

Definition may : Date := mkDate 2024 5 1.

End Cases.

(* ================================================================== *)
(** * Lemmas: pattern matching                                        *)
(* ================================================================== *)

Section LikeFacts.
Import Like.

Lemma lower_app (a b : string) : lower (a ++ b) = (lower a ++ lower b)%string.
Proof. induction a as [|c a IH]; simpl; [reflexivity | now rewrite IH]. Qed.

Lemma is_meta_lower (c : ascii) : is_meta (lower_char c) = is_meta c.
Proof. destruct c as [[] [] [] [] [] [] [] []]; reflexivity. Qed.

Lemma plain_lower (s : string) : plain (lower s) = plain s.
Proof.
  induction s as [|c s IH]; simpl; [reflexivity|].
  now rewrite is_meta_lower, IH.
Qed.

(** A pattern that ends with an added [%] never ends with the escape. *)
Lemma compile_closed (s : string) :
  (exists ps, compile (s ++ "%") = Some ps) /\
  (forall c, exists ps, compile (String c (s ++ "%")) = Some ps).
Proof.
  induction s as [|a s [IH1 IH2]].
  - split; [now eexists|]. intro c. simpl.
    destruct (Ascii.eqb c "\"); [now eexists|].
    destruct (Ascii.eqb c "%"); [now eexists|].
    destruct (Ascii.eqb c "_"); now eexists.
  - split; [exact (IH2 a)|]. intro c.
    destruct (IH1) as [p1 H1]. destruct (IH2 a) as [p2 H2].
    change ((String a s ++ "%")%string) with (String a (s ++ "%")).
    change (compile (String c (String a (s ++ "%")))) with
      (if Ascii.eqb c "\" then option_map (cons (PLit a)) (compile (s ++ "%"))
       else if Ascii.eqb c "%"
            then option_map (cons PAnyString) (compile (String a (s ++ "%")))
            else if Ascii.eqb c "_"
                 then option_map (cons PAnyChar) (compile (String a (s ++ "%")))
                 else option_map (cons (PLit c)) (compile (String a (s ++ "%")))).
    rewrite H1, H2.
    destruct (Ascii.eqb c "\"); [now eexists|].
    destruct (Ascii.eqb c "%"); [now eexists|].
    destruct (Ascii.eqb c "_"); now eexists.
Qed.

(** The pattern the repository builds always compiles. *)
Lemma ilike_wrapped_total (s name : string) :
  exists b, ilike s ("%" ++ name ++ "%") = Some b.
Proof.
  unfold ilike, like.
  change (lower ("%" ++ name ++ "%")) with (String "%" (lower (name ++ "%"))).
  rewrite lower_app.
  destruct (proj2 (compile_closed (lower name)) "%"%char) as [ps H].
  change (lower "%") with "%". rewrite H. now eexists.
Qed.

Lemma compile_plain (s : string) (tail : string) (ps : list pat) :
  plain s = true -> compile tail = Some ps ->
  compile (s ++ tail) = Some (literals s ++ ps).
Proof.
  intros Hs Ht. induction s as [|c s IH]; simpl in *; [exact Ht|].
  apply andb_prop in Hs. destruct Hs as [Hc Hs].
  unfold is_meta in Hc. apply negb_true_iff in Hc.
  apply orb_false_elim in Hc. destruct Hc as [Hc H3].
  apply orb_false_elim in Hc. destruct Hc as [H1 H2].
  rewrite H3, H1, H2, (IH Hs). reflexivity.
Qed.

Lemma matches_any_all (s : string) : matches [PAnyString] s = true.
Proof. induction s as [|c s IH]; simpl in *; [reflexivity | exact IH]. Qed.

Lemma matches_literals_prefix (n s : string) :
  matches (literals n ++ [PAnyString]) s = String.prefix n s.
Proof.
  revert s. induction n as [|a n IH]; intro s.
  - rewrite matches_any_all. now destruct s.
  - destruct s as [|c s]; [reflexivity|].
    change (matches (literals (String a n) ++ [PAnyString]) (String c s))
      with (Ascii.eqb a c && matches (literals n ++ [PAnyString]) s).
    rewrite IH. simpl.
    destruct (ascii_dec a c) as [->|Hne].
    + now rewrite Ascii.eqb_refl.
    + apply Ascii.eqb_neq in Hne. now rewrite Hne.
Qed.

Lemma matches_wrapped_contains (n s : string) :
  matches (PAnyString :: literals n ++ [PAnyString]) s = contains n s.
Proof.
  induction s as [|c s IH].
  - change (matches (PAnyString :: literals n ++ [PAnyString]) "")
      with (matches (literals n ++ [PAnyString]) "" || false).
    now rewrite matches_literals_prefix.
  - change (matches (PAnyString :: literals n ++ [PAnyString]) (String c s))
      with (matches (literals n ++ [PAnyString]) (String c s)
            || matches (PAnyString :: literals n ++ [PAnyString]) s).
    rewrite IH, matches_literals_prefix. reflexivity.
Qed.

(** For a filter text without [%], [_] and backslash, the pattern of the
    repository is the case-insensitive substring test. *)
Lemma ilike_wrapped_plain (s name : string) :
  plain name = true ->
  ilike s ("%" ++ name ++ "%") = Some (contains_ci name s).
Proof.
  intro Hp. unfold ilike, like, contains_ci.
  change (lower ("%" ++ name ++ "%")) with (String "%" (lower (name ++ "%"))).
  rewrite lower_app. change (lower "%") with "%".
  assert (H : compile (lower name ++ "%") = Some (literals (lower name) ++ [PAnyString])).
  { apply compile_plain; [now rewrite plain_lower | reflexivity]. }
  change (compile (String "%" (lower name ++ "%"))) with
    (option_map (cons PAnyString) (compile (lower name ++ "%"))).
  rewrite H. cbv [option_map]. now rewrite matches_wrapped_contains.
Qed.

End LikeFacts.

(* ================================================================== *)
(** * Lemmas: the executor                                            *)
(* ================================================================== *)

Section SqlFacts.
Import GoErrors Sql.

Lemma run_prepared q s tys args t :
  prepare q = Ok (s, tys) ->
  run q args t = bind (bind_args tys args) (fun bound => exec s bound t).
Proof. intro H. unfold run. rewrite H. reflexivity. Qed.

Lemma filter_rows_filter bound w p t :
  (forall r, In r t -> selected bound w r = Ok (p r)) ->
  filter_rows bound w t = Ok (filter p t).
Proof.
  induction t as [|r t IH]; intro H; simpl; [reflexivity|].
  rewrite (H r (or_introl eq_refl)). simpl.
  rewrite IH by (intros; apply H; now right). reflexivity.
Qed.

Lemma update_rows_map bound sets w p g t :
  (forall r, In r t -> selected bound w r = Ok (p r)) ->
  (forall r, In r t -> p r = true ->
     bind (store_columns (map (assigned_value bound) sets) r)
          (fun r1 => check_row r1) = Ok (g r)) ->
  update_rows bound sets w t = Ok (map (fun r => if p r then g r else r) t).
Proof.
  induction t as [|r t IH]; intros Hs Hg; [reflexivity|].
  cbn [update_rows map].
  rewrite (Hs r (or_introl eq_refl)).
  rewrite IH;
    [| intros; apply Hs; now right | intros; apply Hg; auto; now right].
  cbn [bind].
  destruct (p r) eqn:Hp; [|reflexivity].
  now rewrite (Hg r (or_introl eq_refl) Hp).
Qed.

Lemma delete_rows_filter bound w p t :
  (forall r, In r t -> selected bound w r = Ok (p r)) ->
  delete_rows bound w t = Ok (filter (fun r => negb (p r)) t).
Proof.
  induction t as [|r t IH]; intro H; simpl; [reflexivity|].
  rewrite (H r (or_introl eq_refl)). simpl.
  rewrite IH by (intros; apply H; now right).
  now destruct (p r).
Qed.

Lemma holds_eq_N a b : holds OpEq (N.compare a b) = N.eqb a b.
Proof. rewrite N.eqb_compare. now destruct (N.compare a b). Qed.

Lemma holds_ge_date a b :
  holds OpGe (GoTime.date_compare a b) = GoTime.date_geb a b.
Proof. unfold GoTime.date_geb. now destruct (GoTime.date_compare a b). Qed.

Lemma holds_lt_date a b :
  holds OpLt (GoTime.date_compare a b) = GoTime.date_ltb a b.
Proof. unfold GoTime.date_ltb. now destruct (GoTime.date_compare a b). Qed.

Lemma varchar255_fits s : (String.length s <= 255)%nat -> varchar255 s = Ok s.
Proof.
  intro H. unfold varchar255.
  now rewrite (proj2 (Nat.leb_le _ _) H).
Qed.

Lemma coerce_int4 n :
  0 < n -> n <= int4_max -> coerce TInt4 (VInt n) = Ok (SInt n).
Proof.
  intros H1 H2. unfold coerce.
  replace (int4_min <=? n) with true
    by (symmetry; apply Z.leb_le; unfold int4_min; lia).
  now rewrite (proj2 (Z.leb_le _ _) H2).
Qed.

Lemma selected_by_id bound k id r :
  param bound k = SUuid id ->
  selected bound (CCmp c_id OpEq k) r = Ok (N.eqb (Sub.ID r) id).
Proof.
  intro H. unfold selected. cbn [eval_cond bind value_of]. rewrite H.
  cbn [sql_compare option_map]. rewrite holds_eq_N.
  now destruct (N.eqb (Sub.ID r) id).
Qed.

Lemma exec_update_by_id bound sets k id g t :
  param bound k = SUuid id ->
  existsb (column_eqb c_id) (map assigned sets) = false ->
  (forall r, In r t -> Sub.ID r = id ->
     bind (store_columns (map (assigned_value bound) sets) r)
          (fun r1 => check_row r1) = Ok (g r)) ->
  exec_update bound sets (CCmp c_id OpEq k) t
  = Ok (map (fun r => if N.eqb (Sub.ID r) id then g r else r) t).
Proof.
  intros Hk Hid Hg. unfold exec_update.
  rewrite (update_rows_map bound sets _ (fun r => N.eqb (Sub.ID r) id) g).
  - cbn [bind]. now rewrite Hid.
  - intros. now apply selected_by_id.
  - intros r Hin Heq. apply Hg; [exact Hin | now apply N.eqb_eq].
Qed.

Lemma scan_subscription_row r :
  scan_subscription (map (fun c => value_of c r) all_columns) = Some r.
Proof. destruct r as [? ? ? ? ? [e|] ? ?]; reflexivity. Qed.

Lemma scan_rows_project l acc :
  Repository.scan_rows (project (PColumns all_columns) l) acc
  = (acc ++ l, None).
Proof.
  revert acc. induction l as [|r l IH]; intro acc.
  - cbn. now rewrite app_nil_r.
  - cbn [project map Repository.scan_rows].
    rewrite scan_subscription_row.
    change (map (fun r0 => map (fun c => value_of c r0) all_columns) l)
      with (project (PColumns all_columns) l).
    rewrite IH. unfold Repository.append. now rewrite <- app_assoc.
Qed.

Lemma scan_total l :
  Row_Scan_int (Ok (project (PCoalesceSum c_price 0) l)) 0
  = (sum_prices l, None).
Proof. now destruct l. Qed.

End SqlFacts.

Import GoErrors Sql.

(** The statement under [run] is prepared by evaluation: its text is closed. *)
Ltac prepared :=
  match goal with
  | |- context [run ?q ?args ?t] =>
      let r := eval vm_compute in (prepare q) in
      match r with
      | Ok (?s, ?tys) =>
          rewrite (run_prepared q s tys args t) by (vm_compute; reflexivity)
      end
  end.

Lemma Update_accepted now id req t l :
  Spec.acceptable req = true ->
  (forall r, In r t -> Sub.ID r = id -> 0 < Sub.Price r) ->
  exists entry,
    Repository.Update now id req (mkDB t true l)
    = (None,
       mkDB (map (fun r => if N.eqb (Sub.ID r) id
                           then Spec.apply_update now req r else r) t)
            true (l ++ [entry])).
Proof.
  intros Hacc Hpos.
  destruct req as [name price sd ed].
  unfold Spec.acceptable in Hacc.
  cbn [UpdateReq.ServiceName UpdateReq.Price UpdateReq.StartDate UpdateReq.EndDate] in Hacc.
  apply andb_prop in Hacc. destruct Hacc as [Hacc Hed].
  apply andb_prop in Hacc. destruct Hacc as [Hacc Hsd].
  apply andb_prop in Hacc. destruct Hacc as [Hname Hprice].
  destruct name as [name|], price as [price|], sd as [sd|], ed as [ed|].
  all: unfold Repository.Update;
    cbn [UpdateReq.ServiceName UpdateReq.Price UpdateReq.StartDate UpdateReq.EndDate].
  all: try (unfold Spec.is_month in Hsd; destruct (GoTime.Parse sd) as [d|] eqn:Hd; [|discriminate]).
  all: try (destruct (String.eqb ed "") eqn:Heq;
            [| unfold Spec.is_month in Hed; cbn [orb] in Hed;
               destruct (GoTime.Parse ed) as [de|] eqn:Hde; [|discriminate]]).
  all: unfold time_Parse; try rewrite Hd; try rewrite Hde.
  all: cbn -[run].
  all: unfold ExecContext, submit; cbn [online table log].
  all: prepared.
  all: cbn [bind_args List.length Nat.eqb combine map_result fst snd].
  all: try (apply andb_prop in Hprice; destruct Hprice as [Hp1 Hp2];
            apply Z.ltb_lt in Hp1; apply Z.leb_le in Hp2;
            rewrite (coerce_int4 price Hp1 Hp2)).
  all: cbn [coerce bind exec].
  all: try (apply Nat.leb_le in Hname).
  all: (erewrite exec_update_by_id with (id := id);
    [ cbn [bind]; eexists; reflexivity
    | reflexivity
    | reflexivity
    | intros r Hin Hid; destruct r as [rid rname rprice ruser rstart rend rc ru];
      cbn [map assigned_value param nth Nat.sub store_columns set_column bind];
      rewrite ?varchar255_fits by assumption;
      cbn [bind store_columns set_column]; unfold check_row; cbn [Sub.Price];
      pose proof (Hpos _ Hin Hid) as Hrp; cbn [Sub.Price] in Hrp;
      apply Z.ltb_lt in Hrp;
      first [ rewrite (proj2 (Z.ltb_lt _ _) Hp1) | rewrite Hrp ];
      unfold Spec.apply_update, Spec.month_of;
      cbn [UpdateReq.ServiceName UpdateReq.Price UpdateReq.StartDate
           UpdateReq.EndDate Sub.ID Sub.ServiceName Sub.Price Sub.UserID
           Sub.StartDate Sub.EndDate Sub.CreatedAt Sub.UpdatedAt];
      rewrite ?Hd, ?Heq, ?Hde; reflexivity ]).
Qed.

Ltac row_selected :=
  let r := fresh "r" in let Hin := fresh "Hin" in
  intros r Hin; clear Hin;
  destruct r as [rid rname rprice ruser rstart [rend|] rc ru];
  unfold selected;
  cbn [eval_cond bind value_of param nth Nat.sub sql_compare option_map
       Nat.compare Sub.ID Sub.ServiceName Sub.Price Sub.UserID Sub.StartDate
       Sub.EndDate];
  unfold Spec.matches_user, Spec.matches_pattern, Spec.in_period,
    Spec.active_in_period, Spec.month_of;
  cbn [Filter.UserID Filter.ServiceName Filter.StartDate Filter.EndDate
       Sub.ID Sub.ServiceName Sub.Price Sub.UserID Sub.StartDate Sub.EndDate];
  repeat match goal with
    | |- context [Like.ilike ?s ("%" ++ ?n ++ "%")] =>
        let b := fresh "b" in let Hb := fresh "Hb" in
        destruct (ilike_wrapped_total s n) as [b Hb]; rewrite Hb
    | H : GoTime.Parse ?s = Some _ |- context [GoTime.Parse ?s] => rewrite H
    end;
  cbn [bind];
  rewrite ?holds_eq_N, ?holds_ge_date, ?holds_lt_date;
  repeat match goal with
    | |- context [N.eqb ?a ?b] => destruct (N.eqb a b)
    | |- context [GoTime.date_geb ?a ?b] => destruct (GoTime.date_geb a b)
    | |- context [GoTime.date_ltb ?a ?b] => destruct (GoTime.date_ltb a b)
    | b : bool |- _ => destruct b
    end;
  reflexivity.

Lemma List_selects f t l :
  exists entry,
    Repository.List f (mkDB t true l)
    = ((sort_rows (Some (c_created_at, true))
          (filter (fun r => Spec.matches_user f r && Spec.matches_pattern f r) t),
        None),
       mkDB t true (l ++ [entry])).
Proof.
  destruct f as [[u|] [name|] sd ed].
  all: unfold Repository.List; cbn [Filter.UserID Filter.ServiceName].
  all: cbn -[run String.append]; unfold QueryContext, submit; cbn [online table log].
  all: prepared.
  all: cbn [bind_args List.length Nat.eqb combine map_result fst snd coerce bind exec].
  all: erewrite filter_rows_filter;
    [ cbn [bind]; rewrite scan_rows_project; eexists; reflexivity
    | row_selected ].
Qed.

Lemma GetTotalCost_selects f t l :
  Spec.is_month (Filter.StartDate f) = true ->
  Spec.is_month (Filter.EndDate f) = true ->
  exists entry,
    Repository.GetTotalCost f (mkDB t true l)
    = ((sum_prices
          (filter (fun r => Spec.matches_user f r && Spec.matches_pattern f r
                            && Spec.in_period f r) t),
        None),
       mkDB t true (l ++ [entry])).
Proof.
  intros Hs He.
  destruct f as [[u|] [name|] [sd|] [ed|]].
  all: unfold Spec.is_month in Hs, He;
    cbn [Filter.StartDate Filter.EndDate] in Hs, He.
  all: try (destruct (GoTime.Parse sd) as [d|] eqn:Hd; [|discriminate]).
  all: try (destruct (GoTime.Parse ed) as [de|] eqn:Hde; [|discriminate]).
  all: unfold Repository.GetTotalCost;
    cbn [Filter.UserID Filter.ServiceName Filter.StartDate Filter.EndDate].
  all: unfold time_Parse; try rewrite Hd; try rewrite Hde.
  all: cbn -[run String.append GoTime.AddMonths];
    unfold QueryRowContext, submit; cbn [online table log].
  all: prepared.
  all: cbn [bind_args List.length Nat.eqb combine map_result fst snd coerce bind exec].
  all: erewrite filter_rows_filter;
    [ cbn [bind sort_rows]; rewrite scan_total; eexists; reflexivity
    | row_selected ].
Qed.

(* ================================================================== *)
(** * Lemmas: the price invariant, ordering, single statements        *)
(* ================================================================== *)

Section Invariant.

Lemma update_rows_keeps_prices bound sets w t t' :
  Spec.prices_positive t -> update_rows bound sets w t = Ok t' ->
  Spec.prices_positive t'.
Proof.
  unfold Spec.prices_positive. revert t'.
  induction t as [|r t IH]; intros t' Hpos H; cbn [update_rows] in H.
  - injection H as <-. constructor.
  - inversion Hpos as [|? ? Hr Ht]; subst.
    destruct (selected bound w r) as [b|e]; cbn [bind] in H; [|discriminate].
    destruct b.
    + destruct (store_columns (map (assigned_value bound) sets) r) as [r1|e];
        cbn [bind] in H; [|discriminate].
      unfold check_row in H.
      destruct (0 <? Sub.Price r1) eqn:Hp; cbn [bind] in H; [|discriminate].
      destruct (update_rows bound sets w t) as [rest|e]; cbn [bind] in H;
        [|discriminate].
      injection H as <-.
      constructor; [now apply Z.ltb_lt | exact (IH rest Ht eq_refl)].
    + cbn [bind] in H.
      destruct (update_rows bound sets w t) as [rest|e]; cbn [bind] in H;
        [|discriminate].
      injection H as <-. constructor; [exact Hr | exact (IH rest Ht eq_refl)].
Qed.

Lemma delete_rows_keeps_prices bound w t t' :
  Spec.prices_positive t -> delete_rows bound w t = Ok t' ->
  Spec.prices_positive t'.
Proof.
  unfold Spec.prices_positive. revert t'.
  induction t as [|r t IH]; intros t' Hpos H; cbn [delete_rows] in H.
  - injection H as <-. constructor.
  - inversion Hpos as [|? ? Hr Ht]; subst.
    destruct (selected bound w r) as [b|e]; cbn [bind] in H; [|discriminate].
    destruct (delete_rows bound w t) as [rest|e]; cbn [bind] in H; [|discriminate].
    specialize (IH rest Ht eq_refl). injection H as <-.
    destruct b; [exact IH | now constructor].
Qed.

(** [CHECK (price > 0)]: whatever the statement, the rows it leaves have a
    positive price. *)
Lemma exec_keeps_prices s bound t rows t' :
  Spec.prices_positive t -> exec s bound t = Ok (rows, t') ->
  Spec.prices_positive t'.
Proof.
  intros Hpos H. destruct s as [cols vals|p w o|sets w|w]; cbn [exec] in H.
  - unfold exec_insert in H.
    destruct (store_columns _ Sub.zero) as [r|e]; cbn [bind] in H; [|discriminate].
    unfold check_row in H.
    destruct (0 <? Sub.Price r) eqn:Hp; cbn [bind] in H; [|discriminate].
    destruct (has_id (Sub.ID r) t); [discriminate|].
    cbn [bind] in H. injection H as _ <-.
    apply Forall_app. split; [exact Hpos|].
    constructor; [now apply Z.ltb_lt | constructor].
  - destruct (filter_rows bound w t); cbn [bind] in H; [|discriminate].
    now injection H as _ <-.
  - unfold exec_update in H.
    destruct (update_rows bound sets w t) as [t1|e] eqn:Hu; cbn [bind] in H;
      [|discriminate].
    destruct (existsb _ _ && _); [discriminate|].
    cbn [bind] in H. injection H as _ <-.
    now apply (update_rows_keeps_prices bound sets w t).
  - destruct (delete_rows bound w t) as [t1|e] eqn:Hd; cbn [bind] in H;
      [|discriminate].
    injection H as _ <-. now apply (delete_rows_keeps_prices bound w t).
Qed.

Lemma submit_keeps_prices q args db :
  Spec.prices_positive (table db) ->
  Spec.prices_positive (table (snd (submit q args db))).
Proof.
  intro Hpos. unfold submit. destruct (online db); [|exact Hpos].
  destruct (run q args (table db)) as [[rows t']|e] eqn:Hr; [|exact Hpos].
  cbn [snd table]. unfold run in Hr.
  destruct (prepare q) as [[s tys]|e]; cbn [bind] in Hr; [|discriminate].
  destruct (bind_args tys args) as [bound|e]; cbn [bind] in Hr; [|discriminate].
  now apply (exec_keeps_prices s bound (table db) rows).
Qed.

(** A statement leaves [online] as it is. *)
Lemma submit_online q args db : online (snd (submit q args db)) = online db.
Proof.
  unfold submit. destruct (online db) eqn:Ho; [|reflexivity].
  now destruct (run q args (table db)) as [[rows t']|e].
Qed.

End Invariant.

Section Ordering.

Lemma insert_sorted_perm o r l : Permutation (insert_sorted o r l) (r :: l).
Proof.
  induction l as [|r' l IH]; cbn [insert_sorted]; [reflexivity|].
  destruct (in_order o r r'); [reflexivity|].
  rewrite IH. apply perm_swap.
Qed.

Lemma sort_rows_perm o l : Permutation (sort_rows o l) l.
Proof.
  destruct o as [o|]; [|reflexivity]. cbn [sort_rows].
  induction l as [|r l IH]; cbn [fold_right]; [reflexivity|].
  rewrite insert_sorted_perm. now constructor.
Qed.

Lemma in_order_created r r' :
  in_order (c_created_at, true) r r' = (Sub.CreatedAt r' <=? Sub.CreatedAt r).
Proof.
  unfold in_order. cbn [value_of sql_compare negb].
  rewrite Z.leb_compare, (Z.compare_antisym (Sub.CreatedAt r)).
  now destruct (Sub.CreatedAt r ?= Sub.CreatedAt r').
Qed.

Lemma insert_sorted_newest_first r l :
  Spec.newest_first l ->
  Spec.newest_first (insert_sorted (c_created_at, true) r l).
Proof.
  unfold Spec.newest_first.
  induction l as [|r' l IH]; intro Hs; cbn [insert_sorted].
  - repeat constructor.
  - rewrite in_order_created.
    inversion Hs as [|? ? Hl Hall]; subst.
    destruct (Sub.CreatedAt r' <=? Sub.CreatedAt r) eqn:Hle.
    + apply Z.leb_le in Hle. constructor; [exact Hs|].
      constructor; [exact Hle|].
      eapply Forall_impl; [|exact Hall]. cbn. intros; lia.
    + apply Z.leb_gt in Hle. constructor; [now apply IH|].
      eapply Permutation_Forall; [symmetry; apply insert_sorted_perm|].
      constructor; [lia | exact Hall].
Qed.

Lemma sort_rows_newest_first l :
  Spec.newest_first (sort_rows (Some (c_created_at, true)) l).
Proof.
  cbn [sort_rows]. induction l as [|r l IH]; cbn [fold_right].
  - constructor.
  - now apply insert_sorted_newest_first.
Qed.

End Ordering.

Section RepositoryFacts.

Lemma absent_filter id t : Spec.absent id t -> filter (Spec.by_id id) t = [].
Proof.
  unfold Spec.absent, Spec.by_id. induction 1 as [|r t Hr _ IH]; [reflexivity|].
  cbn [filter]. apply N.eqb_neq in Hr. now rewrite Hr.
Qed.

Lemma GetByID_online id t l :
  exists q,
    Repository.GetByID id (mkDB t true l)
    = ((hd_error (filter (Spec.by_id id) t), None),
       mkDB t true (l ++ [(q, [VUuid id])]))
    /\ Spec.is_query q = true.
Proof.
  unfold Repository.GetByID, QueryRowContext, submit. cbn [online table log].
  prepared.
  cbn [bind_args List.length Nat.eqb combine map_result fst snd coerce bind exec].
  erewrite filter_rows_filter with (p := Spec.by_id id);
    [| intros; now apply selected_by_id].
  cbn [bind sort_rows].
  destruct (filter (Spec.by_id id) t) as [|r rest].
  - eexists. split; [reflexivity | vm_compute; reflexivity].
  - cbn [project]. rewrite map_cons. cbn [Row_Scan_subscription].
    rewrite scan_subscription_row.
    eexists. split; [reflexivity | vm_compute; reflexivity].
Qed.

Lemma GetByID_offline id t l :
  exists entry e,
    Repository.GetByID id (mkDB t false l)
    = ((Some Sub.zero, Some e), mkDB t false (l ++ [entry]))
    /\ Cause e = Driver ErrBadConn.
Proof. do 2 eexists. split; reflexivity. Qed.

Lemma Delete_online id t l :
  exists entry,
    Repository.Delete id (mkDB t true l)
    = (None, mkDB (filter (fun r => negb (Spec.by_id id r)) t) true (l ++ [entry])).
Proof.
  unfold Repository.Delete, ExecContext, submit. cbn [online table log].
  prepared.
  cbn [bind_args List.length Nat.eqb combine map_result fst snd coerce bind exec].
  erewrite delete_rows_filter with (p := Spec.by_id id);
    [| intros; now apply selected_by_id].
  eexists. reflexivity.
Qed.

(** A price that is not positive never gets into the table. *)
Lemma Create_rejects_price sub db :
  Sub.Price sub <= 0 ->
  exists e entry,
    Repository.Create sub db
    = (Some (WithMessage (Driver e) "failed to create subscription"),
       mkDB (table db) (online db) (log db ++ [entry])).
Proof.
  intro Hp. destruct db as [t [|] l]; cbn [table online log].
  2: { do 2 eexists. reflexivity. }
  unfold Repository.Create, ExecContext, submit. cbn [online table log].
  prepared.
  cbn [bind_args List.length Nat.eqb combine map_result fst snd].
  destruct sub as [id name price user start end_ created updated].
  cbn [Sub.ID Sub.ServiceName Sub.Price Sub.UserID Sub.StartDate Sub.EndDate
       Sub.CreatedAt Sub.UpdatedAt] in *.
  assert (Hend : exists v, coerce TDate (Repository.nullable_date end_) = Ok v
                           /\ (v = SNull \/ exists d, v = SDate d)).
  { destruct end_ as [d|]; eexists; (split; [reflexivity|]); eauto. }
  destruct Hend as [v [Hv Hcases]].
  unfold coerce at 3. 
  destruct ((int4_min <=? price) && (price <=? int4_max)).
  2: { cbn [coerce bind]. do 2 eexists. reflexivity. }
  cbn [coerce bind]. fold (coerce TDate (Repository.nullable_date end_)).
  rewrite Hv. cbn [bind exec]. unfold exec_insert.
  cbn [combine map param nth Nat.sub store_columns set_column Sub.zero bind].
  destruct (varchar255 name) as [name'|e].
  2: { cbn [bind]. do 2 eexists. reflexivity. }
  cbn [bind store_columns set_column].
  destruct Hcases as [->|[d ->]]; cbn [bind store_columns set_column];
    unfold check_row; cbn [Sub.Price];
    replace (0 <? price) with false by (symmetry; apply Z.ltb_ge; lia);
    cbn [bind]; do 2 eexists; reflexivity.
Qed.

End RepositoryFacts.

(* ================================================================== *)
(** * Lemmas: the service                                             *)
(* ================================================================== *)

Section ServiceFacts.

Lemma present_filter id r t :
  In r t -> Sub.ID r = id ->
  exists r' rest, filter (Spec.by_id id) t = r' :: rest.
Proof.
  intros Hin Hid.
  assert (H : In r (filter (Spec.by_id id) t)).
  { apply filter_In. split; [exact Hin|]. unfold Spec.by_id. now apply N.eqb_eq. }
  destruct (filter (Spec.by_id id) t) as [|r' rest]; [destruct H|]. eauto.
Qed.

Lemma GetSubscription_absent id t l :
  Spec.absent id t ->
  exists q,
    Service.GetSubscription id (mkDB t true l)
    = ((None, Some (New "subscription not found")),
       mkDB t true (l ++ [(q, [VUuid id])]))
    /\ Spec.is_query q = true.
Proof.
  intro Ha. destruct (GetByID_online id t l) as [q [Hq Hs]].
  exists q. split; [|exact Hs].
  unfold Service.GetSubscription. rewrite Hq, (absent_filter id t Ha). reflexivity.
Qed.

Lemma GetSubscription_present id r t l :
  In r t -> Sub.ID r = id ->
  exists q r',
    Service.GetSubscription id (mkDB t true l)
    = ((Some r', None), mkDB t true (l ++ [(q, [VUuid id])])).
Proof.
  intros Hin Hid. destruct (GetByID_online id t l) as [q [Hq _]].
  destruct (present_filter id r t Hin Hid) as [r' [rest Hf]].
  exists q, r'. unfold Service.GetSubscription. rewrite Hq, Hf. reflexivity.
Qed.

End ServiceFacts.


Lemma Update_empty now id t l :
  (forall r, In r t -> Sub.ID r = id -> 0 < Sub.Price r) ->
  exists q,
    Repository.Update now id Spec.empty_request (mkDB t true l)
    = (None,
       mkDB (map (fun r => if Spec.by_id id r then Spec.touch now r else r) t)
            true (l ++ [(q, [VTimestamp now; VUuid id])]))
    /\ prepare q
       = Ok (Update [SetParam c_updated_at 1] (CCmp c_id OpEq 2),
             [TTimestamp; TUuid]).
Proof.
  intro Hpos. unfold Repository.Update, Spec.empty_request.
  cbn -[run]. unfold ExecContext, submit. cbn [online table log].
  prepared.
  cbn [bind_args List.length Nat.eqb combine map_result fst snd coerce bind exec].
  erewrite exec_update_by_id with (id := id) (g := Spec.touch now).
  - cbn [bind]. eexists. split; [reflexivity | vm_compute; reflexivity].
  - reflexivity.
  - reflexivity.
  - intros r Hin Hid. pose proof (Hpos r Hin Hid) as Hp.
    destruct r as [rid rname rprice ruser rstart rend rc ru].
    cbn [Sub.Price] in Hp. apply Z.ltb_lt in Hp.
    cbn [map assigned_value param nth Nat.sub store_columns set_column bind].
    unfold check_row. cbn [Sub.Price]. now rewrite Hp.
Qed.

Lemma positive_rows id t :
  Spec.prices_positive t ->
  forall r, In r t -> Sub.ID r = id -> 0 < Sub.Price r.
Proof.
  intros Hpos r Hin _. unfold Spec.prices_positive in Hpos.
  rewrite Forall_forall in Hpos. now apply Hpos.
Qed.


Section Reachable.

Import Spec.

Lemma sent_one q args db : sent db (snd (submit q args db)).
Proof. eapply sent_statement. apply sent_nothing. Qed.

Lemma sent_trans a b c : sent a b -> sent b c -> sent a c.
Proof.
  induction 1 as [|db q args db' _ IH]; intro H; [exact H|].
  eapply sent_statement. now apply IH.
Qed.

Lemma sent_keeps_prices a b :
  sent a b -> Spec.prices_positive (table a) -> Spec.prices_positive (table b).
Proof.
  induction 1 as [|db q args db' _ IH]; intro H; [exact H|].
  apply IH. now apply submit_keeps_prices.
Qed.

Lemma ExecContext_sent q args db : sent db (snd (ExecContext q args db)).
Proof.
  unfold ExecContext. pose proof (sent_one q args db) as H.
  destruct (submit q args db) as [[rows|e] db']; exact H.
Qed.

Lemma QueryContext_sent q args db : sent db (snd (QueryContext q args db)).
Proof.
  unfold QueryContext. pose proof (sent_one q args db) as H.
  destruct (submit q args db) as [[rows|e] db']; exact H.
Qed.

Lemma Create_sent sub db : sent db (snd (Repository.Create sub db)).
Proof.
  unfold Repository.Create.
  match goal with |- context [ExecContext ?q ?a ?d] =>
    pose proof (ExecContext_sent q a d) as H;
    destruct (ExecContext q a d) as [err db'] end.
  exact H.
Qed.

Lemma GetByID_sent id db : sent db (snd (Repository.GetByID id db)).
Proof.
  unfold Repository.GetByID, QueryRowContext.
  match goal with |- context [submit ?q ?a ?d] =>
    pose proof (sent_one q a d) as H;
    destruct (submit q a d) as [row db'] end.
  destruct (Row_Scan_subscription row Sub.zero) as [sub err].
  destruct (is_ErrNoRows err); exact H.
Qed.

Lemma Update_sent now id req db : sent db (snd (Repository.Update now id req db)).
Proof.
  unfold Repository.Update.
  destruct (UpdateReq.ServiceName req), (UpdateReq.Price req);
    cbn beta iota zeta.
  all: destruct (UpdateReq.StartDate req) as [sd|];
    [destruct (time_Parse sd) as [d [e|]]; [apply sent_nothing|] |].
  all: destruct (UpdateReq.EndDate req) as [ed|];
    [destruct (String.eqb ed "");
     [|destruct (time_Parse ed) as [d' [e'|]]; [apply sent_nothing|]] |].
  all: cbn beta iota zeta;
    match goal with |- context [ExecContext ?q ?a ?d] =>
      pose proof (ExecContext_sent q a d) as H;
      destruct (ExecContext q a d) as [err db'] end;
    exact H.
Qed.

Lemma Delete_sent id db : sent db (snd (Repository.Delete id db)).
Proof.
  unfold Repository.Delete.
  match goal with |- context [ExecContext ?q ?a ?d] =>
    pose proof (ExecContext_sent q a d) as H;
    destruct (ExecContext q a d) as [err db'] end.
  exact H.
Qed.

Lemma List_sent f db : sent db (snd (Repository.List f db)).
Proof.
  unfold Repository.List.
  destruct (Filter.UserID f), (Filter.ServiceName f); cbn beta iota zeta.
  all: match goal with |- context [QueryContext ?q ?a ?d] =>
      pose proof (QueryContext_sent q a d) as H;
      destruct (QueryContext q a d) as [[rows [e|]] db'] end;
    exact H.
Qed.

Lemma GetTotalCost_sent f db : sent db (snd (Repository.GetTotalCost f db)).
Proof.
  unfold Repository.GetTotalCost.
  destruct (Filter.UserID f), (Filter.ServiceName f); cbn beta iota zeta.
  all: destruct (Filter.StartDate f) as [sd|];
    [destruct (time_Parse sd) as [d [e|]]; [apply sent_nothing|] |].
  all: destruct (Filter.EndDate f) as [ed|];
    [destruct (time_Parse ed) as [d' [e'|]]; [apply sent_nothing|] |].
  all: cbn beta iota zeta; unfold QueryRowContext;
    match goal with |- context [submit ?q ?a ?d] =>
      pose proof (sent_one q a d) as H;
      destruct (submit q a d) as [row db'] end;
    destruct (Row_Scan_int row 0); exact H.
Qed.

Lemma GetSubscription_sent id db : sent db (snd (Service.GetSubscription id db)).
Proof.
  unfold Service.GetSubscription. pose proof (GetByID_sent id db) as H.
  destruct (Repository.GetByID id db) as [[sub [e|]] db']; [exact H|].
  destruct sub; exact H.
Qed.

Lemma CreateSubscription_sent newID now now' req db :
  sent db (snd (Service.CreateSubscription newID now now' req db)).
Proof.
  unfold Service.CreateSubscription.
  destruct (time_Parse (CreateReq.StartDate req)) as [d [e|]];
    [apply sent_nothing|].
  destruct (CreateReq.EndDate req) as [s|];
    [destruct (time_Parse s) as [d' [e'|]]; [apply sent_nothing|] |].
  all: match goal with |- context [Repository.Create ?s ?d] =>
      pose proof (Create_sent s d) as H;
      destruct (Repository.Create s d) as [[e|] db'] end;
    exact H.
Qed.

Lemma UpdateSubscription_sent now id req db :
  sent db (snd (Service.UpdateSubscription now id req db)).
Proof.
  unfold Service.UpdateSubscription. pose proof (GetSubscription_sent id db) as H.
  destruct (Service.GetSubscription id db) as [[sub [e|]] db']; [exact H|].
  eapply sent_trans; [exact H | apply Update_sent].
Qed.

Lemma DeleteSubscription_sent id db :
  sent db (snd (Service.DeleteSubscription id db)).
Proof.
  unfold Service.DeleteSubscription. pose proof (GetSubscription_sent id db) as H.
  destruct (Service.GetSubscription id db) as [[sub [e|]] db']; [exact H|].
  eapply sent_trans; [exact H | apply Delete_sent].
Qed.

End Reachable.

Section Queries.

(** A [SELECT] leaves the table as it is. *)
Lemma query_keeps_table q args db :
  Spec.is_query q = true -> table (snd (submit q args db)) = table db.
Proof.
  unfold Spec.is_query, submit, run. intro Hq.
  destruct (online db); [|reflexivity].
  destruct (prepare q) as [[[cols vals|p w o|sets w|w] tys]|e];
    try discriminate.
  cbn [bind]. destruct (bind_args tys args) as [bound|e]; [|reflexivity].
  cbn [bind exec]. now destruct (filter_rows bound w (table db)).
Qed.

Lemma GetSubscription_keeps_table id db :
  table (snd (Service.GetSubscription id db)) = table db.
Proof.
  unfold Service.GetSubscription, Repository.GetByID, QueryRowContext.
  match goal with |- context [submit ?q ?a ?d] =>
    assert (H : table (snd (submit q a d)) = table d)
      by (apply query_keeps_table; vm_compute; reflexivity);
    destruct (submit q a d) as [row db'] end.
  cbn [snd] in H.
  destruct (Row_Scan_subscription row Sub.zero) as [sub [e|]].
  - destruct (is_ErrNoRows (Some e)); exact H.
  - exact H.
Qed.

End Queries.

(** A supplied date that is not a month ends the update before any
    statement is sent. *)
Lemma Update_bad_date (now : GoTime.Timestamp) (id : Uuid)
    (req : UpdateSubscriptionRequest) (db : DB) :
  Spec.has_bad_date req = true ->
  exists e v,
    Repository.Update now id req db = (Some e, db)
    /\ Cause e = ParseError v.
Proof.
  intro Hbad. destruct req as [name price sd ed].
  unfold Spec.has_bad_date, Spec.is_month in Hbad.
  cbn [UpdateReq.StartDate UpdateReq.EndDate] in Hbad.
  unfold Repository.Update.
  cbn [UpdateReq.ServiceName UpdateReq.Price UpdateReq.StartDate UpdateReq.EndDate].
  destruct name as [name|], price as [price|]; cbn beta iota zeta.
  all: destruct sd as [sd|];
    [ unfold time_Parse at 1; destruct (GoTime.Parse sd) as [d|] eqn:Hd;
      [| cbn; do 2 eexists; split; reflexivity ]
    | ].
  all: cbn [negb orb] in Hbad.
  all: destruct ed as [ed|]; [|discriminate].
  all: destruct (String.eqb ed "") eqn:Heq; [discriminate|].
  all: cbn [negb andb] in Hbad.
  all: cbn beta iota zeta; try rewrite Heq; unfold time_Parse;
    destruct (GoTime.Parse ed) as [de|]; [discriminate|].
  all: cbn; do 2 eexists; split; reflexivity.
Qed.


Section Requests.
Import Spec.

Lemma serve_sent db rq : sent db (serve db rq).
Proof.
  destruct rq; cbn [serve].
  - apply CreateSubscription_sent.
  - apply GetSubscription_sent.
  - apply UpdateSubscription_sent.
  - apply DeleteSubscription_sent.
  - apply List_sent.
  - apply GetTotalCost_sent.
Qed.

Lemma serve_all_sent rqs db : sent db (serve_all rqs db).
Proof.
  unfold serve_all. revert db.
  induction rqs as [|rq rqs IH]; intro db; cbn [fold_left].
  - apply sent_nothing.
  - eapply sent_trans; [apply serve_sent | apply IH].
Qed.

Lemma CreateSubscription_rejects_price newID now now' req db :
  CreateReq.Price req <= 0 ->
  exists e,
    fst (Service.CreateSubscription newID now now' req db) = (None, Some e)
    /\ table (snd (Service.CreateSubscription newID now now' req db)) = table db
    /\ (is_month (Some (CreateReq.StartDate req)) = true ->
        is_month (CreateReq.EndDate req) = true ->
        kind e = PersistenceError).
Proof.
  intro Hp. unfold Service.CreateSubscription, time_Parse, is_month.
  destruct (GoTime.Parse (CreateReq.StartDate req)) as [d|].
  2: { eexists. split; [reflexivity|]. split; [reflexivity|]. discriminate. }
  assert (Hc : forall endDate,
    exists e entry,
      Repository.Create
        (Sub.mk newID (CreateReq.ServiceName req) (CreateReq.Price req)
                (CreateReq.UserID req) d endDate now now') db
      = (Some (WithMessage (Driver e) "failed to create subscription"),
         mkDB (table db) (online db) (log db ++ [entry]))).
  { intro endDate. now apply Create_rejects_price. }
  destruct (CreateReq.EndDate req) as [s|].
  - destruct (GoTime.Parse s) as [d'|].
    + destruct (Hc (Some d')) as [e [entry ->]].
      eexists. split; [reflexivity|]. split; reflexivity.
    + eexists. split; [reflexivity|]. split; [reflexivity|]. discriminate.
  - destruct (Hc None) as [e [entry ->]].
    eexists. split; [reflexivity|]. split; reflexivity.
Qed.

End Requests.


Section Dates.
Import Spec.

Lemma CreateSubscription_bad_date newID now now' req db :
  bad_create_dates req = true ->
  exists e v,
    Service.CreateSubscription newID now now' req db = ((None, Some e), db)
    /\ Cause e = ParseError v.
Proof.
  unfold bad_create_dates, is_month, Service.CreateSubscription, time_Parse.
  intro Hbad.
  destruct (GoTime.Parse (CreateReq.StartDate req)) as [d|].
  2: { do 2 eexists. split; reflexivity. }
  destruct (CreateReq.EndDate req) as [s|]; [|discriminate].
  destruct (GoTime.Parse s) as [d'|]; [discriminate|].
  do 2 eexists. split; reflexivity.
Qed.



End Dates.


Section Filters.
Import Spec.

Lemma pattern_is_substring f r :
  plain_name f = true -> matches_pattern f r = matches_name f r.
Proof.
  unfold plain_name, matches_pattern, matches_name.
  destruct (Filter.ServiceName f) as [name|]; [|reflexivity].
  intro Hp. now rewrite (ilike_wrapped_plain _ name Hp).
Qed.

Lemma ListSubscriptions_plain f t l :
  plain_name f = true ->
  exists entry,
    Service.ListSubscriptions f (mkDB t true l)
    = ((sort_rows (Some (c_created_at, true)) (filter (matches_list f) t), None),
       mkDB t true (l ++ [entry])).
Proof.
  intro Hp. destruct (List_selects f t l) as [entry H]. exists entry.
  unfold Service.ListSubscriptions. rewrite H.
  do 3 f_equal. apply filter_ext. intro r.
  unfold matches_list. now rewrite pattern_is_substring.
Qed.

Lemma GetTotalCost_plain f t l :
  plain_name f = true ->
  is_month (Filter.StartDate f) = true ->
  is_month (Filter.EndDate f) = true ->
  exists entry,
    Service.GetTotalCost f (mkDB t true l)
    = ((sum_prices (filter (matches_cost f) t), None),
       mkDB t true (l ++ [entry])).
Proof.
  intros Hp Hs He. destruct (GetTotalCost_selects f t l Hs He) as [entry H].
  exists entry. unfold Service.GetTotalCost. rewrite H.
  do 3 f_equal. apply filter_ext. intro r.
  unfold matches_cost, matches_list. now rewrite pattern_is_substring.
Qed.

End Filters.


Section Spring.
Import Spec.

Lemma spring_total t l :
  fst (Service.GetTotalCost Sample.spring (mkDB t true l))
  = (sum_prices (filter (in_period Sample.spring) t), None).
Proof.
  destruct (GetTotalCost_selects Sample.spring t l eq_refl eq_refl) as [e H].
  unfold Service.GetTotalCost. rewrite H. reflexivity.
Qed.

Lemma spring_february r :
  Sub.StartDate r = GoTime.mkDate 2024 2 1 -> in_period Sample.spring r = false.
Proof.
  intro H. unfold in_period, active_in_period. cbn [Sample.spring Filter.StartDate month_of].
  rewrite H. reflexivity.
Qed.

Lemma spring_june r :
  Sub.StartDate r = GoTime.mkDate 2024 6 1 ->
  in_period Sample.spring r
  = match Sub.EndDate r with
    | None => true
    | Some e => GoTime.date_ltb e (GoTime.mkDate 2024 6 1)
    end.
Proof.
  intro H. unfold in_period, active_in_period.
  cbn [Sample.spring Filter.StartDate Filter.EndDate month_of].
  rewrite H. reflexivity.
Qed.

End Spring.


(* ================================================================== *)
(** * The claims                                                      *)
(* ================================================================== *)

(** C1 (as amended).  With the filter [startDate = 03-2024],
    [endDate = 05-2024], a stored subscription whose own start is 02-2024 is
    left out of the sum of [getTotalCost], ongoing or not: it started before
    the month the filter starts with.  One whose own start is 06-2024 is
    counted when its own end is null or before June 2024, and left out
    otherwise. *)
Theorem spring_window (r : Subscription) (t : Table)
    (l : list (string * list Value)) :
  (Sub.StartDate r = GoTime.mkDate 2024 2 1 ->
   fst (Service.GetTotalCost Sample.spring (mkDB (r :: t) true l))
   = fst (Service.GetTotalCost Sample.spring (mkDB t true l)))
  /\ (Sub.StartDate r = GoTime.mkDate 2024 6 1 ->
      fst (Service.GetTotalCost Sample.spring (mkDB (r :: t) true l))
      = (if match Sub.EndDate r with
            | None => true
            | Some e => GoTime.date_ltb e (GoTime.mkDate 2024 6 1)
            end
         then Sub.Price r
              + fst (fst (Service.GetTotalCost Sample.spring (mkDB t true l)))
         else fst (fst (Service.GetTotalCost Sample.spring (mkDB t true l))),
         None)).
Proof.
  rewrite !spring_total. cbn [filter fst]. split; intro H.
  - now rewrite (spring_february r H).
  - rewrite (spring_june r H).
    now destruct (match Sub.EndDate r with None => true | Some e => _ end).
Qed.

Lemma spring_window_witness :
  (Sub.StartDate Sample.february = GoTime.mkDate 2024 2 1
   /\ fst (Service.GetTotalCost Sample.spring
             (mkDB [Sample.february; Sample.june_to_august] true []))
      = fst (Service.GetTotalCost Sample.spring
               (mkDB [Sample.june_to_august] true [])))
  /\ (Sub.StartDate Sample.june = GoTime.mkDate 2024 6 1
      /\ fst (Service.GetTotalCost Sample.spring
                (mkDB [Sample.june; Sample.june_to_august] true []))
         = (7 + fst (fst (Service.GetTotalCost Sample.spring
                            (mkDB [Sample.june_to_august] true []))),
            None)).
Proof.
  split; (split; [reflexivity|]).
  - apply (proj1 (spring_window Sample.february [Sample.june_to_august] [])).
    reflexivity.
  - apply (proj2 (spring_window Sample.june [Sample.june_to_august] [])).
    reflexivity.
Defined.

(** C1, as stated, fails: the ongoing subscription that started in February
    2024 adds nothing to the sum for March to May 2024, and the ongoing one
    that started in June 2024 adds its price. *)
Lemma spring_window_counterexample :
  fst (Service.GetTotalCost Sample.spring (mkDB [Sample.february] true []))
  <> (Sub.Price Sample.february, None)
  /\ fst (Service.GetTotalCost Sample.spring (mkDB [Sample.june] true []))
     <> (0, None).
Proof. split; vm_compute; discriminate. Qed.

(** C2 (as amended).  When the database answers, the dates of the filter are
    months and its service name has none of [%], [_] and backslash,
    [getTotalCost] returns the sum of [price] over exactly the records that
    satisfy the filter: [userId] equal, [serviceName] a case-insensitive
    substring, own start on or after the filter's start month, and own start
    before the month after the filter's end month or own end null or before
    that boundary.  It returns 0, and no error, when no record matches. *)
Theorem total_cost_is_the_sum (f : SubscriptionFilter) (db : DB) :
  online db = true -> Spec.plain_name f = true ->
  Spec.is_month (Filter.StartDate f) = true ->
  Spec.is_month (Filter.EndDate f) = true ->
  fst (Service.GetTotalCost f db)
  = (sum_prices (filter (Spec.matches_cost f) (table db)), None)
  /\ (filter (Spec.matches_cost f) (table db) = [] ->
      fst (Service.GetTotalCost f db) = (0, None))
  /\ table (snd (Service.GetTotalCost f db)) = table db.
Proof.
  intros Ho Hp Hs He. destruct db as [t o l]. cbn [online table] in *. subst o.
  destruct (GetTotalCost_plain f t l Hp Hs He) as [entry H].
  rewrite H. cbn [fst snd table]. split; [reflexivity|].
  split; [|reflexivity]. now intros ->.
Qed.

Lemma total_cost_is_the_sum_witness :
  online Sample.store = true
  /\ Spec.plain_name Sample.by_user_and_name = true
  /\ Spec.is_month (Filter.StartDate Sample.by_user_and_name) = true
  /\ Spec.is_month (Filter.EndDate Sample.by_user_and_name) = true
  /\ fst (Service.GetTotalCost Sample.by_user_and_name Sample.store)
     = (sum_prices
          (filter (Spec.matches_cost Sample.by_user_and_name)
                  (table Sample.store)), None).
Proof.
  repeat (split; [reflexivity|]).
  apply (total_cost_is_the_sum Sample.by_user_and_name Sample.store);
    reflexivity.
Defined.

(** C2, as stated, fails for two filters: with the service name [a_c] the
    record named [abc] is summed although [a_c] is no substring of [abc], and
    with a start date that is not a month the call returns an error. *)
Lemma total_cost_counterexample :
  fst (Service.GetTotalCost Sample.wildcard Sample.store)
  <> (sum_prices
        (filter (Spec.matches_cost Sample.wildcard) (table Sample.store)),
      None)
  /\ fst (Service.GetTotalCost Sample.year_first Sample.store)
     <> (sum_prices
           (filter (Spec.matches_cost Sample.year_first) (table Sample.store)),
         None).
Proof. split; vm_compute; discriminate. Qed.




(** C4.  On an update of an existing record that the table accepts: if the
    request supplies [endDate] as the empty text, every record with the
    identifier ends up with a null [endDate] (it becomes ongoing); if the
    request has no [endDate], every [endDate] of the table is what it was.
    The update itself succeeds and changes the record as the request says. *)
Theorem end_date_cleared_or_kept (now : GoTime.Timestamp) (id : Uuid)
    (req : UpdateSubscriptionRequest) (db : DB) (r : Subscription) :
  online db = true -> Spec.prices_positive (table db) ->
  In r (table db) -> Sub.ID r = id -> Spec.acceptable req = true ->
  exists db',
    Service.UpdateSubscription now id req db = (None, db')
    /\ table db'
       = map (fun r => if Spec.by_id id r then Spec.apply_update now req r else r)
             (table db)
    /\ (UpdateReq.EndDate req = Some "" ->
        Forall (fun r' => Sub.ID r' = id -> Sub.EndDate r' = None) (table db')
        /\ Exists (fun r' => Sub.ID r' = id) (table db'))
    /\ (UpdateReq.EndDate req = None ->
        map Sub.EndDate (table db') = map Sub.EndDate (table db)).
Proof.
  intros Ho Hpos Hin Hid Hacc. destruct db as [t o l].
  cbn [online table log] in *. subst o.
  destruct (GetSubscription_present id r t l Hin Hid) as [q1 [r' Hg]].
  destruct (Update_accepted now id req t (l ++ [(q1, [VUuid id])]) Hacc
              (positive_rows id t Hpos)) as [entry Hu].
  eexists. split; [|split; [|split]].
  - unfold Service.UpdateSubscription. rewrite Hg, Hu. reflexivity.
  - reflexivity.
  - intro He. cbn [table]. split.
    + apply Forall_map, Forall_forall. intros r0 _ H0.
      unfold Spec.by_id in *. destruct (N.eqb (Sub.ID r0) id) eqn:E.
      * unfold Spec.apply_update. cbn [Sub.EndDate]. now rewrite He.
      * apply N.eqb_neq in E. contradiction.
    + apply Exists_exists. exists (Spec.apply_update now req r). split.
      * apply in_map_iff. exists r. split; [|exact Hin].
        unfold Spec.by_id. now rewrite (proj2 (N.eqb_eq _ _) Hid).
      * exact Hid.
  - intro He. cbn [table]. rewrite map_map. apply map_ext. intro r0.
    cbv beta. destruct (N.eqb (Sub.ID r0) id); [|reflexivity].
    unfold Spec.apply_update. cbn [Sub.EndDate]. now rewrite He.
Qed.

Lemma end_date_cleared_or_kept_witness :
  online Sample.store = true
  /\ Spec.prices_positive (table Sample.store)
  /\ In Sample.june_to_august (table Sample.store)
  /\ Sub.ID Sample.june_to_august = 3%N
  /\ Spec.acceptable Sample.clear_end = true
  /\ exists db',
       Service.UpdateSubscription 400 3%N Sample.clear_end Sample.store
       = (None, db')
       /\ table db'
          = map (fun r => if Spec.by_id 3%N r
                          then Spec.apply_update 400 Sample.clear_end r else r)
                (table Sample.store)
       /\ (UpdateReq.EndDate Sample.clear_end = Some "" ->
           Forall (fun r' => Sub.ID r' = 3%N -> Sub.EndDate r' = None) (table db')
           /\ Exists (fun r' => Sub.ID r' = 3%N) (table db'))
       /\ (UpdateReq.EndDate Sample.clear_end = None ->
           map Sub.EndDate (table db') = map Sub.EndDate (table Sample.store)).
Proof.
  assert (Hpos : Spec.prices_positive (table Sample.store))
    by (repeat constructor).
  split; [reflexivity|]. split; [exact Hpos|].
  split; [right; right; now left|]. split; [reflexivity|].
  split; [reflexivity|].
  apply (end_date_cleared_or_kept 400 3%N Sample.clear_end Sample.store
           Sample.june_to_august eq_refl Hpos
           (or_intror (or_intror (or_introl eq_refl))) eq_refl eq_refl).
Defined.

(** C5.  An update that supplies none of [serviceName], [price],
    [startDate], [endDate], on an existing identifier, sends after the
    existence check one statement, which the server accepts as an update of
    [updated_at] alone; it does not fail (the answer is 200), it refreshes
    [updatedAt] and leaves every other field of the record, and every other
    record, as they were. *)
Theorem update_without_fields (now : GoTime.Timestamp) (id : Uuid) (db : DB)
    (r : Subscription) :
  online db = true -> Spec.prices_positive (table db) ->
  In r (table db) -> Sub.ID r = id ->
  exists q1 q2,
    Service.UpdateSubscription now id Spec.empty_request db
    = (None,
       mkDB (map (fun r => if Spec.by_id id r then Spec.touch now r else r)
                 (table db))
            true
            (log db ++ [(q1, [VUuid id]); (q2, [VTimestamp now; VUuid id])]))
    /\ prepare q2
       = Ok (Update [SetParam c_updated_at 1] (CCmp c_id OpEq 2),
             [TTimestamp; TUuid])
    /\ fst (Handlers.UpdateSubscription now (id, None)
              (Spec.empty_request, None) db)
       = Handlers.JSON 200
           (Handlers.H_message "subscription updated successfully").
Proof.
  intros Ho Hpos Hin Hid. destruct db as [t o l]. cbn [online table log] in *.
  subst o.
  destruct (GetSubscription_present id r t l Hin Hid) as [q1 [r' Hg]].
  destruct (Update_empty now id t (l ++ [(q1, [VUuid id])])
              (positive_rows id t Hpos)) as [q2 [Hu Hq2]].
  exists q1, q2.
  assert (H : Service.UpdateSubscription now id Spec.empty_request (mkDB t true l)
              = (None,
                 mkDB (map (fun r => if Spec.by_id id r
                                     then Spec.touch now r else r) t)
                      true
                      (l ++ [(q1, [VUuid id]); (q2, [VTimestamp now; VUuid id])]))).
  { unfold Service.UpdateSubscription. rewrite Hg, Hu.
    now rewrite <- app_assoc. }
  split; [exact H|]. split; [exact Hq2|].
  unfold Handlers.UpdateSubscription. now rewrite H.
Qed.

Lemma update_without_fields_witness :
  online Sample.store = true
  /\ Spec.prices_positive (table Sample.store)
  /\ In Sample.june (table Sample.store)
  /\ Sub.ID Sample.june = 2%N
  /\ exists q1 q2,
       Service.UpdateSubscription 400 2%N Spec.empty_request Sample.store
       = (None,
          mkDB (map (fun r => if Spec.by_id 2%N r then Spec.touch 400 r else r)
                    (table Sample.store))
               true
               (log Sample.store
                ++ [(q1, [VUuid 2%N]); (q2, [VTimestamp 400; VUuid 2%N])]))
       /\ prepare q2
          = Ok (Update [SetParam c_updated_at 1] (CCmp c_id OpEq 2),
                [TTimestamp; TUuid])
       /\ fst (Handlers.UpdateSubscription 400 (2%N, None)
                 (Spec.empty_request, None) Sample.store)
          = Handlers.JSON 200
              (Handlers.H_message "subscription updated successfully").
Proof.
  assert (Hpos : Spec.prices_positive (table Sample.store))
    by (repeat constructor).
  split; [reflexivity|]. split; [exact Hpos|].
  split; [right; now left|]. split; [reflexivity|].
  apply (update_without_fields 400 2%N Sample.store Sample.june eq_refl Hpos
           (or_intror (or_introl eq_refl)) eq_refl).
Defined.

(** C6.  For an identifier that no record has, [updateSubscription] and
    [deleteSubscription] send the query of the existence check and nothing
    else, fail with the not-found error (status 404), and leave the table as
    it was. *)
Theorem absent_record_is_not_mutated (now : GoTime.Timestamp) (id : Uuid)
    (req : UpdateSubscriptionRequest) (db : DB) :
  online db = true -> Spec.absent id (table db) ->
  exists q,
    Spec.is_query q = true
    /\ Service.UpdateSubscription now id req db
       = (Some (New "subscription not found"),
          mkDB (table db) true (log db ++ [(q, [VUuid id])]))
    /\ Service.DeleteSubscription id db
       = (Some (New "subscription not found"),
          mkDB (table db) true (log db ++ [(q, [VUuid id])]))
    /\ Spec.kind (New "subscription not found") = Spec.NotFoundError
    /\ Handlers.status
         (fst (Handlers.UpdateSubscription now (id, None) (req, None) db)) = 404
    /\ Handlers.status (fst (Handlers.DeleteSubscription (id, None) db)) = 404.
Proof.
  intros Ho Ha. destruct db as [t o l]. cbn [online table log] in *. subst o.
  destruct (GetSubscription_absent id t l Ha) as [q [Hs Hq]].
  exists q.
  assert (Hu : Service.UpdateSubscription now id req (mkDB t true l)
               = (Some (New "subscription not found"),
                  mkDB t true (l ++ [(q, [VUuid id])]))).
  { unfold Service.UpdateSubscription. now rewrite Hs. }
  assert (Hd : Service.DeleteSubscription id (mkDB t true l)
               = (Some (New "subscription not found"),
                  mkDB t true (l ++ [(q, [VUuid id])]))).
  { unfold Service.DeleteSubscription. now rewrite Hs. }
  repeat split; try assumption.
  - unfold Handlers.UpdateSubscription. now rewrite Hu.
  - unfold Handlers.DeleteSubscription. now rewrite Hd.
Qed.

Lemma absent_record_is_not_mutated_witness :
  online Sample.store = true
  /\ Spec.absent 9%N (table Sample.store)
  /\ exists q,
       Spec.is_query q = true
       /\ Service.UpdateSubscription 400 9%N Sample.rename Sample.store
          = (Some (New "subscription not found"),
             mkDB (table Sample.store) true
                  (log Sample.store ++ [(q, [VUuid 9%N])]))
       /\ Service.DeleteSubscription 9%N Sample.store
          = (Some (New "subscription not found"),
             mkDB (table Sample.store) true
                  (log Sample.store ++ [(q, [VUuid 9%N])]))
       /\ Spec.kind (New "subscription not found") = Spec.NotFoundError
       /\ Handlers.status
            (fst (Handlers.UpdateSubscription 400 (9%N, None)
                    (Sample.rename, None) Sample.store)) = 404
       /\ Handlers.status
            (fst (Handlers.DeleteSubscription (9%N, None) Sample.store)) = 404.
Proof.
  assert (Ha : Spec.absent 9%N (table Sample.store))
    by (repeat constructor; discriminate).
  split; [reflexivity|]. split; [exact Ha|].
  apply (absent_record_is_not_mutated 400 9%N Sample.rename Sample.store
           eq_refl Ha).
Defined.

(** C7.  For an identifier that no record has, [getById] of the persistence
    layer returns no record and no error, [getSubscription] of the service
    turns that into the not-found error, and the handler answers 404. *)
Theorem absent_record_is_not_found (id : Uuid) (db : DB) :
  online db = true -> Spec.absent id (table db) ->
  fst (Repository.GetByID id db) = (None, None)
  /\ fst (Service.GetSubscription id db)
     = (None, Some (New "subscription not found"))
  /\ Spec.kind (New "subscription not found") = Spec.NotFoundError
  /\ fst (Handlers.GetSubscription (id, None) db)
     = Handlers.JSON 404 (Handlers.H_error "subscription not found").
Proof.
  intros Ho Ha. destruct db as [t o l]. cbn [online table] in *. subst o.
  destruct (GetByID_online id t l) as [q [Hq _]].
  destruct (GetSubscription_absent id t l Ha) as [q' [Hs _]].
  repeat split.
  - rewrite Hq, (absent_filter id t Ha). reflexivity.
  - now rewrite Hs.
  - unfold Handlers.GetSubscription. rewrite Hs. reflexivity.
Qed.

Lemma absent_record_is_not_found_witness :
  online Sample.store = true
  /\ Spec.absent 9%N (table Sample.store)
  /\ fst (Repository.GetByID 9%N Sample.store) = (None, None)
  /\ fst (Service.GetSubscription 9%N Sample.store)
     = (None, Some (New "subscription not found"))
  /\ Spec.kind (New "subscription not found") = Spec.NotFoundError
  /\ fst (Handlers.GetSubscription (9%N, None) Sample.store)
     = Handlers.JSON 404 (Handlers.H_error "subscription not found").
Proof.
  assert (Ha : Spec.absent 9%N (table Sample.store))
    by (repeat constructor; discriminate).
  split; [reflexivity|]. split; [exact Ha|].
  apply (absent_record_is_not_found 9%N Sample.store eq_refl Ha).
Defined.

(** C8 (as amended).  When the database answers and the service name of the
    filter has none of [%], [_] and backslash, [list] returns exactly the
    records that match the filter ([userId] equal, [serviceName] a
    case-insensitive substring, no constraint from an absent field), most
    recently created first, and changes nothing.  (A service name with one of
    those characters is matched as an [ILIKE] pattern.) *)
Theorem list_returns_the_matches (f : SubscriptionFilter) (db : DB) :
  online db = true -> Spec.plain_name f = true ->
  exists l,
    fst (Service.ListSubscriptions f db) = (l, None)
    /\ Permutation l (filter (Spec.matches_list f) (table db))
    /\ Spec.newest_first l
    /\ table (snd (Service.ListSubscriptions f db)) = table db.
Proof.
  intros Ho Hp. destruct db as [t o l]. cbn [online table] in *. subst o.
  destruct (ListSubscriptions_plain f t l Hp) as [entry H].
  eexists. rewrite H. cbn [fst snd table]. split; [reflexivity|].
  split; [apply sort_rows_perm|]. split; [apply sort_rows_newest_first|].
  reflexivity.
Qed.

Lemma list_returns_the_matches_witness :
  online Sample.store = true
  /\ Spec.plain_name Sample.by_user_and_name = true
  /\ exists l,
       fst (Service.ListSubscriptions Sample.by_user_and_name Sample.store)
       = (l, None)
       /\ Permutation l
            (filter (Spec.matches_list Sample.by_user_and_name)
                    (table Sample.store))
       /\ Spec.newest_first l
       /\ table (snd (Service.ListSubscriptions Sample.by_user_and_name
                        Sample.store))
          = table Sample.store.
Proof.
  split; [reflexivity|]. split; [reflexivity|].
  apply (list_returns_the_matches Sample.by_user_and_name Sample.store
           eq_refl eq_refl).
Defined.

(** C8, as stated, fails: with the service name [a_c] the record named [abc]
    is listed, and [a_c] is no substring of [abc]. *)
Lemma list_counterexample :
  ~ (exists l,
       fst (Service.ListSubscriptions Sample.wildcard Sample.store) = (l, None)
       /\ Permutation l
            (filter (Spec.matches_list Sample.wildcard) (table Sample.store))).
Proof.
  intros [l [Hl Hp]].
  assert (H : l = [Sample.june_to_august])
    by (vm_compute in Hl; now injection Hl as <-).
  subst l. vm_compute in Hp. apply Permutation_sym, Permutation_nil in Hp.
  discriminate.
Qed.

(** C9.  In every store that the operations of the service lead to from an
    empty table, every record has a price above 0; whatever statement is
    submitted next, that is still so (the constraint of the table enforces
    it); and creating a record with a price that is not above 0 fails with an
    error of the persistence layer and stores nothing, in the repository and
    in the service (where a request whose dates are not months fails before,
    on the dates). *)
Theorem price_is_positive (rqs : list Spec.Request) (o : bool) (newID : Uuid)
    (now now' : GoTime.Timestamp) (req : CreateSubscriptionRequest)
    (sub : Subscription) :
  Spec.prices_positive (table (Spec.serve_all rqs (mkDB [] o [])))
  /\ (forall q args,
        Spec.prices_positive
          (table (snd (submit q args (Spec.serve_all rqs (mkDB [] o []))))))
  /\ (Sub.Price sub <= 0 ->
      exists e,
        fst (Repository.Create sub (Spec.serve_all rqs (mkDB [] o []))) = Some e
        /\ Spec.kind e = Spec.PersistenceError
        /\ table (snd (Repository.Create sub
                         (Spec.serve_all rqs (mkDB [] o []))))
           = table (Spec.serve_all rqs (mkDB [] o [])))
  /\ (CreateReq.Price req <= 0 ->
      exists e,
        fst (Service.CreateSubscription newID now now' req
               (Spec.serve_all rqs (mkDB [] o []))) = (None, Some e)
        /\ table (snd (Service.CreateSubscription newID now now' req
                         (Spec.serve_all rqs (mkDB [] o []))))
           = table (Spec.serve_all rqs (mkDB [] o []))
        /\ (Spec.is_month (Some (CreateReq.StartDate req)) = true ->
            Spec.is_month (CreateReq.EndDate req) = true ->
            Spec.kind e = Spec.PersistenceError)).
Proof.
  assert (H : Spec.prices_positive
                (table (Spec.serve_all rqs (mkDB [] o [])))).
  { apply (sent_keeps_prices (mkDB [] o [])); [apply serve_all_sent|].
    constructor. }
  split; [exact H|]. split; [|split].
  - intros q args. now apply submit_keeps_prices.
  - intro Hp.
    destruct (Create_rejects_price sub (Spec.serve_all rqs (mkDB [] o [])) Hp)
      as [e [entry He]].
    eexists. rewrite He. repeat split.
  - apply CreateSubscription_rejects_price.
Qed.

Lemma price_is_positive_witness :
  Sub.Price Sample.free <= 0
  /\ CreateReq.Price Sample.create_free <= 0
  /\ (exists e,
        fst (Repository.Create Sample.free
               (Spec.serve_all [Spec.DoCreate 1%N 10 10 Sample.create_video]
                  (mkDB [] true []))) = Some e
        /\ Spec.kind e = Spec.PersistenceError
        /\ table (snd (Repository.Create Sample.free
                         (Spec.serve_all
                            [Spec.DoCreate 1%N 10 10 Sample.create_video]
                            (mkDB [] true []))))
           = table (Spec.serve_all [Spec.DoCreate 1%N 10 10 Sample.create_video]
                      (mkDB [] true [])))
  /\ (exists e,
        fst (Service.CreateSubscription 2%N 20 20 Sample.create_free
               (Spec.serve_all [Spec.DoCreate 1%N 10 10 Sample.create_video]
                  (mkDB [] true []))) = (None, Some e)
        /\ table (snd (Service.CreateSubscription 2%N 20 20 Sample.create_free
                         (Spec.serve_all
                            [Spec.DoCreate 1%N 10 10 Sample.create_video]
                            (mkDB [] true []))))
           = table (Spec.serve_all [Spec.DoCreate 1%N 10 10 Sample.create_video]
                      (mkDB [] true []))
        /\ (Spec.is_month (Some (CreateReq.StartDate Sample.create_free)) = true ->
            Spec.is_month (CreateReq.EndDate Sample.create_free) = true ->
            Spec.kind e = Spec.PersistenceError)).
Proof.
  assert (Hs : Sub.Price Sample.free <= 0) by (cbn; lia).
  assert (Hp : CreateReq.Price Sample.create_free <= 0) by (cbn; lia).
  split; [exact Hs|]. split; [exact Hp|].
  destruct (price_is_positive [Spec.DoCreate 1%N 10 10 Sample.create_video]
              true 2%N 20 20 Sample.create_free Sample.free)
    as [_ [_ [Hrepo Hserv]]].
  split; [exact (Hrepo Hs) | exact (Hserv Hp)].
Defined.

(** C10.  When the update of the persistence layer is given a [startDate],
    or a non-empty [endDate], that is not a month, it returns the parse error
    without submitting any statement: the store, and the list of statements
    submitted, are what they were, whatever the other fields of the request
    are.  So the update of the service fails too and leaves every record as
    it was. *)
Theorem update_with_bad_date_sends_nothing (now : GoTime.Timestamp) (id : Uuid)
    (req : UpdateSubscriptionRequest) (db : DB) :
  Spec.has_bad_date req = true ->
  (exists e v,
     Repository.Update now id req db = (Some e, db)
     /\ Cause e = ParseError v)
  /\ log (snd (Repository.Update now id req db)) = log db
  /\ (exists e,
        fst (Service.UpdateSubscription now id req db) = Some e
        /\ table (snd (Service.UpdateSubscription now id req db)) = table db).
Proof.
  intro Hbad.
  destruct (Update_bad_date now id req db Hbad) as [e [v [He Hv]]].
  split; [now exists e, v|]. split; [now rewrite He|].
  unfold Service.UpdateSubscription.
  pose proof (GetSubscription_keeps_table id db) as Ht.
  destruct (Service.GetSubscription id db) as [[sub [e1|]] db1]; cbn [snd] in Ht.
  - exists e1. now split.
  - destruct (Update_bad_date now id req db1 Hbad) as [e2 [v2 [He2 _]]].
    exists e2. rewrite He2. now split.
Qed.

Lemma update_with_bad_date_sends_nothing_witness :
  Spec.has_bad_date Sample.update_year_first = true
  /\ (exists e v,
        Repository.Update 400 1%N Sample.update_year_first Sample.store
        = (Some e, Sample.store)
        /\ Cause e = ParseError v)
  /\ log (snd (Repository.Update 400 1%N Sample.update_year_first Sample.store))
     = log Sample.store
  /\ (exists e,
        fst (Service.UpdateSubscription 400 1%N Sample.update_year_first
               Sample.store) = Some e
        /\ table (snd (Service.UpdateSubscription 400 1%N
                         Sample.update_year_first Sample.store))
           = table Sample.store).
Proof.
  split; [reflexivity|].
  apply (update_with_bad_date_sends_nothing 400 1%N Sample.update_year_first
           Sample.store eq_refl).
Defined.

(* ================================================================== *)
(** * Further properties: errors and the answers of the handlers      *)
(* ================================================================== *)

Section Answers.

Lemma is_not_found_Cause e :
  Handlers.is_not_found e = true -> Cause e = New "subscription not found".
Proof.
  unfold Handlers.is_not_found.
  induction e as [msg|v|d|c IH msg]; cbn [Cause Error]; intro H.
  - apply String.eqb_eq in H. now subst msg.
  - cbn in H. discriminate.
  - destruct d; cbn in H; discriminate.
  - now apply IH.
Qed.

Lemma Cause_is_not_found e :
  Cause e = New "subscription not found" -> Handlers.is_not_found e = true.
Proof. intro H. unfold Handlers.is_not_found. now rewrite H. Qed.

Lemma driver_is_not_found e d :
  Cause e = Driver d -> Handlers.is_not_found e = false.
Proof.
  intro H. unfold Handlers.is_not_found. rewrite H. now destruct d.
Qed.

Lemma has_id_filter id t :
  has_id id t = match filter (Spec.by_id id) t with [] => false | _ => true end.
Proof.
  unfold has_id, Spec.by_id. induction t as [|r t IH]; [reflexivity|].
  cbn [existsb filter]. destruct (N.eqb (Sub.ID r) id); [reflexivity | exact IH].
Qed.

Lemma hd_filter_In {A} (p : A -> bool) (l : list A) (a : A) :
  hd_error (filter p l) = Some a -> In a l /\ p a = true.
Proof.
  intro H. apply filter_In.
  destruct (filter p l) as [|b rest]; [discriminate|].
  injection H as ->. now left.
Qed.

End Answers.

(** X1.  The test the handlers use for "not found", the text of the root
    cause, recognises exactly the error [GetSubscription] makes for a missing
    record, however often it was wrapped: a parse error or an answer of the
    driver is never taken for it.  So a failure of the service is answered
    with 404 for that error and with 500 for every other. *)
Theorem not_found_is_told_by_its_cause (e : error) :
  (Handlers.is_not_found e = true <-> Cause e = New "subscription not found")
  /\ (forall msg, Handlers.is_not_found (WithMessage e msg)
                  = Handlers.is_not_found e)
  /\ Handlers.status (Handlers.service_failure e)
     = (if Handlers.is_not_found e then 404 else 500)
  /\ (Spec.kind e <> Spec.NotFoundError ->
      Handlers.status (Handlers.service_failure e) = 500).
Proof.
  split; [split; [apply is_not_found_Cause | apply Cause_is_not_found]|].
  split; [reflexivity|]. split.
  - unfold Handlers.service_failure. now destruct (Handlers.is_not_found e).
  - intro Hk. unfold Handlers.service_failure.
    destruct (Handlers.is_not_found e) eqn:Hn; [|reflexivity].
    apply is_not_found_Cause in Hn. unfold Spec.kind in Hk.
    rewrite Hn in Hk. now destruct Hk.
Qed.

(** X2.  [GET /subscriptions/{id}] with a well-formed identifier: the answer
    is 200 with the first record of the table that has the identifier when
    there is one, 404 when the database was reached and has none, and 500 when
    the database could not be reached; one query is submitted, and no record
    changes. *)
Theorem get_answers (id : Uuid) (db : DB) :
  Handlers.status (fst (Handlers.GetSubscription (id, None) db))
  = (if online db then if has_id id (table db) then 200 else 404 else 500)
  /\ (Handlers.status (fst (Handlers.GetSubscription (id, None) db)) = 200 ->
      exists r,
        fst (Handlers.GetSubscription (id, None) db)
        = Handlers.JSON 200 (Handlers.J_subscription (Some r))
        /\ hd_error (filter (Spec.by_id id) (table db)) = Some r
        /\ In r (table db) /\ Sub.ID r = id)
  /\ table (snd (Handlers.GetSubscription (id, None) db)) = table db
  /\ List.length (log (snd (Handlers.GetSubscription (id, None) db)))
     = S (List.length (log db)).
Proof.
  destruct db as [t [|] l]; cbn [online table log].
  - destruct (GetByID_online id t l) as [q [Hq _]].
    unfold Handlers.GetSubscription, Service.GetSubscription. rewrite Hq.
    rewrite has_id_filter.
    destruct (filter (Spec.by_id id) t) as [|r rest] eqn:Hf; cbn.
    + repeat split; try discriminate.
      rewrite length_app. cbn. lia.
    + repeat split.
      * intros _. exists r. split; [reflexivity|]. split; [reflexivity|].
        destruct (hd_filter_In (Spec.by_id id) t r) as [Hin Hid];
          [now rewrite Hf|].
        split; [exact Hin|]. unfold Spec.by_id in Hid. now apply N.eqb_eq.
      * rewrite length_app. cbn. lia.
  - cbn. repeat split; try discriminate. rewrite length_app. cbn. lia.
Qed.

Section Creation.

Lemma absent_has_id id t : Spec.absent id t -> has_id id t = false.
Proof. intro H. now rewrite has_id_filter, (absent_filter id t H). Qed.

(** An [INSERT] of a record the table accepts appends it. *)
Lemma Create_online sub t l :
  (String.length (Sub.ServiceName sub) <= 255)%nat ->
  0 < Sub.Price sub -> Sub.Price sub <= int4_max ->
  has_id (Sub.ID sub) t = false ->
  exists entry,
    Repository.Create sub (mkDB t true l)
    = (None, mkDB (t ++ [sub]) true (l ++ [entry])).
Proof.
  intros Hname Hp1 Hp2 Hid.
  unfold Repository.Create, ExecContext, submit. cbn [online table log].
  prepared.
  cbn [bind_args List.length Nat.eqb combine map_result fst snd].
  destruct sub as [id name price user start end_ created updated].
  cbn [Sub.ID Sub.ServiceName Sub.Price Sub.UserID Sub.StartDate Sub.EndDate
       Sub.CreatedAt Sub.UpdatedAt] in *.
  rewrite (coerce_int4 price Hp1 Hp2).
  apply Z.ltb_lt in Hp1.
  destruct end_ as [e|];
    cbn [Repository.nullable_date coerce bind exec]; unfold exec_insert;
    cbn [combine map param nth Nat.sub store_columns set_column Sub.zero bind];
    rewrite (varchar255_fits name Hname);
    cbn [bind store_columns set_column]; unfold check_row; cbn [Sub.Price];
    rewrite Hp1; cbn [bind Sub.ID]; rewrite Hid;
    eexists; reflexivity.
Qed.

Lemma filter_by_id_last id t r :
  Spec.absent id t -> Sub.ID r = id ->
  filter (Spec.by_id id) (t ++ [r]) = [r].
Proof.
  intros Ha Hr. rewrite filter_app, (absent_filter id t Ha). cbn [filter app].
  unfold Spec.by_id. now rewrite (proj2 (N.eqb_eq _ _) Hr).
Qed.

End Creation.

(** X3.  Create, then get.  When the database is reached, the identifier
    drawn is not in use and the request is one the table accepts (name of at
    most 255 characters, price within 1..2147483647, dates that are months),
    [createSubscription] returns a record with the drawn identifier and the
    name, price, user and parsed dates of the request, and keeps every record
    that was there; [getSubscription] with that identifier then returns the
    same data.  The answers are 201 and 200.  Nothing relates the two dates: a
    request whose end is before its start is stored as well. *)
Theorem created_record_is_found (newID : Uuid) (now now' : GoTime.Timestamp)
    (req : CreateSubscriptionRequest) (db : DB) :
  online db = true -> Spec.absent newID (table db) ->
  Further.creatable req = true ->
  exists sub db',
    Service.CreateSubscription newID now now' req db = ((Some sub, None), db')
    /\ Sub.ID sub = newID
    /\ Sub.ServiceName sub = CreateReq.ServiceName req
    /\ Sub.Price sub = CreateReq.Price req
    /\ Sub.UserID sub = CreateReq.UserID req
    /\ GoTime.Parse (CreateReq.StartDate req) = Some (Sub.StartDate sub)
    /\ Sub.EndDate sub = Spec.month_of (CreateReq.EndDate req)
    /\ (forall r, In r (table db) -> In r (table db'))
    /\ (exists got,
          fst (Service.GetSubscription newID db') = (Some got, None)
          /\ Further.same_data got sub)
    /\ fst (Handlers.CreateSubscription newID now now' (req, None) db)
       = Handlers.JSON 201 (Handlers.J_subscription (Some sub))
    /\ Handlers.status (fst (Handlers.GetSubscription (newID, None) db')) = 200.
Proof.
  intros Ho Ha Hc. destruct db as [t o l]. cbn [online table] in *. subst o.
  unfold Further.creatable in Hc.
  apply andb_prop in Hc. destruct Hc as [Hc Hed].
  apply andb_prop in Hc. destruct Hc as [Hc Hsd].
  apply andb_prop in Hc. destruct Hc as [Hc Hp2].
  apply andb_prop in Hc. destruct Hc as [Hname Hp1].
  apply Nat.leb_le in Hname. apply Z.ltb_lt in Hp1. apply Z.leb_le in Hp2.
  unfold Spec.is_month in Hsd, Hed.
  destruct (GoTime.Parse (CreateReq.StartDate req)) as [d|] eqn:Hd;
    [|discriminate].
  assert (Hend : exists endDate,
            Spec.month_of (CreateReq.EndDate req) = endDate
            /\ match CreateReq.EndDate req with
               | Some e => GoTime.Parse e = endDate
               | None => endDate = None
               end /\ (CreateReq.EndDate req <> None -> endDate <> None)).
  { destruct (CreateReq.EndDate req) as [e|]; cbn [Spec.month_of].
    - destruct (GoTime.Parse e) as [de|]; [|discriminate].
      exists (Some de). repeat split. discriminate.
    - exists None. repeat split. now intros []. }
  destruct Hend as [endDate [Hm [He Hsome]]].
  pose (sub := Sub.mk newID (CreateReq.ServiceName req) (CreateReq.Price req)
                      (CreateReq.UserID req) d endDate now now').
  destruct (Create_online sub t l Hname Hp1 Hp2 (absent_has_id newID t Ha))
    as [entry Hcreate].
  assert (Hs : Service.CreateSubscription newID now now' req (mkDB t true l)
               = ((Some sub, None), mkDB (t ++ [sub]) true (l ++ [entry]))).
  { unfold Service.CreateSubscription, time_Parse. rewrite Hd.
    destruct (CreateReq.EndDate req) as [e|].
    - rewrite He. destruct endDate as [de|]; [|now destruct Hsome].
      cbv zeta. change (Sub.mk newID (CreateReq.ServiceName req)
                          (CreateReq.Price req) (CreateReq.UserID req) d
                          (Some de) now now') with sub.
      now rewrite Hcreate.
    - subst endDate. cbv zeta.
      change (Sub.mk newID (CreateReq.ServiceName req)
                (CreateReq.Price req) (CreateReq.UserID req) d
                None now now') with sub.
      now rewrite Hcreate. }
  destruct (GetByID_online newID (t ++ [sub]) (l ++ [entry])) as [q [Hq _]].
  rewrite (filter_by_id_last newID t sub Ha eq_refl) in Hq. cbn [hd_error] in Hq.
  exists sub. eexists. split; [exact Hs|].
  repeat split; try reflexivity.
  - now rewrite Hm.
  - intros r Hin. cbn [table]. apply in_or_app. now left.
  - exists sub. split; [|repeat split].
    unfold Service.GetSubscription. now rewrite Hq.
  - unfold Handlers.CreateSubscription. now rewrite Hs.
  - unfold Handlers.GetSubscription, Service.GetSubscription. now rewrite Hq.
Qed.

Lemma created_record_is_found_witness :
  online Sample.store = true
  /\ Spec.absent 9%N (table Sample.store)
  /\ Further.creatable Cases.create_backwards = true
  /\ exists sub db',
       Service.CreateSubscription 9%N 400 401 Cases.create_backwards
         Sample.store = ((Some sub, None), db')
       /\ Sub.ID sub = 9%N
       /\ Sub.EndDate sub = Some (GoTime.mkDate 2024 1 1)
       /\ (exists got,
             fst (Service.GetSubscription 9%N db') = (Some got, None)
             /\ Further.same_data got sub)
       /\ fst (Handlers.CreateSubscription 9%N 400 401
                 (Cases.create_backwards, None) Sample.store)
          = Handlers.JSON 201 (Handlers.J_subscription (Some sub)).
Proof.
  assert (Ha : Spec.absent 9%N (table Sample.store))
    by (repeat constructor; discriminate).
  split; [reflexivity|]. split; [exact Ha|]. split; [reflexivity|].
  destruct (created_record_is_found 9%N 400 401 Cases.create_backwards
              Sample.store eq_refl Ha eq_refl)
    as [sub [db' [Hs [Hid [_ [_ [_ [_ [Hed [_ [Hgot [Hh _]]]]]]]]]]]].
  exists sub, db'. split; [exact Hs|]. split; [exact Hid|].
  split; [exact Hed|]. split; [exact Hgot | exact Hh].
Defined.

Section Removal.

Lemma filter_out_absent id t :
  Spec.absent id (filter (fun r => negb (Spec.by_id id r)) t).
Proof.
  unfold Spec.absent. apply Forall_forall. intros r Hin.
  apply filter_In in Hin. destruct Hin as [_ Hn].
  unfold Spec.by_id in Hn. apply negb_true_iff, N.eqb_neq in Hn. exact Hn.
Qed.

Lemma filter_out_absent_same id t :
  Spec.absent id t -> filter (fun r => negb (Spec.by_id id r)) t = t.
Proof.
  unfold Spec.absent, Spec.by_id. induction 1 as [|r t Hr _ IH]; [reflexivity|].
  cbn [filter]. apply N.eqb_neq in Hr. rewrite Hr. cbn [negb]. now rewrite IH.
Qed.

Lemma map_absent_same {id} (g : Subscription -> Subscription) t :
  Spec.absent id t ->
  map (fun r => if N.eqb (Sub.ID r) id then g r else r) t = t.
Proof.
  unfold Spec.absent. induction 1 as [|r t Hr _ IH]; [reflexivity|].
  cbn [map]. apply N.eqb_neq in Hr. now rewrite Hr, IH.
Qed.

End Removal.

(** X4.  Delete, then get.  Deleting an existing record succeeds (200),
    removes the records with that identifier and no other, and keeps the
    order of the rest; a [getSubscription] or a second [deleteSubscription]
    with the identifier then fails with the not-found error (404). *)
Theorem deleted_record_is_gone (id : Uuid) (db : DB) (r : Subscription) :
  online db = true -> In r (table db) -> Sub.ID r = id ->
  exists db',
    Service.DeleteSubscription id db = (None, db')
    /\ table db' = filter (fun r => negb (Spec.by_id id r)) (table db)
    /\ (forall r', In r' (table db') <-> In r' (table db) /\ Sub.ID r' <> id)
    /\ fst (Service.GetSubscription id db')
       = (None, Some (New "subscription not found"))
    /\ fst (Service.DeleteSubscription id db')
       = Some (New "subscription not found")
    /\ Handlers.status (fst (Handlers.DeleteSubscription (id, None) db)) = 200
    /\ Handlers.status (fst (Handlers.GetSubscription (id, None) db')) = 404
    /\ Handlers.status (fst (Handlers.DeleteSubscription (id, None) db')) = 404.
Proof.
  intros Ho Hin Hid. destruct db as [t o l]. cbn [online table] in *. subst o.
  destruct (GetSubscription_present id r t l Hin Hid) as [q [r' Hg]].
  destruct (Delete_online id t (l ++ [(q, [VUuid id])])) as [entry Hd].
  assert (Hs : Service.DeleteSubscription id (mkDB t true l)
               = (None, mkDB (filter (fun r => negb (Spec.by_id id r)) t) true
                             ((l ++ [(q, [VUuid id])]) ++ [entry]))).
  { unfold Service.DeleteSubscription. now rewrite Hg, Hd. }
  eexists. split; [exact Hs|]. cbn [table].
  pose proof (filter_out_absent id t) as Ha.
  destruct (GetSubscription_absent id _ ((l ++ [(q, [VUuid id])]) ++ [entry]) Ha)
    as [q' [Hg' _]].
  assert (Hd' : Service.DeleteSubscription id
                  (mkDB (filter (fun r => negb (Spec.by_id id r)) t) true
                        ((l ++ [(q, [VUuid id])]) ++ [entry]))
                = (Some (New "subscription not found"),
                   mkDB (filter (fun r => negb (Spec.by_id id r)) t) true
                        (((l ++ [(q, [VUuid id])]) ++ [entry])
                         ++ [(q', [VUuid id])]))).
  { unfold Service.DeleteSubscription. now rewrite Hg'. }
  split; [reflexivity|]. split; [|split; [|split; [|split; [|split]]]].
  - intro r0. rewrite filter_In. unfold Spec.by_id.
    rewrite negb_true_iff, N.eqb_neq. reflexivity.
  - now rewrite Hg'.
  - now rewrite Hd'.
  - unfold Handlers.DeleteSubscription. now rewrite Hs.
  - unfold Handlers.GetSubscription. now rewrite Hg'.
  - unfold Handlers.DeleteSubscription. now rewrite Hd'.
Qed.

Lemma deleted_record_is_gone_witness :
  online Sample.store = true
  /\ In Sample.june (table Sample.store)
  /\ Sub.ID Sample.june = 2%N
  /\ exists db',
       Service.DeleteSubscription 2%N Sample.store = (None, db')
       /\ table db' = [Sample.february; Sample.june_to_august]
       /\ fst (Service.GetSubscription 2%N db')
          = (None, Some (New "subscription not found"))
       /\ Handlers.status (fst (Handlers.GetSubscription (2%N, None) db')) = 404.
Proof.
  split; [reflexivity|]. split; [right; now left|]. split; [reflexivity|].
  destruct (deleted_record_is_gone 2%N Sample.store Sample.june eq_refl
              (or_intror (or_introl eq_refl)) eq_refl)
    as [db' [Hs [Ht [_ [Hg [_ [_ [H404 _]]]]]]]].
  exists db'. split; [exact Hs|]. split; [exact Ht|]. split; [exact Hg|].
  exact H404.
Defined.

(** X5.  At the persistence layer an identifier that no record has is no
    error: [delete] succeeds and removes nothing, and so does an [update]
    whose fields the table would accept, which changes nothing.  (The service
    reports a missing record from its own check before; a record deleted
    between that check and the statement goes unnoticed.) *)
Theorem absent_id_is_no_error_in_the_repository (now : GoTime.Timestamp)
    (id : Uuid) (req : UpdateSubscriptionRequest) (db : DB) :
  online db = true -> Spec.absent id (table db) ->
  (fst (Repository.Delete id db) = None
   /\ table (snd (Repository.Delete id db)) = table db)
  /\ (Spec.acceptable req = true ->
      fst (Repository.Update now id req db) = None
      /\ table (snd (Repository.Update now id req db)) = table db).
Proof.
  intros Ho Ha. destruct db as [t o l]. cbn [online table] in *. subst o.
  split.
  - destruct (Delete_online id t l) as [entry ->]. cbn [fst snd table].
    split; [reflexivity|]. now apply filter_out_absent_same.
  - intro Hacc.
    destruct (Update_accepted now id req t l Hacc) as [entry ->].
    + intros r Hin Hid. unfold Spec.absent in Ha.
      rewrite Forall_forall in Ha. now destruct (Ha r Hin).
    + cbn [fst snd table]. split; [reflexivity|]. now apply map_absent_same.
Qed.

Lemma absent_id_is_no_error_in_the_repository_witness :
  online Sample.store = true
  /\ Spec.absent 9%N (table Sample.store)
  /\ (fst (Repository.Delete 9%N Sample.store) = None
      /\ table (snd (Repository.Delete 9%N Sample.store)) = table Sample.store)
  /\ (Spec.acceptable Sample.rename = true ->
      fst (Repository.Update 400 9%N Sample.rename Sample.store) = None
      /\ table (snd (Repository.Update 400 9%N Sample.rename Sample.store))
         = table Sample.store).
Proof.
  assert (Ha : Spec.absent 9%N (table Sample.store))
    by (repeat constructor; discriminate).
  split; [reflexivity|]. split; [exact Ha|].
  apply (absent_id_is_no_error_in_the_repository 400 9%N Sample.rename
           Sample.store eq_refl Ha).
Defined.

(* ================================================================== *)
(** * Further properties: what every statement keeps                  *)
(* ================================================================== *)

Section Identifiers.

Lemma has_id_In id t : has_id id t = true <-> In id (map Sub.ID t).
Proof.
  unfold has_id. rewrite existsb_exists, in_map_iff. split.
  - intros [r [Hin Heq]]. apply N.eqb_eq in Heq. now exists r.
  - intros [r [Heq Hin]]. exists r. split; [exact Hin | now apply N.eqb_eq].
Qed.

Lemma unique_ids_NoDup t : unique_ids t = true -> NoDup (map Sub.ID t).
Proof.
  induction t as [|r t IH]; cbn [unique_ids map]; intro H; [constructor|].
  apply andb_prop in H. destruct H as [Hr Ht]. apply negb_true_iff in Hr.
  constructor; [|now apply IH].
  intro Hin. apply has_id_In in Hin. congruence.
Qed.

(** Writing a column other than [id] leaves the identifier. *)
Lemma set_column_keeps_id c v r r' :
  column_eqb c c_id = false -> set_column c v r = Ok r' -> Sub.ID r' = Sub.ID r.
Proof.
  intros Hc H. destruct r as [id name price user start end_ created updated].
  destruct c; try discriminate Hc; destruct v; cbn in H; try discriminate H;
    try (injection H as <-; reflexivity).
  destruct (varchar255 s); cbn in H; [|discriminate]. now injection H as <-.
Qed.

Lemma store_columns_keeps_id l r r' :
  existsb (fun cv => column_eqb c_id (fst cv)) l = false ->
  store_columns l r = Ok r' -> Sub.ID r' = Sub.ID r.
Proof.
  revert r. induction l as [|[c v] l IH]; intros r Hl H; cbn [store_columns] in H.
  - now injection H as <-.
  - cbn [existsb fst] in Hl. apply orb_false_elim in Hl. destruct Hl as [Hc Hl].
    destruct (set_column c v r) as [r1|e] eqn:Hs; cbn [bind] in H; [|discriminate].
    rewrite (IH r1 Hl H). apply (set_column_keeps_id c v); [|exact Hs].
    now destruct c.
Qed.

Lemma assigned_value_column bound sets :
  existsb (fun cv => column_eqb c_id (fst cv)) (map (assigned_value bound) sets)
  = existsb (column_eqb c_id) (map assigned sets).
Proof.
  induction sets as [|a sets IH]; [reflexivity|].
  cbn [map existsb]. rewrite IH. now destruct a.
Qed.

Lemma update_rows_keeps_ids bound sets w t t' :
  existsb (column_eqb c_id) (map assigned sets) = false ->
  update_rows bound sets w t = Ok t' -> map Sub.ID t' = map Sub.ID t.
Proof.
  intro Hs. revert t'. induction t as [|r t IH]; intros t' H;
    cbn [update_rows] in H.
  - now injection H as <-.
  - destruct (selected bound w r) as [b|e]; cbn [bind] in H; [|discriminate].
    assert (Hr : forall r1,
              (if b then bind (store_columns (map (assigned_value bound) sets) r)
                              (fun r1 => check_row r1)
               else Ok r) = Ok r1 -> Sub.ID r1 = Sub.ID r).
    { intros r1 H1. destruct b; [|now injection H1 as <-].
      destruct (store_columns _ r) as [r2|e] eqn:Hst; cbn [bind] in H1;
        [|discriminate].
      unfold check_row in H1. destruct (0 <? Sub.Price r2); [|discriminate].
      injection H1 as <-.
      apply (store_columns_keeps_id _ _ _ (eq_trans (assigned_value_column _ _) Hs) Hst). }
    destruct (if b then _ else _) as [r1|e]; cbn [bind] in H; [|discriminate].
    destruct (update_rows bound sets w t) as [rest|e]; cbn [bind] in H;
      [|discriminate].
    injection H as <-. cbn [map]. now rewrite (Hr r1 eq_refl), (IH rest eq_refl).
Qed.

Lemma delete_rows_In bound w t t' r :
  delete_rows bound w t = Ok t' -> In r t' -> In r t.
Proof.
  revert t'. induction t as [|r0 t IH]; intros t' H Hin; cbn [delete_rows] in H.
  - injection H as <-. destruct Hin.
  - destruct (selected bound w r0) as [b|e]; cbn [bind] in H; [|discriminate].
    destruct (delete_rows bound w t) as [rest|e]; cbn [bind] in H; [|discriminate].
    injection H as <-. destruct b.
    + right. now apply (IH rest).
    + destruct Hin as [->|Hin]; [now left | right; now apply (IH rest)].
Qed.

Lemma delete_rows_keeps_unique bound w t t' :
  Further.ids_unique t -> delete_rows bound w t = Ok t' -> Further.ids_unique t'.
Proof.
  unfold Further.ids_unique. revert t'.
  induction t as [|r t IH]; intros t' Hu H; cbn [delete_rows] in H.
  - injection H as <-. constructor.
  - cbn [map] in Hu. inversion Hu as [|? ? Hr Ht]; subst.
    destruct (selected bound w r) as [b|e]; cbn [bind] in H; [|discriminate].
    destruct (delete_rows bound w t) as [rest|e] eqn:Hd; cbn [bind] in H;
      [|discriminate].
    specialize (IH rest Ht eq_refl). injection H as <-.
    destruct b; [exact IH|]. cbn [map]. constructor; [|exact IH].
    intro Hin. apply Hr. apply in_map_iff in Hin. destruct Hin as [x [Hx Hin]].
    apply in_map_iff. exists x. split; [exact Hx|].
    now apply (delete_rows_In bound w t rest).
Qed.

(** The primary key: whatever the statement, the rows it leaves have pairwise
    different identifiers. *)
Lemma exec_keeps_unique s bound t rows t' :
  Further.ids_unique t -> exec s bound t = Ok (rows, t') -> Further.ids_unique t'.
Proof.
  intros Hu H. destruct s as [cols vals|p w o|sets w|w]; cbn [exec] in H.
  - unfold exec_insert in H.
    destruct (store_columns _ Sub.zero) as [r|e]; cbn [bind] in H; [|discriminate].
    destruct (check_row r) as [r1|e] eqn:Hc; cbn [bind] in H; [|discriminate].
    destruct (has_id (Sub.ID r1) t) eqn:Hid; [discriminate|].
    cbn [bind] in H. injection H as _ <-.
    unfold Further.ids_unique in *. rewrite map_app. cbn [map].
    apply NoDup_app; [exact Hu | repeat constructor; intros [] |].
    intros x Hx [<-|[]]. apply has_id_In in Hx. congruence.
  - destruct (filter_rows bound w t); cbn [bind] in H; [|discriminate].
    now injection H as _ <-.
  - unfold exec_update in H.
    destruct (update_rows bound sets w t) as [t1|e] eqn:Hup; cbn [bind] in H;
      [|discriminate].
    destruct (existsb (column_eqb c_id) (map assigned sets)) eqn:He;
      cbn [andb] in H.
    + destruct (unique_ids t1) eqn:Hq; cbn [negb] in H; [|discriminate].
      injection H as _ <-. now apply unique_ids_NoDup.
    + injection H as _ <-. unfold Further.ids_unique.
      now rewrite (update_rows_keeps_ids bound sets w t t1 He Hup).
  - destruct (delete_rows bound w t) as [t1|e] eqn:Hd; cbn [bind] in H;
      [|discriminate].
    injection H as _ <-. now apply (delete_rows_keeps_unique bound w t).
Qed.

Lemma submit_keeps_unique q args db :
  Further.ids_unique (table db) ->
  Further.ids_unique (table (snd (submit q args db))).
Proof.
  intro Hu. unfold submit. destruct (online db); [|exact Hu].
  destruct (run q args (table db)) as [[rows t']|e] eqn:Hr; [|exact Hu].
  cbn [snd table]. unfold run in Hr.
  destruct (prepare q) as [[s tys]|e]; cbn [bind] in Hr; [|discriminate].
  destruct (bind_args tys args) as [bound|e]; cbn [bind] in Hr; [|discriminate].
  now apply (exec_keeps_unique s bound (table db) rows).
Qed.

Lemma sent_keeps_unique a b :
  Spec.sent a b -> Further.ids_unique (table a) -> Further.ids_unique (table b).
Proof.
  induction 1 as [|db q args db' _ IH]; intro H; [exact H|].
  apply IH. now apply submit_keeps_unique.
Qed.

Lemma unique_same_record t (r1 r2 : Subscription) :
  Further.ids_unique t -> In r1 t -> In r2 t -> Sub.ID r1 = Sub.ID r2 -> r1 = r2.
Proof.
  unfold Further.ids_unique. induction t as [|r t IH]; intros Hu H1 H2 Heq;
    [destruct H1|].
  cbn [map] in Hu. inversion Hu as [|? ? Hr Ht]; subst.
  destruct H1 as [->|H1], H2 as [->|H2]; [reflexivity| | |now apply IH].
  - exfalso. apply Hr. rewrite Heq. now apply in_map.
  - exfalso. apply Hr. rewrite <- Heq. now apply in_map.
Qed.

End Identifiers.

(** X6.  Identifiers are unique.  In every store that requests to the service
    lead to from an empty table, no two records have the same identifier, so
    a record is determined by its identifier; and no statement whatever,
    submitted next, can change that (the primary key of the table). *)
Theorem identifiers_stay_unique (rqs : list Spec.Request) (o : bool) :
  Further.ids_unique (table (Spec.serve_all rqs (mkDB [] o [])))
  /\ (forall r1 r2,
        In r1 (table (Spec.serve_all rqs (mkDB [] o []))) ->
        In r2 (table (Spec.serve_all rqs (mkDB [] o []))) ->
        Sub.ID r1 = Sub.ID r2 -> r1 = r2)
  /\ (forall q args,
        Further.ids_unique
          (table (snd (submit q args (Spec.serve_all rqs (mkDB [] o [])))))).
Proof.
  assert (H : Further.ids_unique (table (Spec.serve_all rqs (mkDB [] o [])))).
  { apply (sent_keeps_unique (mkDB [] o [])); [apply serve_all_sent|].
    constructor. }
  split; [exact H|]. split.
  - intros r1 r2. now apply unique_same_record.
  - intros q args. now apply submit_keeps_unique.
Qed.

Section Months.
Import GoTime Further.

Lemma isDigit_range c : isDigit c = true -> 0 <= digit_val c <= 9.
Proof.
  unfold isDigit, digit_val. intro H. apply andb_prop in H. destruct H as [H1 H2].
  apply Nat.leb_le in H1. apply Nat.leb_le in H2. lia.
Qed.

(** What [time.Parse] accepts for the layout [01-2006] has seven characters
    and is the first day of a month of a year of four digits. *)
Lemma Parse_month s d :
  Parse s = Some d ->
  first_of_month d /\ 0 <= year d <= 9999 /\ String.length s = 7%nat.
Proof.
  unfold Parse, getnum_fixed, skip_dash, get_long_year, first_of_month.
  destruct s as [|m0 [|m1 s]]; try discriminate.
  destruct (isDigit m0) eqn:D0; [|discriminate].
  destruct (isDigit m1) eqn:D1; [|discriminate]. cbn [andb].
  destruct (_ || _) eqn:Hm; [discriminate|].
  apply orb_false_elim in Hm. destruct Hm as [Hm1 Hm2].
  apply Z.leb_gt in Hm1. apply Z.ltb_ge in Hm2.
  destruct s as [|c s]; [discriminate|].
  destruct (Ascii.eqb c "-"); [|discriminate].
  destruct s as [|y0 [|y1 [|y2 [|y3 s]]]]; try discriminate.
  destruct (isDigit y0) eqn:E0; [|discriminate].
  destruct (isDigit y1) eqn:E1; [|discriminate].
  destruct (isDigit y2) eqn:E2; [|discriminate].
  destruct (isDigit y3) eqn:E3; [|discriminate]. cbn [andb].
  destruct s; [|discriminate].
  intro H. injection H as <-. cbn [day month year String.length].
  apply isDigit_range in E0, E1, E2, E3.
  repeat split; lia.
Qed.

Lemma Parse_first_of_month s d : Parse s = Some d -> first_of_month d.
Proof. intro H. now apply (Parse_month s d). Qed.

Lemma AddMonths_first_of_month d :
  first_of_month d -> first_of_month (AddMonths 1 d).
Proof.
  unfold first_of_month, AddMonths. cbn [day month]. intros [Hd Hm].
  split; [exact Hd|].
  pose proof (Z.mod_pos_bound (month d - 1 + 1) 12 ltac:(lia)). lia.
Qed.

Lemma coerce_month ty v sv :
  month_argument v -> coerce ty v = Ok sv -> month_value sv.
Proof.
  intros Hv H. destruct v, ty; cbn in H; try discriminate H;
    try (injection H as <-; exact I); try (injection H as <-; exact Hv).
  destruct (_ && _); [|discriminate]. now injection H as <-.
Qed.

Lemma bind_args_months tys args bound :
  Forall month_argument args -> bind_args tys args = Ok bound ->
  Forall month_value bound.
Proof.
  unfold bind_args. destruct (Nat.eqb _ _); [|discriminate].
  revert args bound. induction tys as [|ty tys IH]; intros args bound Ha H.
  - cbn in H. injection H as <-. constructor.
  - destruct args as [|v args]; cbn [combine map_result] in H.
    + injection H as <-. constructor.
    + inversion Ha as [|? ? Hv Ha']; subst. cbn [fst snd] in H.
      destruct (coerce ty v) as [sv|e] eqn:Hc; cbn [bind] in H; [|discriminate].
      destruct (map_result _ (combine tys args)) as [rest|e] eqn:Hr;
        cbn [bind] in H; [|discriminate].
      injection H as <-.
      constructor; [now apply (coerce_month ty v) | now apply (IH args)].
Qed.

Lemma param_month bound p : Forall month_value bound -> month_value (param bound p).
Proof.
  intro H. unfold param. generalize (p - 1)%nat as n. intro n.
  revert n. induction H as [|v l Hv _ IH]; intro n.
  - now destruct n.
  - destruct n; [exact Hv | apply IH].
Qed.

Lemma set_column_months c v r r' :
  month_value v -> on_months r -> set_column c v r = Ok r' -> on_months r'.
Proof.
  intros Hv [Hs He] H.
  destruct r as [id name price user start end_ created updated].
  unfold on_months in *. cbn [Sub.StartDate Sub.EndDate] in *.
  destruct c, v; cbn in H; try discriminate H;
    try (injection H as <-; cbn [Sub.StartDate Sub.EndDate]; now split).
  destruct (varchar255 s); cbn in H; [|discriminate].
  injection H as <-. now split.
Qed.

Lemma store_columns_months l r r' :
  Forall (fun cv : Column * SqlVal => month_value (snd cv)) l -> on_months r ->
  store_columns l r = Ok r' -> on_months r'.
Proof.
  intro Hl. revert r. induction Hl as [|[c v] l Hv _ IH]; intros r Hr H;
    cbn [store_columns] in H.
  - now injection H as <-.
  - destruct (set_column c v r) as [r1|e] eqn:Hs; cbn [bind] in H; [|discriminate].
    apply (IH r1); [|exact H]. now apply (set_column_months c v r).
Qed.

Lemma assigned_values_months bound sets :
  Forall month_value bound ->
  Forall (fun cv : Column * SqlVal => month_value (snd cv)) (map (assigned_value bound) sets).
Proof.
  intro Hb. apply Forall_map, Forall_forall. intros a _.
  destruct a; cbn [assigned_value snd]; [now apply param_month | exact I].
Qed.

Lemma inserted_values_months bound cols vals :
  Forall month_value bound ->
  Forall (fun cv : Column * SqlVal => month_value (snd cv)) (combine cols (map (param bound) vals)).
Proof.
  intro Hb. apply Forall_forall. intros [c v] Hin. cbn [snd].
  apply in_combine_r in Hin. apply in_map_iff in Hin.
  destruct Hin as [p [<- _]]. now apply param_month.
Qed.

Lemma update_rows_months bound sets w t t' :
  Forall month_value bound -> Forall on_months t ->
  update_rows bound sets w t = Ok t' -> Forall on_months t'.
Proof.
  intro Hb. revert t'. induction t as [|r t IH]; intros t' Ht H;
    cbn [update_rows] in H.
  - injection H as <-. constructor.
  - inversion Ht as [|? ? Hr Ht']; subst.
    destruct (selected bound w r) as [b|e]; cbn [bind] in H; [|discriminate].
    assert (Hr1 : forall r1,
              (if b then bind (store_columns (map (assigned_value bound) sets) r)
                              (fun r1 => check_row r1)
               else Ok r) = Ok r1 -> on_months r1).
    { intros r1 H1. destruct b; [|now injection H1 as <-].
      destruct (store_columns _ r) as [r2|e] eqn:Hst; cbn [bind] in H1;
        [|discriminate].
      unfold check_row in H1. destruct (0 <? Sub.Price r2); [|discriminate].
      injection H1 as <-.
      now apply (store_columns_months _ r r2 (assigned_values_months bound sets Hb)). }
    destruct (if b then _ else _) as [r1|e]; cbn [bind] in H; [|discriminate].
    destruct (update_rows bound sets w t) as [rest|e]; cbn [bind] in H;
      [|discriminate].
    injection H as <-. constructor; [now apply Hr1 | now apply IH].
Qed.

Lemma zero_on_months : on_months Sub.zero.
Proof. unfold on_months, first_of_month. cbn. lia. Qed.

(** A statement whose date arguments are first days of months leaves a table
    of such dates one. *)
Lemma exec_keeps_months s bound t rows t' :
  Forall month_value bound -> Forall on_months t ->
  exec s bound t = Ok (rows, t') -> Forall on_months t'.
Proof.
  intros Hb Ht H. destruct s as [cols vals|p w o|sets w|w]; cbn [exec] in H.
  - unfold exec_insert in H.
    destruct (store_columns _ Sub.zero) as [r|e] eqn:Hst; cbn [bind] in H;
      [|discriminate].
    unfold check_row in H. destruct (0 <? Sub.Price r); cbn [bind] in H;
      [|discriminate].
    destruct (has_id (Sub.ID r) t); [discriminate|]. injection H as _ <-.
    apply Forall_app. split; [exact Ht|]. constructor; [|constructor].
    apply (store_columns_months _ Sub.zero r
             (inserted_values_months bound cols vals Hb) zero_on_months Hst).
  - destruct (filter_rows bound w t); cbn [bind] in H; [|discriminate].
    now injection H as _ <-.
  - unfold exec_update in H.
    destruct (update_rows bound sets w t) as [t1|e] eqn:Hup; cbn [bind] in H;
      [|discriminate].
    destruct (_ && _); [discriminate|]. injection H as _ <-.
    now apply (update_rows_months bound sets w t).
  - destruct (delete_rows bound w t) as [t1|e] eqn:Hd; cbn [bind] in H;
      [|discriminate].
    injection H as _ <-. apply Forall_forall. intros r Hin.
    rewrite Forall_forall in Ht. apply Ht.
    now apply (delete_rows_In bound w t t1).
Qed.

Lemma submit_keeps_months q args db :
  Forall month_argument args -> Forall on_months (table db) ->
  Forall on_months (table (snd (submit q args db))).
Proof.
  intros Ha Ht. unfold submit. destruct (online db); [|exact Ht].
  destruct (run q args (table db)) as [[rows t']|e] eqn:Hr; [|exact Ht].
  cbn [snd table]. unfold run in Hr.
  destruct (prepare q) as [[s tys]|e]; cbn [bind] in Hr; [|discriminate].
  destruct (bind_args tys args) as [bound|e] eqn:Hb; cbn [bind] in Hr;
    [|discriminate].
  apply (exec_keeps_months s bound (table db) rows);
    [now apply (bind_args_months tys args) | exact Ht | exact Hr].
Qed.

Lemma ExecContext_keeps_months q args db :
  Forall month_argument args -> Forall on_months (table db) ->
  Forall on_months (table (snd (ExecContext q args db))).
Proof.
  intros Ha Ht. unfold ExecContext.
  pose proof (submit_keeps_months q args db Ha Ht) as H.
  destruct (submit q args db) as [[rows|e] db']; exact H.
Qed.

Lemma QueryContext_keeps_months q args db :
  Forall month_argument args -> Forall on_months (table db) ->
  Forall on_months (table (snd (QueryContext q args db))).
Proof.
  intros Ha Ht. unfold QueryContext.
  pose proof (submit_keeps_months q args db Ha Ht) as H.
  destruct (submit q args db) as [[rows|e] db']; exact H.
Qed.

End Months.

(** The arguments of a statement of the repository: dates come from
    [time.Parse] or are a month after such a date. *)
Ltac month_arguments :=
  unfold Repository.append; cbn [app];
  repeat (apply Forall_cons;
          [ cbn [Further.month_argument Repository.nullable_date];
            first [ exact I
                  | assumption
                  | eauto using Parse_first_of_month, AddMonths_first_of_month ]
          | ]);
  apply Forall_nil.

Section MonthsOfTheService.
Import GoTime Further.

Lemma Create_keeps_months sub db :
  on_months sub -> Forall on_months (table db) ->
  Forall on_months (table (snd (Repository.Create sub db))).
Proof.
  intros [Hs He] Ht. unfold Repository.Create.
  match goal with |- context [ExecContext ?q ?a ?d] =>
    pose proof (ExecContext_keeps_months q a d) as H;
    destruct (ExecContext q a d) as [err db'] end.
  apply H; [|exact Ht].
  destruct (Sub.EndDate sub); month_arguments.
Qed.

Lemma GetByID_keeps_months id db :
  Forall on_months (table db) ->
  Forall on_months (table (snd (Repository.GetByID id db))).
Proof.
  intro Ht. unfold Repository.GetByID, QueryRowContext.
  match goal with |- context [submit ?q ?a ?d] =>
    pose proof (submit_keeps_months q a d) as H;
    destruct (submit q a d) as [row db'] end.
  destruct (Row_Scan_subscription row Sub.zero) as [sub err].
  destruct (is_ErrNoRows err); (apply H; [month_arguments | exact Ht]).
Qed.

Lemma Update_keeps_months now id req db :
  Forall on_months (table db) ->
  Forall on_months (table (snd (Repository.Update now id req db))).
Proof.
  intro Ht. unfold Repository.Update, time_Parse.
  destruct (UpdateReq.ServiceName req), (UpdateReq.Price req);
    cbn beta iota zeta.
  all: destruct (UpdateReq.StartDate req) as [sd|];
    [destruct (Parse sd) as [d|] eqn:Hd; [|exact Ht] |].
  all: destruct (UpdateReq.EndDate req) as [ed|];
    [destruct (String.eqb ed "");
     [|destruct (Parse ed) as [d'|] eqn:Hd'; [|exact Ht]] |].
  all: cbn beta iota zeta;
    match goal with |- context [ExecContext ?q ?a ?d] =>
      pose proof (ExecContext_keeps_months q a d) as H;
      destruct (ExecContext q a d) as [err db'] end;
    (apply H; [month_arguments | exact Ht]).
Qed.

Lemma Delete_keeps_months id db :
  Forall on_months (table db) ->
  Forall on_months (table (snd (Repository.Delete id db))).
Proof.
  intro Ht. unfold Repository.Delete.
  match goal with |- context [ExecContext ?q ?a ?d] =>
    pose proof (ExecContext_keeps_months q a d) as H;
    destruct (ExecContext q a d) as [err db'] end.
  apply H; [month_arguments | exact Ht].
Qed.

Lemma GetSubscription_keeps_months id db :
  Forall on_months (table db) ->
  Forall on_months (table (snd (Service.GetSubscription id db))).
Proof.
  intro Ht. unfold Service.GetSubscription.
  pose proof (GetByID_keeps_months id db Ht) as H.
  destruct (Repository.GetByID id db) as [[sub [e|]] db']; [exact H|].
  destruct sub; exact H.
Qed.

Lemma serve_keeps_months db rq :
  Forall on_months (table db) -> Forall on_months (table (Spec.serve db rq)).
Proof.
  intro Ht. destruct rq as [newID now now' req|id|now id req|id|f|f];
    cbn [Spec.serve].
  - unfold Service.CreateSubscription, time_Parse.
    destruct (Parse (CreateReq.StartDate req)) as [d|] eqn:Hd; [|exact Ht].
    destruct (CreateReq.EndDate req) as [s|];
      [destruct (Parse s) as [d'|] eqn:Hd'; [|exact Ht] |].
    all: match goal with |- context [Repository.Create ?s ?d] =>
        pose proof (Create_keeps_months s d) as H;
        destruct (Repository.Create s d) as [[e|] db'] end;
      (apply H; [|exact Ht]); split; cbn [Sub.StartDate Sub.EndDate];
      eauto using Parse_first_of_month.
  - now apply GetSubscription_keeps_months.
  - unfold Service.UpdateSubscription.
    pose proof (GetSubscription_keeps_months id db Ht) as H.
    destruct (Service.GetSubscription id db) as [[sub [e|]] db']; [exact H|].
    now apply Update_keeps_months.
  - unfold Service.DeleteSubscription.
    pose proof (GetSubscription_keeps_months id db Ht) as H.
    destruct (Service.GetSubscription id db) as [[sub [e|]] db']; [exact H|].
    now apply Delete_keeps_months.
  - unfold Service.ListSubscriptions, Repository.List.
    destruct (Filter.UserID f), (Filter.ServiceName f); cbn beta iota zeta.
    all: match goal with |- context [QueryContext ?q ?a ?d] =>
        pose proof (QueryContext_keeps_months q a d) as H;
        destruct (QueryContext q a d) as [[rows [e|]] db'] end;
      (apply H; [month_arguments | exact Ht]).
  - unfold Service.GetTotalCost, Repository.GetTotalCost, time_Parse.
    destruct (Filter.UserID f), (Filter.ServiceName f); cbn beta iota zeta.
    all: destruct (Filter.StartDate f) as [sd|];
      [destruct (Parse sd) as [d|] eqn:Hd; [|exact Ht] |].
    all: destruct (Filter.EndDate f) as [ed|];
      [destruct (Parse ed) as [d'|] eqn:Hd'; [|exact Ht] |].
    all: cbn beta iota zeta; unfold QueryRowContext;
      match goal with |- context [submit ?q ?a ?d] =>
        pose proof (submit_keeps_months q a d) as H;
        destruct (submit q a d) as [row db'] end;
      destruct (Row_Scan_int row 0);
      (apply H; [month_arguments | exact Ht]).
Qed.

End MonthsOfTheService.

(** X7.  Stored dates are months.  In every store that requests to the
    service lead to from an empty table, the start date of every record, and
    its end date when it has one, is the first day of a month: every date the
    code sends to the database was read by [time.Parse] with the layout
    [01-2006], which accepts seven characters and yields day 1 of a month
    1..12 of a year 0..9999. *)
Theorem stored_dates_are_months (rqs : list Spec.Request) (o : bool) :
  Forall Further.on_months (table (Spec.serve_all rqs (mkDB [] o [])))
  /\ (forall s d,
        GoTime.Parse s = Some d ->
        Further.first_of_month d /\ 0 <= GoTime.year d <= 9999
        /\ String.length s = 7%nat).
Proof.
  split; [|apply Parse_month].
  unfold Spec.serve_all.
  assert (H : forall db,
            Forall Further.on_months (table db) ->
            Forall Further.on_months (table (fold_left Spec.serve rqs db))).
  { induction rqs as [|rq rqs IH]; intros db Hdb; cbn [fold_left];
      [exact Hdb|].
    apply IH. now apply serve_keeps_months. }
  apply H. constructor.
Qed.

Section FixedFields.
Import Further.

Lemma set_column_keeps_fixed c v r r' :
  negb (column_eqb c c_id) && negb (column_eqb c c_user_id)
  && negb (column_eqb c c_created_at) = true ->
  set_column c v r = Ok r' -> fixed_fields r' = fixed_fields r.
Proof.
  intros Hc H. destruct r as [id name price user start end_ created updated].
  destruct c; try discriminate Hc; destruct v; cbn in H; try discriminate H;
    try (injection H as <-; reflexivity).
  destruct (varchar255 s); cbn in H; [|discriminate]. now injection H as <-.
Qed.

Lemma store_columns_keeps_fixed bound sets r r' :
  keeps_fixed_fields sets = true ->
  store_columns (map (assigned_value bound) sets) r = Ok r' ->
  fixed_fields r' = fixed_fields r.
Proof.
  unfold keeps_fixed_fields. revert r.
  induction sets as [|a sets IH]; intros r Hs H; cbn [map store_columns] in H.
  - now injection H as <-.
  - cbn [forallb] in Hs. apply andb_prop in Hs. destruct Hs as [Ha Hs].
    destruct (assigned_value bound a) as [c v] eqn:Hcv.
    assert (Hc : c = assigned a) by (destruct a; now injection Hcv as <- _).
    destruct (set_column c v r) as [r1|e] eqn:Hset; cbn [bind] in H;
      [|discriminate].
    rewrite (IH r1 Hs H). apply (set_column_keeps_fixed c v); [|exact Hset].
    now rewrite Hc.
Qed.

(** An [UPDATE] that assigns none of the three columns leaves them, and the
    number and the order of the rows, as they were. *)
Lemma update_rows_keeps_fixed bound sets w t t' :
  keeps_fixed_fields sets = true ->
  update_rows bound sets w t = Ok t' ->
  map fixed_fields t' = map fixed_fields t.
Proof.
  intro Hs. revert t'. induction t as [|r t IH]; intros t' H;
    cbn [update_rows] in H.
  - now injection H as <-.
  - destruct (selected bound w r) as [b|e]; cbn [bind] in H; [|discriminate].
    assert (Hr : forall r1,
              (if b then bind (store_columns (map (assigned_value bound) sets) r)
                              (fun r1 => check_row r1)
               else Ok r) = Ok r1 -> fixed_fields r1 = fixed_fields r).
    { intros r1 H1. destruct b; [|now injection H1 as <-].
      destruct (store_columns _ r) as [r2|e] eqn:Hst; cbn [bind] in H1;
        [|discriminate].
      unfold check_row in H1. destruct (0 <? Sub.Price r2); [|discriminate].
      injection H1 as <-. now apply (store_columns_keeps_fixed bound sets). }
    destruct (if b then _ else _) as [r1|e]; cbn [bind] in H; [|discriminate].
    destruct (update_rows bound sets w t) as [rest|e]; cbn [bind] in H;
      [|discriminate].
    injection H as <-. cbn [map]. now rewrite (Hr r1 eq_refl), (IH rest eq_refl).
Qed.

Lemma submit_update_keeps_fixed q args db sets w tys :
  prepare q = Ok (Update sets w, tys) -> keeps_fixed_fields sets = true ->
  map fixed_fields (table (snd (submit q args db)))
  = map fixed_fields (table db).
Proof.
  intros Hq Hs. unfold submit. destruct (online db); [|reflexivity].
  rewrite (run_prepared q _ _ args (table db) Hq).
  destruct (bind_args tys args) as [bound|e]; [|reflexivity].
  cbn [bind exec]. unfold exec_update.
  destruct (update_rows bound sets w (table db)) as [t1|e] eqn:Hup;
    [|reflexivity].
  cbn [bind]. destruct (_ && _); [reflexivity|]. cbn [snd table].
  now apply (update_rows_keeps_fixed bound sets w).
Qed.

Lemma ExecContext_table q args db :
  table (snd (ExecContext q args db)) = table (snd (submit q args db)).
Proof. unfold ExecContext. now destruct (submit q args db) as [[rows|e] db']. Qed.

Lemma Update_keeps_fixed now id req db :
  map fixed_fields (table (snd (Repository.Update now id req db)))
  = map fixed_fields (table db).
Proof.
  unfold Repository.Update, time_Parse.
  destruct (UpdateReq.ServiceName req), (UpdateReq.Price req);
    cbn beta iota zeta.
  all: destruct (UpdateReq.StartDate req) as [sd|];
    [destruct (GoTime.Parse sd) as [d|]; [|reflexivity] |].
  all: destruct (UpdateReq.EndDate req) as [ed|];
    [destruct (String.eqb ed "");
     [|destruct (GoTime.Parse ed) as [d'|]; [|reflexivity]] |].
  all: cbn beta iota zeta;
    match goal with |- context [ExecContext ?q ?a ?d] =>
      let r := eval vm_compute in (prepare q) in
      match r with
      | Ok (Update ?s ?w, ?tys) =>
          pose proof (submit_update_keeps_fixed q a d s w tys
                        ltac:(vm_compute; reflexivity) eq_refl) as H;
          rewrite <- (ExecContext_table q a d) in H;
          destruct (ExecContext q a d) as [err db']
      end
    end;
    exact H.
Qed.

End FixedFields.

(** X8.  What an update never touches.  Whatever the request and whatever the
    state of the store, and whether the update succeeds or fails,
    [updateSubscription] leaves the identifier, the user and the creation
    time of every record as they were, and neither adds, removes nor reorders
    records: the statement it builds assigns none of these columns. *)
Theorem update_keeps_identity (now : GoTime.Timestamp) (id : Uuid)
    (req : UpdateSubscriptionRequest) (db : DB) :
  map Further.fixed_fields (table (snd (Repository.Update now id req db)))
  = map Further.fixed_fields (table db)
  /\ map Further.fixed_fields
       (table (snd (Service.UpdateSubscription now id req db)))
     = map Further.fixed_fields (table db)
  /\ List.length (table (snd (Service.UpdateSubscription now id req db)))
     = List.length (table db).
Proof.
  assert (H : map Further.fixed_fields
                (table (snd (Service.UpdateSubscription now id req db)))
              = map Further.fixed_fields (table db)).
  { unfold Service.UpdateSubscription.
    pose proof (GetSubscription_keeps_table id db) as Ht.
    destruct (Service.GetSubscription id db) as [[sub [e|]] db1];
      cbn [snd] in *; [now rewrite Ht|].
    now rewrite Update_keeps_fixed, Ht. }
  split; [apply Update_keeps_fixed|]. split; [exact H|].
  rewrite <- (length_map Further.fixed_fields), H. apply length_map.
Qed.

Section PriceOnUpdate.

(** An [UPDATE] by identifier fails when the rows with the identifier cannot
    be rewritten, and there is such a row. *)
Lemma update_rows_fails bound sets k id t r :
  param bound k = SUuid id -> In r t -> Sub.ID r = id ->
  (forall r0, In r0 t -> Sub.ID r0 = id ->
     exists e, bind (store_columns (map (assigned_value bound) sets) r0)
                    (fun r1 => check_row r1) = Fail e) ->
  exists e, update_rows bound sets (CCmp c_id OpEq k) t = Fail e.
Proof.
  intros Hk Hin Hid. induction t as [|r0 t IH]; intro Hf; [destruct Hin|].
  cbn [update_rows]. rewrite (selected_by_id bound k id r0 Hk). cbn [bind].
  destruct (N.eqb (Sub.ID r0) id) eqn:E.
  - apply N.eqb_eq in E. destruct (Hf r0 (or_introl eq_refl) E) as [e ->].
    now exists e.
  - destruct Hin as [->|Hin]; [apply N.eqb_neq in E; contradiction|].
    destruct IH as [e He]; [exact Hin | intros; apply Hf; auto; now right |].
    cbn [bind]. rewrite He. now exists e.
Qed.

Lemma coerce_VInt n :
  coerce TInt4 (VInt n)
  = if (int4_min <=? n) && (n <=? int4_max) then Ok (SInt n)
    else Fail numeric_value_out_of_range.
Proof. reflexivity. Qed.

Lemma Update_rejects_price now id req t l r p :
  In r t -> Sub.ID r = id -> UpdateReq.Price req = Some p -> p <= 0 ->
  exists e entries,
    Repository.Update now id req (mkDB t true l)
    = (Some e, mkDB t true (l ++ entries))
    /\ ((exists d, Cause e = Driver d)
        \/ (exists v, Cause e = ParseError v) /\ Spec.has_bad_date req = true).
Proof.
  intros Hin Hid Hprice Hp. destruct req as [name price sd ed].
  cbn [UpdateReq.Price] in Hprice. subst price.
  assert (Hp0 : (0 <? p) = false) by (apply Z.ltb_ge; lia).
  unfold Spec.has_bad_date, Spec.is_month.
  unfold Repository.Update, time_Parse.
  cbn [UpdateReq.ServiceName UpdateReq.Price UpdateReq.StartDate UpdateReq.EndDate].
  destruct name as [name|]; cbn beta iota zeta.
  all: destruct sd as [sd|];
    [ destruct (GoTime.Parse sd) as [d|] eqn:Hd;
      [| exists (WithMessage (ParseError sd) "invalid start date format"), [];
         rewrite app_nil_r; split; [reflexivity|]; right; split;
         [now eexists | reflexivity] ]
    | ].
  all: destruct ed as [ed|];
    [ destruct (String.eqb ed "") eqn:Heq;
      [| destruct (GoTime.Parse ed) as [d'|] eqn:Hd';
         [| exists (WithMessage (ParseError ed) "invalid end date format"), [];
            rewrite app_nil_r; split; [reflexivity|]; right; split;
            [now eexists | reflexivity] ] ]
    | ].
  all: cbn -[run]; unfold ExecContext, submit; cbn [online table log];
    prepared;
    cbn [bind_args List.length Nat.eqb combine map_result fst snd];
    rewrite coerce_VInt;
    (destruct ((int4_min <=? p) && (p <=? int4_max));
     [| cbn [coerce bind]; do 2 eexists; split; [reflexivity|]; left;
        now eexists ]);
    cbn [coerce bind exec]; unfold exec_update;
    match goal with |- context [update_rows ?b ?s (CCmp c_id OpEq ?k) _] =>
      destruct (update_rows_fails b s k id t r eq_refl Hin Hid) as [e He];
      [ intros [rid rname rprice ruser rstart rend rc ru] _ _;
        cbn [map assigned_value param nth Nat.sub store_columns set_column bind];
        try (destruct (varchar255 name) as [name'|e1];
             cbn [bind store_columns set_column]; [|now eexists]);
        unfold check_row; cbn [Sub.Price]; rewrite Hp0; now eexists
      | rewrite He ]
    end;
    cbn [bind]; do 2 eexists; split; [reflexivity|]; left; now eexists.
Qed.

End PriceOnUpdate.

(** X9.  The price constraint on update.  An update of an existing record
    that supplies a price of 0 or less fails, whatever else it supplies, and
    no record changes: the answer is 500.  The error is not the not-found
    error, and it is an error of the persistence layer unless a supplied date
    is not a month (which is found first). *)
Theorem update_rejects_a_price_not_positive (now : GoTime.Timestamp)
    (id : Uuid) (req : UpdateSubscriptionRequest) (db : DB) (r : Subscription)
    (p : Z) :
  online db = true -> In r (table db) -> Sub.ID r = id ->
  UpdateReq.Price req = Some p -> p <= 0 ->
  exists e db',
    Service.UpdateSubscription now id req db = (Some e, db')
    /\ table db' = table db
    /\ Spec.kind e <> Spec.NotFoundError
    /\ (Spec.has_bad_date req = false -> Spec.kind e = Spec.PersistenceError)
    /\ Handlers.status
         (fst (Handlers.UpdateSubscription now (id, None) (req, None) db))
       = 500.
Proof.
  intros Ho Hin Hid Hprice Hp. destruct db as [t o l].
  cbn [online table] in *. subst o.
  destruct (GetSubscription_present id r t l Hin Hid) as [q [r' Hg]].
  destruct (Update_rejects_price now id req t (l ++ [(q, [VUuid id])]) r p
              Hin Hid Hprice Hp) as [e [entries [Hu Hcause]]].
  assert (Hs : Service.UpdateSubscription now id req (mkDB t true l)
               = (Some e, mkDB t true ((l ++ [(q, [VUuid id])]) ++ entries))).
  { unfold Service.UpdateSubscription. now rewrite Hg, Hu. }
  assert (Hk : Spec.kind e <> Spec.NotFoundError
               /\ (Spec.has_bad_date req = false ->
                   Spec.kind e = Spec.PersistenceError)).
  { unfold Spec.kind. destruct Hcause as [[d Hd]|[[v Hv] Hb]].
    - rewrite Hd. split; [discriminate | reflexivity].
    - rewrite Hv, Hb. split; discriminate. }
  exists e. eexists. split; [exact Hs|]. split; [reflexivity|].
  split; [apply Hk|]. split; [apply Hk|].
  unfold Handlers.UpdateSubscription. rewrite Hs. cbn [fst].
  unfold Handlers.service_failure.
  destruct (Handlers.is_not_found e) eqn:Hn; [|reflexivity].
  apply is_not_found_Cause in Hn. destruct Hk as [Hk _].
  unfold Spec.kind in Hk. rewrite Hn in Hk. now destruct Hk.
Qed.

Lemma update_rejects_a_price_not_positive_witness :
  online Sample.store = true
  /\ In Sample.february (table Sample.store)
  /\ Sub.ID Sample.february = 1%N
  /\ UpdateReq.Price Cases.make_free = Some 0
  /\ 0 <= 0
  /\ exists e db',
       Service.UpdateSubscription 400 1%N Cases.make_free Sample.store
       = (Some e, db')
       /\ table db' = table Sample.store
       /\ Spec.kind e = Spec.PersistenceError
       /\ Handlers.status
            (fst (Handlers.UpdateSubscription 400 (1%N, None)
                    (Cases.make_free, None) Sample.store)) = 500.
Proof.
  split; [reflexivity|]. split; [now left|]. split; [reflexivity|].
  split; [reflexivity|]. split; [lia|].
  destruct (update_rejects_a_price_not_positive 400 1%N Cases.make_free
              Sample.store Sample.february 0 eq_refl (or_introl eq_refl)
              eq_refl eq_refl (Z.le_refl 0))
    as [e [db' [Hs [Ht [_ [Hk Hh]]]]]].
  exists e, db'. split; [exact Hs|]. split; [exact Ht|].
  split; [exact (Hk eq_refl) | exact Hh].
Defined.

(* ================================================================== *)
(** * Further properties: listing and summing                         *)
(* ================================================================== *)

Section Listing.
Import Further.

Lemma sum_prices_perm a b : Permutation a b -> sum_prices a = sum_prices b.
Proof.
  unfold sum_prices.
  induction 1 as [|r a b _ IH|r r' a|a b c _ IH1 _ IH2]; cbn [fold_right];
    lia.
Qed.

Lemma filter_perm {A} (p : A -> bool) (a b : list A) :
  Permutation a b -> Permutation (filter p a) (filter p b).
Proof.
  induction 1 as [|x a b _ IH|x y a|a b c _ IH1 _ IH2]; cbn [filter].
  - constructor.
  - destruct (p x); [now constructor | exact IH].
  - destruct (p x), (p y); try reflexivity. apply perm_swap.
  - now transitivity (filter p b).
Qed.

Lemma filter_filter {A} (p q : A -> bool) (l : list A) :
  filter p (filter q l) = filter (fun x => q x && p x) l.
Proof.
  induction l as [|x l IH]; cbn [filter]; [reflexivity|].
  destruct (q x); cbn [filter andb]; [|exact IH].
  destruct (p x); now rewrite IH.
Qed.

Lemma filter_all {A} (p : A -> bool) (l : list A) :
  (forall x, p x = true) -> filter p l = l.
Proof.
  intro H. induction l as [|x l IH]; cbn [filter]; [reflexivity|].
  now rewrite H, IH.
Qed.

Lemma matches_any_first ps :
  (forall s, Like.matches ps s = true) ->
  forall s, Like.matches (Like.PAnyString :: ps) s = true.
Proof.
  intros H s. destruct s as [|c s].
  - change (Like.matches (Like.PAnyString :: ps) "")
      with (Like.matches ps "" || false).
    now rewrite H.
  - change (Like.matches (Like.PAnyString :: ps) (String c s))
      with (Like.matches ps (String c s)
            || Like.matches (Like.PAnyString :: ps) s).
    now rewrite H.
Qed.

Lemma matches_three_any s :
  Like.matches [Like.PAnyString; Like.PAnyString; Like.PAnyString] s = true.
Proof. do 2 apply matches_any_first. apply matches_any_all. Qed.

(** The pattern made of [%] alone between the two added [%] matches every
    text. *)
Lemma ilike_percent s : Like.ilike s ("%" ++ "%" ++ "%") = Some true.
Proof.
  unfold Like.ilike, Like.like. cbn [String.append Like.lower].
  change (Like.compile _) with
    (Some [Like.PAnyString; Like.PAnyString; Like.PAnyString]).
  cbn [option_map]. now rewrite matches_three_any.
Qed.

Lemma listed_no_filter t : filter (listed Handlers.no_filter) t = t.
Proof. induction t as [|r t IH]; cbn; [reflexivity | now rewrite IH]. Qed.

End Listing.

(** X10.  What [list] matches, for every filter.  When the database is
    reached, [list] never fails: it submits one query and returns, most
    recently created first, exactly the records whose user is the filter's
    (when it has one) and whose service name matches, without regard to case,
    the [LIKE] pattern made of the filter's text between two [%].  So [_] and
    [%] in the text are wildcards: with the text [%] every record of the user
    is listed.  No record changes. *)
Theorem list_matches_by_pattern (f : SubscriptionFilter) (db : DB) :
  online db = true ->
  exists l,
    fst (Service.ListSubscriptions f db) = (l, None)
    /\ Permutation l (filter (Further.listed f) (table db))
    /\ Spec.newest_first l
    /\ (forall r, In r l <->
                  In r (table db) /\ Spec.matches_user f r = true
                  /\ Spec.matches_pattern f r = true)
    /\ (Filter.ServiceName f = Some "%" ->
        forall r, In r l <-> In r (table db) /\ Spec.matches_user f r = true)
    /\ table (snd (Service.ListSubscriptions f db)) = table db
    /\ List.length (log (snd (Service.ListSubscriptions f db)))
       = S (List.length (log db)).
Proof.
  intro Ho. destruct db as [t o l]. cbn [online table log] in *. subst o.
  destruct (List_selects f t l) as [entry H].
  unfold Service.ListSubscriptions. rewrite H. cbn [fst snd table log].
  eexists. split; [reflexivity|].
  assert (Hin : forall r,
            In r (sort_rows (Some (c_created_at, true))
                    (filter (fun r => Spec.matches_user f r
                                      && Spec.matches_pattern f r) t))
            <-> In r t /\ Spec.matches_user f r = true
                /\ Spec.matches_pattern f r = true).
  { intro r. split.
    - intro Hr. apply (Permutation_in _ (sort_rows_perm _ _)) in Hr.
      apply filter_In in Hr. destruct Hr as [Hr Hb].
      apply andb_prop in Hb. tauto.
    - intros [Hr [Hu Hp]].
      apply (Permutation_in _ (Permutation_sym (sort_rows_perm _ _))).
      apply filter_In. split; [exact Hr|]. now rewrite Hu, Hp. }
  split; [apply sort_rows_perm|]. split; [apply sort_rows_newest_first|].
  split; [exact Hin|]. split; [|split; [reflexivity|]].
  - intros Hname r. rewrite Hin. unfold Spec.matches_pattern. rewrite Hname.
    rewrite ilike_percent. tauto.
  - rewrite length_app. cbn. lia.
Qed.

Lemma list_matches_by_pattern_witness :
  online Sample.store = true
  /\ exists l,
       fst (Service.ListSubscriptions Sample.wildcard Sample.store) = (l, None)
       /\ Permutation l
            (filter (Further.listed Sample.wildcard) (table Sample.store))
       /\ Spec.newest_first l.
Proof.
  split; [reflexivity|].
  destruct (list_matches_by_pattern Sample.wildcard Sample.store eq_refl)
    as [l [Hl [Hp [Hn _]]]].
  exists l. split; [exact Hl|]. split; [exact Hp | exact Hn].
Defined.

(** X11.  The total cost is the sum over the list.  When the database is
    reached and the dates of the filter are months, [getTotalCost] returns
    the sum of the prices of those records that [list] returns for the same
    filter (which [list] reads for the user and the service name only) and
    that are in the period of the filter; without dates in the filter, the sum
    of the prices of all the listed records.  Neither call fails. *)
Theorem total_cost_is_the_sum_of_the_list (f : SubscriptionFilter) (db : DB) :
  online db = true ->
  Spec.is_month (Filter.StartDate f) = true ->
  Spec.is_month (Filter.EndDate f) = true ->
  exists l,
    fst (Service.ListSubscriptions f db) = (l, None)
    /\ fst (Service.GetTotalCost f db)
       = (sum_prices (filter (Spec.in_period f) l), None)
    /\ (Filter.StartDate f = None -> Filter.EndDate f = None ->
        fst (Service.GetTotalCost f db) = (sum_prices l, None)).
Proof.
  intros Ho Hs He. destruct db as [t o l]. cbn [online] in Ho. subst o.
  destruct (List_selects f t l) as [entry H].
  destruct (GetTotalCost_selects f t l Hs He) as [entry' H'].
  unfold Service.ListSubscriptions, Service.GetTotalCost. rewrite H, H'.
  eexists. split; [reflexivity|]. cbn [fst].
  assert (Hsum : sum_prices
                   (filter (fun r => Spec.matches_user f r
                                     && Spec.matches_pattern f r
                                     && Spec.in_period f r) t)
                 = sum_prices
                     (filter (Spec.in_period f)
                        (sort_rows (Some (c_created_at, true))
                           (filter (fun r => Spec.matches_user f r
                                             && Spec.matches_pattern f r) t)))).
  { rewrite (sum_prices_perm _ _
               (filter_perm (Spec.in_period f) _ _ (sort_rows_perm _ _))).
    now rewrite filter_filter. }
  split; [now rewrite Hsum|].
  intros Hs0 He0. rewrite Hsum. do 2 f_equal.
  apply filter_all. intro r. unfold Spec.in_period, Spec.active_in_period.
  now rewrite Hs0, He0.
Qed.

Lemma total_cost_is_the_sum_of_the_list_witness :
  online Sample.store = true
  /\ Spec.is_month (Filter.StartDate Sample.spring) = true
  /\ Spec.is_month (Filter.EndDate Sample.spring) = true
  /\ exists l,
       fst (Service.ListSubscriptions Sample.spring Sample.store) = (l, None)
       /\ fst (Service.GetTotalCost Sample.spring Sample.store)
          = (sum_prices (filter (Spec.in_period Sample.spring) l), None).
Proof.
  split; [reflexivity|]. split; [reflexivity|]. split; [reflexivity|].
  destruct (total_cost_is_the_sum_of_the_list Sample.spring Sample.store
              eq_refl eq_refl eq_refl) as [l [Hl [Ht _]]].
  exists l. split; [exact Hl | exact Ht].
Defined.

Section Reading.
Import Further.

Lemma QueryContext_table q args db :
  table (snd (QueryContext q args db)) = table (snd (submit q args db)).
Proof. unfold QueryContext. now destruct (submit q args db) as [[rows|e] db']. Qed.

Lemma List_keeps_table f db : table (snd (Repository.List f db)) = table db.
Proof.
  unfold Repository.List.
  destruct (Filter.UserID f), (Filter.ServiceName f); cbn beta iota zeta.
  all: match goal with |- context [QueryContext ?q ?a ?d] =>
      assert (H : table (snd (QueryContext q a d)) = table d)
        by (rewrite QueryContext_table; apply query_keeps_table;
            vm_compute; reflexivity);
      destruct (QueryContext q a d) as [[rows [e|]] db'] end;
    exact H.
Qed.

Lemma GetTotalCost_keeps_table f db :
  table (snd (Repository.GetTotalCost f db)) = table db.
Proof.
  unfold Repository.GetTotalCost.
  destruct (Filter.UserID f), (Filter.ServiceName f); cbn beta iota zeta.
  all: destruct (Filter.StartDate f) as [sd|];
    [destruct (time_Parse sd) as [d [e|]]; [reflexivity|] |].
  all: destruct (Filter.EndDate f) as [ed|];
    [destruct (time_Parse ed) as [d' [e'|]]; [reflexivity|] |].
  all: cbn beta iota zeta; unfold QueryRowContext;
    match goal with |- context [submit ?q ?a ?d] =>
      assert (H : table (snd (submit q a d)) = table d)
        by (apply query_keeps_table; vm_compute; reflexivity);
      destruct (submit q a d) as [row db'] end;
    destruct (Row_Scan_int row 0); exact H.
Qed.

(** A date of the filter that is not a month ends [GetTotalCost] before any
    query is sent. *)
Lemma GetTotalCost_bad_date f db :
  Spec.is_month (Filter.StartDate f) && Spec.is_month (Filter.EndDate f) = false ->
  exists e v,
    Repository.GetTotalCost f db = ((0, Some e), db) /\ Cause e = ParseError v.
Proof.
  intro Hbad. destruct f as [u name sd ed].
  unfold Spec.is_month in Hbad. cbn [Filter.StartDate Filter.EndDate] in Hbad.
  unfold Repository.GetTotalCost.
  cbn [Filter.UserID Filter.ServiceName Filter.StartDate Filter.EndDate].
  destruct u as [u|], name as [name|]; cbn beta iota zeta.
  all: destruct sd as [sd|];
    [ unfold time_Parse at 1; destruct (GoTime.Parse sd) as [d|] eqn:Hd;
      [| cbn; do 2 eexists; split; reflexivity ]
    | ].
  all: cbn [andb] in Hbad.
  all: destruct ed as [ed|]; [|discriminate].
  all: cbn beta iota zeta; unfold time_Parse;
    destruct (GoTime.Parse ed) as [de|]; [discriminate|].
  all: cbn; do 2 eexists; split; reflexivity.
Qed.

(** The two listing handlers call the service with the filter of the query
    parameters. *)
Lemma ListSubscriptions_calls user_id parsed service_name db :
  user_id = "" \/ snd parsed = None ->
  Handlers.ListSubscriptions user_id parsed service_name db
  = let '((subscriptions, err), db') :=
      Service.ListSubscriptions
        (filter_of_query user_id (fst parsed) service_name "" "") db in
    match err with
    | Some e =>
        (Handlers.JSON Handlers.StatusInternalServerError
           (Handlers.H_error (Error e)), db')
    | None =>
        (Handlers.JSON Handlers.StatusOK (Handlers.J_subscriptions subscriptions),
         db')
    end.
Proof.
  intro H. destruct parsed as [u err]. cbn [fst snd] in *.
  unfold Handlers.ListSubscriptions, filter_of_query, optional.
  destruct (String.eqb user_id "") eqn:Hu.
  - now destruct (String.eqb service_name "").
  - destruct H as [-> | ->]; [discriminate|].
    now destruct (String.eqb service_name "").
Qed.

Lemma GetTotalCost_calls user_id parsed service_name start_date end_date db :
  user_id = "" \/ snd parsed = None ->
  Handlers.GetTotalCost user_id parsed service_name start_date end_date db
  = let '((totalCost, err), db') :=
      Service.GetTotalCost
        (filter_of_query user_id (fst parsed) service_name start_date end_date)
        db in
    match err with
    | Some e =>
        (Handlers.JSON Handlers.StatusInternalServerError
           (Handlers.H_error (Error e)), db')
    | None =>
        (Handlers.JSON Handlers.StatusOK (Handlers.J_totalCost totalCost), db')
    end.
Proof.
  intro H. destruct parsed as [u err]. cbn [fst snd] in *.
  unfold Handlers.GetTotalCost, filter_of_query, optional.
  destruct (String.eqb user_id "") eqn:Hu.
  - now destruct (String.eqb service_name ""), (String.eqb start_date ""),
      (String.eqb end_date "").
  - destruct H as [-> | ->]; [discriminate|].
    now destruct (String.eqb service_name ""), (String.eqb start_date ""),
      (String.eqb end_date "").
Qed.

Lemma bad_user_id_List user_id parsed service_name db :
  user_id <> "" -> snd parsed <> None ->
  Handlers.ListSubscriptions user_id parsed service_name db
  = (Handlers.JSON 400 (Handlers.H_error "invalid user id"), db).
Proof.
  intros Hu He. destruct parsed as [u [e|]]; [|now destruct He].
  unfold Handlers.ListSubscriptions.
  apply String.eqb_neq in Hu. now rewrite Hu.
Qed.

Lemma bad_user_id_GetTotalCost user_id parsed service_name start_date end_date db :
  user_id <> "" -> snd parsed <> None ->
  Handlers.GetTotalCost user_id parsed service_name start_date end_date db
  = (Handlers.JSON 400 (Handlers.H_error "invalid user id"), db).
Proof.
  intros Hu He. destruct parsed as [u [e|]]; [|now destruct He].
  unfold Handlers.GetTotalCost.
  apply String.eqb_neq in Hu. now rewrite Hu.
Qed.

Lemma counted_no_filter t : filter (counted Handlers.no_filter) t = t.
Proof. induction t as [|r t IH]; cbn; [reflexivity | now rewrite IH]. Qed.

End Reading.

(** X12.  [GET /subscriptions].  A [user_id] that is given and is not a UUID
    is answered with 400 and nothing is sent to the database.  Otherwise,
    when the database is reached, the answer is 200 with the records that
    match the query parameters, most recently created first; a parameter
    that is absent or empty does not constrain, so without parameters every
    record is listed. *)
Theorem list_handler_answers (user_id : string) (parsed : Uuid * option error)
    (service_name : string) (db : DB) :
  (user_id <> "" -> snd parsed <> None ->
   Handlers.ListSubscriptions user_id parsed service_name db
   = (Handlers.JSON 400 (Handlers.H_error "invalid user id"), db))
  /\ (online db = true -> user_id = "" \/ snd parsed = None ->
      exists l,
        fst (Handlers.ListSubscriptions user_id parsed service_name db)
        = Handlers.JSON 200 (Handlers.J_subscriptions l)
        /\ Permutation l
             (filter (Further.listed
                        (Further.filter_of_query user_id (fst parsed)
                           service_name "" ""))
                     (table db))
        /\ Spec.newest_first l)
  /\ (online db = true ->
      exists l,
        fst (Handlers.ListSubscriptions "" parsed "" db)
        = Handlers.JSON 200 (Handlers.J_subscriptions l)
        /\ Permutation l (table db) /\ Spec.newest_first l).
Proof.
  assert (H : forall user_id service_name,
            online db = true -> user_id = "" \/ snd parsed = None ->
            exists l,
              fst (Handlers.ListSubscriptions user_id parsed service_name db)
              = Handlers.JSON 200 (Handlers.J_subscriptions l)
              /\ Permutation l
                   (filter (Further.listed
                              (Further.filter_of_query user_id (fst parsed)
                                 service_name "" ""))
                           (table db))
              /\ Spec.newest_first l).
  { intros uid svc Ho Hp. rewrite (ListSubscriptions_calls uid parsed svc db Hp).
    destruct db as [t o l]. cbn [online table] in *. subst o.
    destruct (List_selects (Further.filter_of_query uid (fst parsed) svc "" "")
                t l) as [entry Hl].
    unfold Service.ListSubscriptions. rewrite Hl. cbn [fst].
    eexists. split; [reflexivity|].
    split; [apply sort_rows_perm | apply sort_rows_newest_first]. }
  split; [apply bad_user_id_List|]. split; [apply H|].
  intro Ho. destruct (H "" "" Ho (or_introl eq_refl)) as [l [Hl [Hp Hn]]].
  exists l. split; [exact Hl|]. split; [|exact Hn].
  change (Further.filter_of_query "" (fst parsed) "" "" "")
    with Handlers.no_filter in Hp.
  now rewrite listed_no_filter in Hp.
Qed.

Lemma list_handler_answers_witness :
  Handlers.ListSubscriptions "abc" Cases.no_uuid "Music" Sample.store
  = (Handlers.JSON 400 (Handlers.H_error "invalid user id"), Sample.store)
  /\ exists l,
       fst (Handlers.ListSubscriptions "" Cases.no_uuid "a_c" Sample.store)
       = Handlers.JSON 200 (Handlers.J_subscriptions l)
       /\ Permutation l
            (filter (Further.listed
                       (Further.filter_of_query "" (fst Cases.no_uuid) "a_c"
                          "" ""))
                    (table Sample.store))
       /\ Spec.newest_first l.
Proof.
  split.
  - apply (proj1 (list_handler_answers "abc" Cases.no_uuid "Music"
                    Sample.store)); discriminate.
  - apply (proj1 (proj2 (list_handler_answers "" Cases.no_uuid "a_c"
                           Sample.store)));
      [reflexivity | now left].
Defined.

(** X13.  [GET /subscriptions/total-cost].  A [user_id] that is given and is
    not a UUID is answered with 400.  A [start_date] or [end_date] that is
    given and is not a month is answered with 500, and nothing is sent to the
    database.  Otherwise, when the database is reached, the answer is 200
    with the sum of the prices of the records that match the parameters (0
    when none does); without parameters, the sum over all records. *)
Theorem total_cost_handler_answers (user_id : string)
    (parsed : Uuid * option error) (service_name start_date end_date : string)
    (db : DB) :
  (user_id <> "" -> snd parsed <> None ->
   Handlers.GetTotalCost user_id parsed service_name start_date end_date db
   = (Handlers.JSON 400 (Handlers.H_error "invalid user id"), db))
  /\ (user_id = "" \/ snd parsed = None ->
      Spec.is_month (Further.optional start_date)
      && Spec.is_month (Further.optional end_date) = false ->
      Handlers.status
        (fst (Handlers.GetTotalCost user_id parsed service_name start_date
                end_date db)) = 500
      /\ snd (Handlers.GetTotalCost user_id parsed service_name start_date
                end_date db) = db)
  /\ (online db = true -> user_id = "" \/ snd parsed = None ->
      Spec.is_month (Further.optional start_date)
      && Spec.is_month (Further.optional end_date) = true ->
      fst (Handlers.GetTotalCost user_id parsed service_name start_date
             end_date db)
      = Handlers.JSON 200
          (Handlers.J_totalCost
             (sum_prices
                (filter (Further.counted
                           (Further.filter_of_query user_id (fst parsed)
                              service_name start_date end_date))
                        (table db)))))
  /\ (online db = true ->
      fst (Handlers.GetTotalCost "" parsed "" "" "" db)
      = Handlers.JSON 200 (Handlers.J_totalCost (sum_prices (table db)))).
Proof.
  assert (H : forall user_id service_name start_date end_date,
            online db = true -> user_id = "" \/ snd parsed = None ->
            Spec.is_month (Further.optional start_date)
            && Spec.is_month (Further.optional end_date) = true ->
            fst (Handlers.GetTotalCost user_id parsed service_name start_date
                   end_date db)
            = Handlers.JSON 200
                (Handlers.J_totalCost
                   (sum_prices
                      (filter (Further.counted
                                 (Further.filter_of_query user_id (fst parsed)
                                    service_name start_date end_date))
                              (table db))))).
  { intros uid svc sd ed Ho Hp Hm.
    rewrite (GetTotalCost_calls uid parsed svc sd ed db Hp).
    destruct db as [t o l]. cbn [online table] in *. subst o.
    apply andb_prop in Hm. destruct Hm as [Hs He].
    destruct (GetTotalCost_selects
                (Further.filter_of_query uid (fst parsed) svc sd ed) t l Hs He)
      as [entry Hl].
    unfold Service.GetTotalCost. now rewrite Hl. }
  split; [apply bad_user_id_GetTotalCost|]. split; [|split; [apply H|]].
  - intros Hp Hm.
    rewrite (GetTotalCost_calls user_id parsed service_name start_date
               end_date db Hp).
    destruct (GetTotalCost_bad_date
                (Further.filter_of_query user_id (fst parsed) service_name
                   start_date end_date) db Hm) as [e [v [Hg _]]].
    unfold Service.GetTotalCost. rewrite Hg. now split.
  - intro Ho. rewrite (H "" "" "" "" Ho (or_introl eq_refl) eq_refl).
    change (Further.filter_of_query "" (fst parsed) "" "" "")
      with Handlers.no_filter.
    now rewrite counted_no_filter.
Qed.

Lemma total_cost_handler_answers_witness :
  Handlers.status
    (fst (Handlers.GetTotalCost "" Cases.no_uuid "" "2024-03" ""
            Sample.store)) = 500
  /\ fst (Handlers.GetTotalCost "" Cases.no_uuid "" "03-2024" "05-2024"
            Sample.store)
     = Handlers.JSON 200
         (Handlers.J_totalCost
            (sum_prices
               (filter (Further.counted
                          (Further.filter_of_query "" (fst Cases.no_uuid) ""
                             "03-2024" "05-2024"))
                       (table Sample.store)))).
Proof.
  split.
  - apply (proj1 (proj2 (total_cost_handler_answers "" Cases.no_uuid ""
                           "2024-03" "" Sample.store)));
      [now left | reflexivity].
  - apply (proj1 (proj2 (proj2 (total_cost_handler_answers "" Cases.no_uuid ""
                                  "03-2024" "05-2024" Sample.store))));
      [reflexivity | now left | reflexivity].
Defined.

(** X14.  Reading changes nothing.  Whatever the identifier, the filter and
    the query parameters, well formed or not, and whether the database is
    reached or not, getting a record, listing and summing leave every record
    of the table as it was, in the service and in the three [GET] handlers. *)
Theorem reading_changes_no_record (id : Uuid) (f : SubscriptionFilter)
    (parsed : Uuid * option error) (user_id service_name start_date
    end_date : string) (db : DB) :
  table (snd (Service.GetSubscription id db)) = table db
  /\ table (snd (Service.ListSubscriptions f db)) = table db
  /\ table (snd (Service.GetTotalCost f db)) = table db
  /\ table (snd (Handlers.GetSubscription parsed db)) = table db
  /\ table (snd (Handlers.ListSubscriptions user_id parsed service_name db))
     = table db
  /\ table (snd (Handlers.GetTotalCost user_id parsed service_name start_date
                   end_date db))
     = table db.
Proof.
  split; [apply GetSubscription_keeps_table|].
  split; [apply List_keeps_table|]. split; [apply GetTotalCost_keeps_table|].
  split; [|split].
  - unfold Handlers.GetSubscription. destruct parsed as [u [e|]]; [reflexivity|].
    pose proof (GetSubscription_keeps_table u db) as H.
    destruct (Service.GetSubscription u db) as [[sub [e|]] db']; exact H.
  - unfold Handlers.ListSubscriptions.
    destruct (negb (String.eqb user_id "")); [destruct parsed as [u [e|]]|];
      try reflexivity;
      cbv zeta;
      match goal with |- context [Service.ListSubscriptions ?g ?d] =>
        pose proof (List_keeps_table g d) as H;
        unfold Service.ListSubscriptions;
        destruct (Repository.List g d) as [[l [e|]] db'] end;
      exact H.
  - unfold Handlers.GetTotalCost.
    destruct (negb (String.eqb user_id "")); [destruct parsed as [u [e|]]|];
      try reflexivity;
      cbv zeta;
      match goal with |- context [Service.GetTotalCost ?g ?d] =>
        pose proof (GetTotalCost_keeps_table g d) as H;
        unfold Service.GetTotalCost;
        destruct (Repository.GetTotalCost g d) as [[l [e|]] db'] end;
      exact H.
Qed.

Section Unreachable.

Lemma GetSubscription_offline id t l :
  exists e entry,
    Service.GetSubscription id (mkDB t false l)
    = ((None, Some e), mkDB t false (l ++ [entry]))
    /\ Cause e = Driver ErrBadConn.
Proof. do 2 eexists. split; reflexivity. Qed.

Lemma ListSubscriptions_offline f t l :
  exists e entry,
    Service.ListSubscriptions f (mkDB t false l)
    = (([], Some e), mkDB t false (l ++ [entry]))
    /\ Cause e = Driver ErrBadConn.
Proof.
  destruct f as [[u|] [name|] sd ed]; do 2 eexists; split; reflexivity.
Qed.

Lemma GetTotalCost_offline f t l :
  Spec.is_month (Filter.StartDate f) = true ->
  Spec.is_month (Filter.EndDate f) = true ->
  exists e entry,
    Service.GetTotalCost f (mkDB t false l)
    = ((0, Some e), mkDB t false (l ++ [entry]))
    /\ Cause e = Driver ErrBadConn.
Proof.
  intros Hs He. destruct f as [[u|] [name|] [sd|] [ed|]].
  all: unfold Spec.is_month in Hs, He;
    cbn [Filter.StartDate Filter.EndDate] in Hs, He.
  all: try (destruct (GoTime.Parse sd) as [d|] eqn:Hd; [|discriminate]).
  all: try (destruct (GoTime.Parse ed) as [de|] eqn:Hde; [|discriminate]).
  all: unfold Service.GetTotalCost, Repository.GetTotalCost;
    cbn [Filter.UserID Filter.ServiceName Filter.StartDate Filter.EndDate].
  all: unfold time_Parse; try rewrite Hd; try rewrite Hde.
  all: do 2 eexists; split; reflexivity.
Qed.

Lemma CreateSubscription_offline newID now now' req t l :
  Spec.bad_create_dates req = false ->
  exists e entry,
    Service.CreateSubscription newID now now' req (mkDB t false l)
    = ((None, Some e), mkDB t false (l ++ [entry]))
    /\ Cause e = Driver ErrBadConn.
Proof.
  unfold Spec.bad_create_dates, Spec.is_month. intro H.
  apply orb_false_elim in H. destruct H as [Hs He].
  apply negb_false_iff in Hs. apply negb_false_iff in He.
  unfold Service.CreateSubscription, time_Parse.
  destruct (GoTime.Parse (CreateReq.StartDate req)) as [d|]; [|discriminate].
  destruct (CreateReq.EndDate req) as [s|].
  - destruct (GoTime.Parse s) as [d'|]; [|discriminate].
    do 2 eexists; split; reflexivity.
  - do 2 eexists; split; reflexivity.
Qed.

Lemma GetTotalCost_offline_fails f t l :
  snd (fst (Service.GetTotalCost f (mkDB t false l))) <> None.
Proof.
  unfold Service.GetTotalCost, Repository.GetTotalCost.
  destruct (Filter.UserID f), (Filter.ServiceName f); cbn beta iota zeta.
  all: destruct (Filter.StartDate f) as [sd|];
    [destruct (time_Parse sd) as [d [e|]]; [discriminate|] |].
  all: destruct (Filter.EndDate f) as [ed|];
    [destruct (time_Parse ed) as [d' [e'|]]; [discriminate|] |].
  all: discriminate.
Qed.

End Unreachable.

(** X15.  When the database cannot be reached, every operation of the service
    fails with the driver's connection error as root cause, after one
    attempted statement, and every handler answers 500: a [GET] by identifier
    is not answered with 404, and an update or a delete stops at the existence
    check.  (Create and total cost get that far when their dates are months.) *)
Theorem unreachable_database_is_an_internal_error (db : DB) (id newID u : Uuid)
    (now now' : GoTime.Timestamp) (creq : CreateSubscriptionRequest)
    (ureq : UpdateSubscriptionRequest) (f : SubscriptionFilter)
    (user_id service_name start_date end_date : string) :
  online db = false ->
  (Further.unreachable (snd (fst (Service.GetSubscription id db)))
   /\ Further.unreachable (fst (Service.UpdateSubscription now id ureq db))
   /\ Further.unreachable (fst (Service.DeleteSubscription id db))
   /\ Further.unreachable (snd (fst (Service.ListSubscriptions f db)))
   /\ (Spec.bad_create_dates creq = false ->
       Further.unreachable
         (snd (fst (Service.CreateSubscription newID now now' creq db))))
   /\ (Spec.is_month (Filter.StartDate f) = true ->
       Spec.is_month (Filter.EndDate f) = true ->
       Further.unreachable (snd (fst (Service.GetTotalCost f db)))))
  /\ (Handlers.status (fst (Handlers.GetSubscription (id, None) db)) = 500
      /\ Handlers.status
           (fst (Handlers.UpdateSubscription now (id, None) (ureq, None) db))
         = 500
      /\ Handlers.status (fst (Handlers.DeleteSubscription (id, None) db)) = 500
      /\ Handlers.status
           (fst (Handlers.ListSubscriptions user_id (u, None) service_name db))
         = 500
      /\ Handlers.status
           (fst (Handlers.GetTotalCost user_id (u, None) service_name
                   start_date end_date db))
         = 500
      /\ Handlers.status
           (fst (Handlers.CreateSubscription newID now now' (creq, None) db))
         = 500)
  /\ (List.length (log (snd (Service.UpdateSubscription now id ureq db)))
      = S (List.length (log db))
      /\ List.length (log (snd (Service.DeleteSubscription id db)))
         = S (List.length (log db))).
Proof.
  intro Ho. destruct db as [t o l]. cbn [online] in Ho. subst o.
  destruct (GetSubscription_offline id t l) as [e1 [n1 [H1 C1]]].
  assert (HU : Service.UpdateSubscription now id ureq (mkDB t false l)
               = (Some e1, mkDB t false (l ++ [n1]))).
  { unfold Service.UpdateSubscription. now rewrite H1. }
  assert (HD : Service.DeleteSubscription id (mkDB t false l)
               = (Some e1, mkDB t false (l ++ [n1]))).
  { unfold Service.DeleteSubscription. now rewrite H1. }
  split; [|split].
  - split; [rewrite H1; now exists e1|].
    split; [rewrite HU; now exists e1|].
    split; [rewrite HD; now exists e1|].
    split; [|split].
    + destruct (ListSubscriptions_offline f t l) as [e [n [-> C]]]. now exists e.
    + intro Hc.
      destruct (CreateSubscription_offline newID now now' creq t l Hc)
        as [e [n [-> C]]].
      now exists e.
    + intros Hs He.
      destruct (GetTotalCost_offline f t l Hs He) as [e [n [-> C]]].
      now exists e.
  - split; [|split; [|split; [|split; [|split]]]].
    + unfold Handlers.GetSubscription. rewrite H1. cbn [fst].
      unfold Handlers.service_failure.
      now rewrite (driver_is_not_found e1 ErrBadConn C1).
    + unfold Handlers.UpdateSubscription. rewrite HU. cbn [fst].
      unfold Handlers.service_failure.
      now rewrite (driver_is_not_found e1 ErrBadConn C1).
    + unfold Handlers.DeleteSubscription. rewrite HD. cbn [fst].
      unfold Handlers.service_failure.
      now rewrite (driver_is_not_found e1 ErrBadConn C1).
    + unfold Handlers.ListSubscriptions.
      destruct (negb (String.eqb user_id "")), (negb (String.eqb service_name ""));
        cbv zeta;
        match goal with |- context [Service.ListSubscriptions ?g ?d] =>
          destruct (ListSubscriptions_offline g t l) as [e [n [-> C]]] end;
        reflexivity.
    + rewrite GetTotalCost_calls by (now right).
      pose proof (GetTotalCost_offline_fails
                    (Further.filter_of_query user_id u service_name start_date
                       end_date) t l) as Hn.
      cbn [fst] in Hn |- *.
      destruct (Service.GetTotalCost _ (mkDB t false l)) as [[n [e|]] db'];
        [reflexivity | now destruct Hn].
    + unfold Handlers.CreateSubscription.
      destruct (Service.CreateSubscription newID now now' creq (mkDB t false l))
        as [[sub [e|]] db'] eqn:Hc; [reflexivity|].
      exfalso. revert Hc. unfold Service.CreateSubscription, time_Parse.
      destruct (GoTime.Parse (CreateReq.StartDate creq)); [|discriminate].
      destruct (CreateReq.EndDate creq) as [s|];
        [destruct (GoTime.Parse s); [|discriminate]|]; discriminate.
  - rewrite HU, HD. cbn [snd log]. rewrite length_app. cbn. lia.
Qed.

Lemma unreachable_database_is_an_internal_error_witness :
  online Cases.unreachable_store = false
  /\ Further.unreachable
       (snd (fst (Service.GetSubscription 1%N Cases.unreachable_store)))
  /\ Handlers.status
       (fst (Handlers.GetSubscription (1%N, None) Cases.unreachable_store))
     = 500
  /\ Handlers.status
       (fst (Handlers.DeleteSubscription (1%N, None) Cases.unreachable_store))
     = 500
  /\ Handlers.status
       (fst (Handlers.ListSubscriptions "" (Sample.user, None) "Music"
               Cases.unreachable_store))
     = 500.
Proof.
  split; [reflexivity|].
  destruct (unreachable_database_is_an_internal_error Cases.unreachable_store
              1%N 9%N Sample.user 400 401 Sample.create_video Sample.rename
              Sample.spring "" "Music" "" "" eq_refl)
    as [[Hg _] [[Hget [_ [Hdel [Hlist _]]]] _]].
  split; [exact Hg|]. split; [exact Hget|]. split; [exact Hdel | exact Hlist].
Defined.

Section Period.
Import GoTime Further.

Ltac compare_dates :=
  unfold date_ltb, date_leb, date_geb, date_compare; cbn [year month day];
  repeat match goal with
    | |- context [?a ?= ?b] => destruct (Z.compare_spec a b)
    end;
  try reflexivity; try lia.

Lemma AddMonths_next d :
  1 <= month d <= 12 ->
  AddMonths 1 d
  = if month d =? 12 then mkDate (year d + 1) 1 (day d)
    else mkDate (year d) (month d + 1) (day d).
Proof.
  intro Hm. unfold AddMonths. rewrite Z.sub_add.
  destruct (month d =? 12) eqn:E.
  - apply Z.eqb_eq in E. rewrite E. reflexivity.
  - apply Z.eqb_neq in E.
    rewrite Z.div_small, Z.mod_small by lia. now rewrite Z.add_0_r.
Qed.

(** Among first days of months, "before the month after [d]" is "in or before
    the month [d]". *)
Lemma before_next_month d x :
  first_of_month d -> first_of_month x ->
  date_ltb x (AddMonths 1 d) = date_leb x d.
Proof.
  intros [Hd Hm] [Hx Hxm]. rewrite (AddMonths_next d Hm).
  destruct d as [y m dd], x as [xy xm xd]. cbn [year month day] in *. subst.
  destruct (m =? 12) eqn:E; [apply Z.eqb_eq in E | apply Z.eqb_neq in E];
    compare_dates.
Qed.

Lemma in_period_until f e r :
  first_of_month e -> on_months r ->
  Spec.month_of (Filter.EndDate f) = Some e ->
  Spec.in_period f r = Spec.in_period (without_end f) r && until_month e r.
Proof.
  intros He [Hs Hx] Hf. unfold Spec.in_period, Spec.active_in_period, until_month.
  rewrite Hf. cbn [without_end Filter.StartDate Filter.EndDate Spec.month_of].
  rewrite andb_true_r, (before_next_month e _ He Hs).
  destruct (Sub.EndDate r) as [x|]; [|reflexivity].
  now rewrite (before_next_month e x He Hx).
Qed.

Lemma in_period_ongoing f r :
  Sub.EndDate r = None -> Spec.in_period f r = Spec.in_period (without_end f) r.
Proof.
  intro Hr. unfold Spec.in_period, Spec.active_in_period.
  cbn [without_end Filter.StartDate Filter.EndDate Spec.month_of].
  rewrite Hr, andb_true_r.
  destruct (Spec.month_of (Filter.EndDate f)); [|now rewrite andb_true_r].
  now rewrite orb_true_r, andb_true_r.
Qed.

Lemma filter_ext_in' {A} (p q : A -> bool) (l : list A) :
  (forall x, In x l -> p x = q x) -> filter p l = filter q l.
Proof.
  induction l as [|x l IH]; intro H; cbn [filter]; [reflexivity|].
  rewrite (H x (or_introl eq_refl)), IH; [reflexivity|].
  intros; apply H; now right.
Qed.

End Period.

(** X16.  The end month of the filter is inclusive.  [getTotalCost] compares
    with [nextMonth], the end month of the filter plus one month (January of
    the next year after a December).  On a table whose dates are first days
    of months, as every table made by the service is, the sum is over the
    records that pass the filter without its end date and that started in or
    before the end month, or are ongoing, or ended in or before it. *)
Theorem end_month_is_inclusive (f : SubscriptionFilter) (e : GoTime.Date)
    (db : DB) :
  online db = true -> Forall Further.on_months (table db) ->
  Spec.is_month (Filter.StartDate f) = true ->
  Spec.month_of (Filter.EndDate f) = Some e ->
  Further.first_of_month e
  /\ GoTime.AddMonths 1 e
     = (if GoTime.month e =? 12
        then GoTime.mkDate (GoTime.year e + 1) 1 1
        else GoTime.mkDate (GoTime.year e) (GoTime.month e + 1) 1)
  /\ fst (Service.GetTotalCost f db)
     = (sum_prices
          (filter (fun r => Further.counted (Further.without_end f) r
                            && Further.until_month e r) (table db)),
        None).
Proof.
  intros Ho Hm Hs He. destruct db as [t o l]. cbn [online table] in *. subst o.
  assert (Hfe : Further.first_of_month e).
  { unfold Spec.month_of in He. destruct (Filter.EndDate f) as [s|];
      [|discriminate]. now apply (Parse_first_of_month s). }
  split; [exact Hfe|]. split.
  - destruct Hfe as [Hd Hr]. rewrite (AddMonths_next e Hr), Hd. reflexivity.
  - destruct (GetTotalCost_selects f t l Hs) as [entry H].
    { unfold Spec.month_of in He. unfold Spec.is_month.
      destruct (Filter.EndDate f) as [s|]; [|discriminate]. now rewrite He. }
    unfold Service.GetTotalCost. rewrite H. cbn [fst]. do 2 f_equal.
    apply filter_ext_in'. intros r Hin.
    rewrite Forall_forall in Hm.
    rewrite (in_period_until f e r Hfe (Hm r Hin) He).
    unfold Further.counted. cbn [Further.without_end Filter.UserID Filter.ServiceName].
    unfold Spec.matches_user, Spec.matches_pattern.
    cbn [Further.without_end Filter.UserID Filter.ServiceName].
    now rewrite !andb_assoc.
Qed.

Lemma end_month_is_inclusive_witness :
  online Sample.store = true
  /\ Forall Further.on_months (table Sample.store)
  /\ Spec.is_month (Filter.StartDate Sample.spring) = true
  /\ Spec.month_of (Filter.EndDate Sample.spring) = Some Cases.may
  /\ fst (Service.GetTotalCost Sample.spring Sample.store)
     = (sum_prices
          (filter (fun r => Further.counted (Further.without_end Sample.spring) r
                            && Further.until_month Cases.may r)
                  (table Sample.store)),
        None).
Proof.
  assert (Hm : Forall Further.on_months (table Sample.store)).
  { repeat (apply Forall_cons;
            [unfold Further.on_months, Further.first_of_month; cbn;
             repeat split; lia|]).
    apply Forall_nil. }
  split; [reflexivity|]. split; [exact Hm|]. split; [reflexivity|].
  split; [reflexivity|].
  apply (end_month_is_inclusive Sample.spring Cases.may Sample.store eq_refl Hm
           eq_refl eq_refl).
Defined.

(** X17.  The end date of the filter never excludes an ongoing subscription.
    A record without end date passes the end-date condition whatever its
    start, so over a table of ongoing subscriptions [getTotalCost] returns
    the same with and without the end date of the filter. *)
Theorem end_of_filter_keeps_ongoing (f : SubscriptionFilter) (db : DB) :
  online db = true ->
  Spec.is_month (Filter.StartDate f) = true ->
  Spec.is_month (Filter.EndDate f) = true ->
  (forall r, Sub.EndDate r = None ->
             Further.counted f r = Further.counted (Further.without_end f) r)
  /\ ((forall r, In r (table db) -> Sub.EndDate r = None) ->
      fst (Service.GetTotalCost f db)
      = fst (Service.GetTotalCost (Further.without_end f) db)).
Proof.
  intros Ho Hs He.
  assert (Hc : forall r, Sub.EndDate r = None ->
               Further.counted f r = Further.counted (Further.without_end f) r).
  { intros r Hr. unfold Further.counted. now rewrite (in_period_ongoing f r Hr). }
  split; [exact Hc|]. intro Hall.
  destruct db as [t o l]. cbn [online table] in *. subst o.
  destruct (GetTotalCost_selects f t l Hs He) as [entry H].
  destruct (GetTotalCost_selects (Further.without_end f) t l Hs eq_refl)
    as [entry' H'].
  unfold Service.GetTotalCost. rewrite H, H'. cbn [fst]. do 2 f_equal.
  apply filter_ext_in'. intros r Hin. apply (Hc r (Hall r Hin)).
Qed.

Lemma end_of_filter_keeps_ongoing_witness :
  online Cases.ongoing_store = true
  /\ Spec.is_month (Filter.StartDate Sample.spring) = true
  /\ Spec.is_month (Filter.EndDate Sample.spring) = true
  /\ (forall r, In r (table Cases.ongoing_store) -> Sub.EndDate r = None)
  /\ fst (Service.GetTotalCost Sample.spring Cases.ongoing_store)
     = fst (Service.GetTotalCost (Further.without_end Sample.spring)
              Cases.ongoing_store).
Proof.
  assert (Ho : forall r, In r (table Cases.ongoing_store) ->
                         Sub.EndDate r = None).
  { intros r [<-|[<-|[]]]; reflexivity. }
  split; [reflexivity|]. split; [reflexivity|]. split; [reflexivity|].
  split; [exact Ho|].
  apply (proj2 (end_of_filter_keeps_ongoing Sample.spring Cases.ongoing_store
                  eq_refl eq_refl eq_refl) Ho).
Defined.

(* ================================================================== *)
(** * Further properties: the text of the statements                  *)
(* ================================================================== *)

Section Texts.
Import Further.

Lemma submit_log q args db : log (snd (submit q args db)) = log db ++ [(q, args)].
Proof.
  unfold submit. destruct (online db); [|reflexivity].
  now destruct (run q args (table db)) as [[rows t']|e].
Qed.

Lemma ExecContext_log q args db :
  log (snd (ExecContext q args db)) = log db ++ [(q, args)].
Proof.
  unfold ExecContext. pose proof (submit_log q args db) as H.
  destruct (submit q args db) as [[rows|e] db']; exact H.
Qed.

Lemma QueryContext_log q args db :
  log (snd (QueryContext q args db)) = log db ++ [(q, args)].
Proof.
  unfold QueryContext. pose proof (submit_log q args db) as H.
  destruct (submit q args db) as [[rows|e] db']; exact H.
Qed.

Lemma snd_let {A B C} (x : A * B) (f : A -> C) :
  snd (let '(a, b) := x in (f a, b)) = snd x.
Proof. now destruct x. Qed.

Lemma good_dates req :
  Spec.has_bad_date req = false ->
  match UpdateReq.StartDate req with
  | Some s => exists d, GoTime.Parse s = Some d
  | None => True
  end
  /\ match UpdateReq.EndDate req with
     | Some e => String.eqb e "" = true \/ exists d, GoTime.Parse e = Some d
     | None => True
     end.
Proof.
  unfold Spec.has_bad_date, Spec.is_month. intro H.
  apply orb_false_elim in H. destruct H as [Hs He]. split.
  - destruct (UpdateReq.StartDate req) as [s|]; [|exact I].
    destruct (GoTime.Parse s) as [d|]; [now exists d | discriminate].
  - destruct (UpdateReq.EndDate req) as [e|]; [|exact I].
    destruct (String.eqb e ""); [now left|]. right.
    destruct (GoTime.Parse e) as [d|]; [now exists d | discriminate].
Qed.

End Texts.

(** X18.  The text of an update is fixed by which fields are supplied.  Two
    updates that supply the same fields (and, for the end date, both the
    empty text or both a month) submit statements with the same text,
    whatever the values, the identifiers and the stores: the values travel
    as arguments.  The text is one the server accepts, an [UPDATE] of the
    rows with [id = $k] for the last parameter [k], with one argument for
    each parameter, the last of them the identifier; it assigns [updated_at]
    and none of [id], [user_id], [created_at]. *)
Theorem update_text_is_fixed_by_the_fields (now1 now2 : GoTime.Timestamp)
    (id1 id2 : Uuid) (req1 req2 : UpdateSubscriptionRequest) (db1 db2 : DB) :
  Spec.has_bad_date req1 = false -> Spec.has_bad_date req2 = false ->
  Further.update_fields req1 = Further.update_fields req2 ->
  exists q args1 args2 sets k tys,
    log (snd (Repository.Update now1 id1 req1 db1)) = log db1 ++ [(q, args1)]
    /\ log (snd (Repository.Update now2 id2 req2 db2)) = log db2 ++ [(q, args2)]
    /\ prepare q = Ok (Update sets (CCmp c_id OpEq k), tys)
    /\ k = List.length tys
    /\ List.length args1 = k /\ List.length args2 = k
    /\ last args1 VNull = VUuid id1 /\ last args2 VNull = VUuid id2
    /\ In c_updated_at (map assigned sets)
    /\ Further.keeps_fixed_fields sets = true.
Proof.
  intros Hb1 Hb2 Hf.
  destruct (good_dates req1 Hb1) as [Hs1 He1].
  destruct (good_dates req2 Hb2) as [Hs2 He2].
  destruct req1 as [n1 p1 s1 e1], req2 as [n2 p2 s2 e2].
  unfold Further.update_fields, Further.supplied in Hf.
  cbn [UpdateReq.ServiceName UpdateReq.Price UpdateReq.StartDate
       UpdateReq.EndDate] in *.
  injection Hf as Hn Hp Hs He.
  unfold Repository.Update, time_Parse.
  cbn [UpdateReq.ServiceName UpdateReq.Price UpdateReq.StartDate
       UpdateReq.EndDate].
  destruct n1, n2; try discriminate Hn.
  all: destruct p1, p2; try discriminate Hp.
  all: destruct s1 as [s1|], s2 as [s2|]; try discriminate Hs.
  all: try match type of Hs1 with
           | ex _ => destruct Hs1 as [d1 Hd1]; destruct Hs2 as [d2 Hd2];
                     rewrite Hd1, Hd2
           end.
  all: destruct e1 as [e1|], e2 as [e2|]; try discriminate He.
  all: try (cbn [option_map] in He; injection He as He;
            destruct (String.eqb e1 "") eqn:E1; rewrite <- He;
            [| destruct He1 as [He1|[x1 ->]]; [discriminate|];
               rewrite <- He in He2;
               destruct He2 as [He2|[x2 ->]]; [discriminate|] ]).
  all: cbn beta iota zeta; rewrite !snd_let, !ExecContext_log;
    do 6 eexists; split; [reflexivity|]; split; [reflexivity|];
    split; [vm_compute; reflexivity|];
    repeat split; cbn; tauto.
Qed.

Lemma update_text_is_fixed_by_the_fields_witness :
  Spec.has_bad_date Sample.rename = false
  /\ Spec.has_bad_date Cases.rename_again = false
  /\ Further.update_fields Sample.rename
     = Further.update_fields Cases.rename_again
  /\ exists q args1 args2,
       log (snd (Repository.Update 400 1%N Sample.rename Sample.store))
       = log Sample.store ++ [(q, args1)]
       /\ log (snd (Repository.Update 500 2%N Cases.rename_again
                      Cases.unreachable_store))
          = log Cases.unreachable_store ++ [(q, args2)]
       /\ Spec.well_formed q = true.
Proof.
  split; [reflexivity|]. split; [reflexivity|]. split; [reflexivity|].
  destruct (update_text_is_fixed_by_the_fields 400 500 1%N 2%N Sample.rename
              Cases.rename_again Sample.store Cases.unreachable_store
              eq_refl eq_refl eq_refl)
    as [q [a1 [a2 [sets [k [tys [H1 [H2 [Hq _]]]]]]]]].
  exists q, a1, a2. split; [exact H1|]. split; [exact H2|].
  unfold Spec.well_formed. now rewrite Hq.
Defined.
(** Two logs end with the same text, a query with as many parameters as
    arguments. *)
Ltac same_text :=
  do 5 eexists;
  split; [reflexivity|]; split; [reflexivity|];
  split; [vm_compute; reflexivity|];
  split; [vm_compute; reflexivity|]; split; reflexivity.

(** X19.  The text of a query is fixed by which fields of the filter are
    supplied.  Two calls of [list], and two calls of [getTotalCost] whose
    dates are months, with filters that supply the same fields, submit
    queries with the same text, whatever the user, the service name, the
    dates and the stores: the text holds parameters, the values travel as
    arguments, one for each parameter.  The text is a [SELECT] the server
    accepts. *)
Theorem query_text_is_fixed_by_the_fields (f1 f2 : SubscriptionFilter)
    (db1 db2 : DB) :
  Further.filter_fields f1 = Further.filter_fields f2 ->
  (exists q args1 args2 s tys,
     log (snd (Repository.List f1 db1)) = log db1 ++ [(q, args1)]
     /\ log (snd (Repository.List f2 db2)) = log db2 ++ [(q, args2)]
     /\ prepare q = Ok (s, tys) /\ Spec.is_query q = true
     /\ List.length args1 = List.length tys
     /\ List.length args2 = List.length tys)
  /\ (Spec.is_month (Filter.StartDate f1) = true ->
      Spec.is_month (Filter.EndDate f1) = true ->
      Spec.is_month (Filter.StartDate f2) = true ->
      Spec.is_month (Filter.EndDate f2) = true ->
      exists q args1 args2 s tys,
        log (snd (Repository.GetTotalCost f1 db1)) = log db1 ++ [(q, args1)]
        /\ log (snd (Repository.GetTotalCost f2 db2)) = log db2 ++ [(q, args2)]
        /\ prepare q = Ok (s, tys) /\ Spec.is_query q = true
        /\ List.length args1 = List.length tys
        /\ List.length args2 = List.length tys).
Proof.
  intro Hf. destruct f1 as [u1 n1 s1 e1], f2 as [u2 n2 s2 e2].
  unfold Further.filter_fields, Further.supplied in Hf.
  cbn [Filter.UserID Filter.ServiceName Filter.StartDate Filter.EndDate] in *.
  injection Hf as Hu Hn Hs He.
  destruct u1, u2; try discriminate Hu.
  all: destruct n1, n2; try discriminate Hn.
  all: split.
  all: try (unfold Repository.List;
            cbn [Filter.UserID Filter.ServiceName];
            cbn beta iota zeta;
            repeat match goal with
              | |- context [QueryContext ?q ?a ?d] =>
                  let H := fresh "H" in
                  pose proof (QueryContext_log q a d) as H;
                  destruct (QueryContext q a d) as [[? [?|]] ?];
                  cbn [snd] in H |- *; rewrite H; clear H
              end;
            same_text).
  all: unfold Spec.is_month; intros M1 M2 M3 M4.
  all: destruct s1 as [s1|], s2 as [s2|]; try discriminate Hs.
  all: destruct e1 as [e1|], e2 as [e2|]; try discriminate He.
  all: unfold Repository.GetTotalCost, time_Parse;
    cbn [Filter.UserID Filter.ServiceName Filter.StartDate Filter.EndDate].
  all: repeat match goal with
         | H : match GoTime.Parse ?s with Some _ => true | None => false end
               = true |- _ =>
             destruct (GoTime.Parse s); [clear H | discriminate H]
         end.
  all: cbn beta iota zeta; unfold QueryRowContext;
    repeat match goal with
      | |- context [submit ?q ?a ?d] =>
          let H := fresh "H" in
          pose proof (submit_log q a d) as H;
          destruct (submit q a d) as [? ?];
          cbn [snd] in H |- *
      end;
    repeat match goal with
      | |- context [Row_Scan_int ?r ?z] => destruct (Row_Scan_int r z)
      end;
    cbn [snd];
    repeat match goal with H : log _ = _ |- _ => rewrite H; clear H end;
    same_text.
Qed.

Lemma query_text_is_fixed_by_the_fields_witness :
  Further.filter_fields Sample.wildcard = Further.filter_fields Cases.by_name
  /\ exists q args1 args2,
       log (snd (Repository.List Sample.wildcard Sample.store))
       = log Sample.store ++ [(q, args1)]
       /\ log (snd (Repository.List Cases.by_name Cases.unreachable_store))
          = log Cases.unreachable_store ++ [(q, args2)]
       /\ Spec.is_query q = true.
Proof.
  split; [reflexivity|].
  destruct (query_text_is_fixed_by_the_fields Sample.wildcard Cases.by_name
              Sample.store Cases.unreachable_store eq_refl)
    as [[q [a1 [a2 [s [tys [H1 [H2 [_ [Hq _]]]]]]]]] _].
  exists q, a1, a2. split; [exact H1|]. split; [exact H2 | exact Hq].
Defined.

(* ================================================================== *)
(** * Further properties: bounds and the date text                    *)
(* ================================================================== *)

Section Bounds.

Lemma coerce_out_of_range n :
  int4_max < n -> coerce TInt4 (VInt n) = Fail numeric_value_out_of_range.
Proof.
  intro H. rewrite coerce_VInt.
  replace (n <=? int4_max) with false by (symmetry; apply Z.leb_gt; lia).
  now rewrite andb_false_r.
Qed.

Lemma Create_out_of_range sub t l :
  int4_max < Sub.Price sub ->
  exists entry,
    Repository.Create sub (mkDB t true l)
    = (Some (WithMessage (Driver numeric_value_out_of_range)
               "failed to create subscription"),
       mkDB t true (l ++ [entry])).
Proof.
  intro Hp. unfold Repository.Create, ExecContext, submit.
  cbn [online table log]. prepared.
  cbn [bind_args List.length Nat.eqb combine map_result fst snd].
  rewrite (coerce_out_of_range _ Hp). cbn [coerce bind].
  eexists. reflexivity.
Qed.

Lemma Update_out_of_range now id req t l p :
  UpdateReq.Price req = Some p -> int4_max < p ->
  Spec.has_bad_date req = false ->
  exists entry,
    Repository.Update now id req (mkDB t true l)
    = (Some (WithMessage (Driver numeric_value_out_of_range)
               "failed to update subscription"),
       mkDB t true (l ++ [entry])).
Proof.
  intros Hprice Hp Hb. destruct (good_dates req Hb) as [Hs He].
  destruct req as [name price sd ed].
  cbn [UpdateReq.Price UpdateReq.StartDate UpdateReq.EndDate] in *. subst price.
  unfold Repository.Update, time_Parse.
  cbn [UpdateReq.ServiceName UpdateReq.Price UpdateReq.StartDate UpdateReq.EndDate].
  destruct name as [name|]; cbn beta iota zeta.
  all: destruct sd as [sd|]; [destruct Hs as [d ->]|].
  all: destruct ed as [ed|];
    [ destruct (String.eqb ed "") eqn:Heq;
      [| destruct He as [He|[d' ->]]; [discriminate|] ]
    | ].
  all: cbn -[run]; unfold ExecContext, submit; cbn [online table log];
    prepared;
    cbn [bind_args List.length Nat.eqb combine map_result fst snd];
    rewrite (coerce_out_of_range _ Hp); cbn [coerce bind];
    eexists; reflexivity.
Qed.

End Bounds.

(** X20.  The upper bound of the price.  The column is an [INTEGER]: a
    create request with a price above 2147483647 (and dates that are months)
    fails with the server's out-of-range error, 500, and stores nothing; so
    does an update that supplies such a price, for whatever identifier, and
    no record changes. *)
Theorem price_above_the_integer_range_is_rejected (newID id : Uuid)
    (now now' : GoTime.Timestamp) (creq : CreateSubscriptionRequest)
    (ureq : UpdateSubscriptionRequest) (p : Z) (db : DB) :
  online db = true ->
  (int4_max < CreateReq.Price creq -> Spec.bad_create_dates creq = false ->
   exists e,
     fst (Service.CreateSubscription newID now now' creq db) = (None, Some e)
     /\ Cause e = Driver numeric_value_out_of_range
     /\ table (snd (Service.CreateSubscription newID now now' creq db))
        = table db
     /\ Handlers.status
          (fst (Handlers.CreateSubscription newID now now' (creq, None) db))
        = 500)
  /\ (UpdateReq.Price ureq = Some p -> int4_max < p ->
      Spec.has_bad_date ureq = false ->
      exists e,
        fst (Repository.Update now id ureq db) = Some e
        /\ Cause e = Driver numeric_value_out_of_range
        /\ table (snd (Repository.Update now id ureq db)) = table db).
Proof.
  intro Ho. destruct db as [t o l]. cbn [online table] in *. subst o. split.
  - intros Hp Hd. unfold Spec.bad_create_dates, Spec.is_month in Hd.
    apply orb_false_elim in Hd. destruct Hd as [Hs He].
    apply negb_false_iff in Hs. apply negb_false_iff in He.
    assert (H : exists e entry,
              Service.CreateSubscription newID now now' creq (mkDB t true l)
              = ((None, Some e), mkDB t true (l ++ [entry]))
              /\ Cause e = Driver numeric_value_out_of_range).
    { unfold Service.CreateSubscription, time_Parse.
      destruct (GoTime.Parse (CreateReq.StartDate creq)) as [d|]; [|discriminate].
      destruct (CreateReq.EndDate creq) as [s|];
        [destruct (GoTime.Parse s) as [d'|]; [|discriminate]|].
      all: match goal with |- context [Repository.Create ?s ?d] =>
          destruct (Create_out_of_range s t l Hp) as [entry ->] end;
        do 2 eexists; split; reflexivity. }
    destruct H as [e [entry [H Hc]]]. exists e. rewrite H.
    repeat split; try assumption.
    unfold Handlers.CreateSubscription. now rewrite H.
  - intros Hprice Hp Hb.
    destruct (Update_out_of_range now id ureq t l p Hprice Hp Hb) as [entry ->].
    eexists. repeat split.
Qed.

Lemma price_above_the_integer_range_is_rejected_witness :
  online Sample.store = true
  /\ int4_max < CreateReq.Price Cases.create_dear
  /\ Spec.bad_create_dates Cases.create_dear = false
  /\ (exists e,
        fst (Service.CreateSubscription 9%N 400 401 Cases.create_dear
               Sample.store) = (None, Some e)
        /\ Cause e = Driver numeric_value_out_of_range
        /\ table (snd (Service.CreateSubscription 9%N 400 401 Cases.create_dear
                         Sample.store))
           = table Sample.store
        /\ Handlers.status
             (fst (Handlers.CreateSubscription 9%N 400 401
                     (Cases.create_dear, None) Sample.store)) = 500)
  /\ (exists e,
        fst (Repository.Update 400 1%N Cases.make_dear Sample.store) = Some e
        /\ Cause e = Driver numeric_value_out_of_range
        /\ table (snd (Repository.Update 400 1%N Cases.make_dear Sample.store))
           = table Sample.store).
Proof.
  assert (Hp : int4_max < 3000000000) by (unfold int4_max; lia).
  split; [reflexivity|]. split; [exact Hp|]. split; [reflexivity|].
  destruct (price_above_the_integer_range_is_rejected 9%N 1%N 400 401
              Cases.create_dear Cases.make_dear 3000000000 Sample.store
              eq_refl) as [Hc Hu].
  split; [exact (Hc Hp eq_refl) | exact (Hu eq_refl Hp eq_refl)].
Defined.

Section DateText.
Import GoTime Further.

Lemma isDigit_eq c c' : digit_val c = digit_val c' -> c = c'.
Proof.
  unfold digit_val. intro H.
  assert (Hn : nat_of_ascii c = nat_of_ascii c') by lia.
  rewrite <- (ascii_nat_embedding c), <- (ascii_nat_embedding c').
  now rewrite Hn.
Qed.

(** What [time.Parse] accepts for the layout [01-2006], character by
    character. *)
Lemma Parse_inv s d :
  Parse s = Some d ->
  exists m0 m1 y0 y1 y2 y3,
    s = String m0 (String m1 (String "-" (String y0 (String y1 (String y2
          (String y3 ""))))))
    /\ (0 <= digit_val m0 <= 9 /\ 0 <= digit_val m1 <= 9)
    /\ (0 <= digit_val y0 <= 9 /\ 0 <= digit_val y1 <= 9
        /\ 0 <= digit_val y2 <= 9 /\ 0 <= digit_val y3 <= 9)
    /\ month d = digit_val m0 * 10 + digit_val m1
    /\ year d = ((digit_val y0 * 10 + digit_val y1) * 10 + digit_val y2) * 10
                + digit_val y3
    /\ day d = 1 /\ 1 <= month d <= 12.
Proof.
  unfold Parse, getnum_fixed, skip_dash, get_long_year.
  destruct s as [|m0 [|m1 s]]; try discriminate.
  destruct (isDigit m0) eqn:D0; [|discriminate].
  destruct (isDigit m1) eqn:D1; [|discriminate]. cbn [andb].
  destruct (_ || _) eqn:Hm; [discriminate|].
  apply orb_false_elim in Hm. destruct Hm as [Hm1 Hm2].
  apply Z.leb_gt in Hm1. apply Z.ltb_ge in Hm2.
  destruct s as [|c s]; [discriminate|].
  destruct (Ascii.eqb c "-") eqn:Hc; [|discriminate].
  apply Ascii.eqb_eq in Hc. subst c.
  destruct s as [|y0 [|y1 [|y2 [|y3 s]]]]; try discriminate.
  destruct (isDigit y0) eqn:E0; [|discriminate].
  destruct (isDigit y1) eqn:E1; [|discriminate].
  destruct (isDigit y2) eqn:E2; [|discriminate].
  destruct (isDigit y3) eqn:E3; [|discriminate]. cbn [andb].
  destruct s; [|discriminate].
  intro H. injection H as <-. cbn [day month year].
  apply isDigit_range in D0, D1, E0, E1, E2, E3.
  exists m0, m1, y0, y1, y2, y3. repeat split; lia.
Qed.

(** The accepted text of a date is its only one. *)
Lemma Parse_injective s s' d : Parse s = Some d -> Parse s' = Some d -> s = s'.
Proof.
  intros H H'.
  destruct (Parse_inv s d H)
    as [m0 [m1 [y0 [y1 [y2 [y3 [-> [[M0 M1] [[Y0 [Y1 [Y2 Y3]]] [Hm [Hy _]]]]]]]]]]].
  destruct (Parse_inv s' d H')
    as [n0 [n1 [z0 [z1 [z2 [z3 [-> [[N0 N1] [[Z0 [Z1 [Z2 Z3]]] [Hm' [Hy' _]]]]]]]]]]].
  rewrite Hm in Hm'. rewrite Hy in Hy'.
  rewrite (isDigit_eq m0 n0), (isDigit_eq m1 n1), (isDigit_eq y0 z0),
    (isDigit_eq y1 z1), (isDigit_eq y2 z2), (isDigit_eq y3 z3);
    [reflexivity | lia ..].
Qed.

Lemma digit_char n :
  0 <= n <= 9 ->
  isDigit (ascii_of_nat (Z.to_nat (48 + n))) = true
  /\ digit_val (ascii_of_nat (Z.to_nat (48 + n))) = n.
Proof.
  intro H. unfold isDigit, digit_val.
  rewrite nat_ascii_embedding by lia. split.
  - apply andb_true_intro. split; apply Nat.leb_le; lia.
  - lia.
Qed.

(** Every month of the years 0 to 9999 has a text that is accepted. *)
Lemma Parse_onto d :
  first_of_month d -> 0 <= year d <= 9999 -> exists s, Parse s = Some d.
Proof.
  intros [Hd Hm] Hy. destruct d as [y m dd]. cbn [day month year] in *. subst dd.
  assert (Q0 : 0 <= m / 10 <= 9) by (Z.div_mod_to_equations; lia).
  assert (Q1 : 0 <= m mod 10 <= 9) by (Z.div_mod_to_equations; lia).
  assert (R0 : 0 <= y / 1000 <= 9) by (Z.div_mod_to_equations; lia).
  assert (R1 : 0 <= y / 100 mod 10 <= 9) by (Z.div_mod_to_equations; lia).
  assert (R2 : 0 <= y / 10 mod 10 <= 9) by (Z.div_mod_to_equations; lia).
  assert (R3 : 0 <= y mod 10 <= 9) by (Z.div_mod_to_equations; lia).
  destruct (digit_char _ Q0) as [A0 B0]. destruct (digit_char _ Q1) as [A1 B1].
  destruct (digit_char _ R0) as [C0 D0]. destruct (digit_char _ R1) as [C1 D1].
  destruct (digit_char _ R2) as [C2 D2]. destruct (digit_char _ R3) as [C3 D3].
  exists (String (ascii_of_nat (Z.to_nat (48 + m / 10)))
         (String (ascii_of_nat (Z.to_nat (48 + m mod 10)))
         (String "-"
         (String (ascii_of_nat (Z.to_nat (48 + y / 1000)))
         (String (ascii_of_nat (Z.to_nat (48 + y / 100 mod 10)))
         (String (ascii_of_nat (Z.to_nat (48 + y / 10 mod 10)))
         (String (ascii_of_nat (Z.to_nat (48 + y mod 10))) ""))))))).
  unfold Parse, getnum_fixed, skip_dash, get_long_year.
  rewrite A0, A1, B0, B1. cbn [andb].
  assert (Em : m / 10 * 10 + m mod 10 = m) by (Z.div_mod_to_equations; lia).
  rewrite Em.
  replace ((m <=? 0) || (12 <? m)) with false.
  2: { symmetry. apply orb_false_intro; [apply Z.leb_gt | apply Z.ltb_ge]; lia. }
  cbn [Ascii.eqb Bool.eqb]. rewrite C0, C1, C2, C3, D0, D1, D2, D3. cbn [andb].
  do 2 f_equal. Z.div_mod_to_equations. lia.
Qed.

End DateText.

(** X21.  The text of a date.  [time.Parse] with the layout [01-2006], by
    which every date of a request is read, is one-to-one between the texts it
    accepts and the months of the years 0 to 9999: each such month has a text
    of seven characters that is accepted and yields the first day of that
    month, and no other text yields it. *)
Theorem every_month_has_one_text (d : GoTime.Date) :
  Further.first_of_month d -> 0 <= GoTime.year d <= 9999 ->
  exists s,
    GoTime.Parse s = Some d
    /\ time_Parse s = (d, None)
    /\ String.length s = 7%nat
    /\ (forall s', GoTime.Parse s' = Some d -> s' = s).
Proof.
  intros Hd Hy. destruct (Parse_onto d Hd Hy) as [s Hs]. exists s.
  split; [exact Hs|]. split; [unfold time_Parse; now rewrite Hs|].
  split; [now apply (Parse_month s d)|].
  intros s' Hs'. now apply (Parse_injective s' s d).
Qed.

Lemma every_month_has_one_text_witness :
  Further.first_of_month Cases.march
  /\ 0 <= GoTime.year Cases.march <= 9999
  /\ exists s,
       GoTime.Parse s = Some Cases.march
       /\ time_Parse s = (Cases.march, None)
       /\ String.length s = 7%nat
       /\ (forall s', GoTime.Parse s' = Some Cases.march -> s' = s).
Proof.
  assert (Hd : Further.first_of_month Cases.march)
    by (unfold Further.first_of_month; cbn; lia).
  assert (Hy : 0 <= GoTime.year Cases.march <= 9999) by (cbn; lia).
  split; [exact Hd|]. split; [exact Hy|].
  apply (every_month_has_one_text Cases.march Hd Hy).
Defined.
Section BadRequests.

Lemma service_failure_status e :
  Handlers.status (Handlers.service_failure e) <> 400.
Proof.
  unfold Handlers.service_failure.
  destruct (Handlers.is_not_found e); discriminate.
Qed.

Lemma CreateSubscription_400 newID now now' created db :
  Handlers.status (fst (Handlers.CreateSubscription newID now now' created db))
  = 400 ->
  snd created <> None
  /\ snd (Handlers.CreateSubscription newID now now' created db) = db.
Proof.
  unfold Handlers.CreateSubscription. destruct created as [req [e|]].
  - intros _. split; [discriminate | reflexivity].
  - destruct (Service.CreateSubscription newID now now' req db)
      as [[sub [e|]] db']; discriminate.
Qed.

Lemma GetSubscription_400 parsed db :
  Handlers.status (fst (Handlers.GetSubscription parsed db)) = 400 ->
  snd parsed <> None /\ snd (Handlers.GetSubscription parsed db) = db.
Proof.
  unfold Handlers.GetSubscription. destruct parsed as [id [e|]].
  - intros _. split; [discriminate | reflexivity].
  - destruct (Service.GetSubscription id db) as [[sub [e|]] db']; cbn [fst].
    + intro H. now apply service_failure_status in H.
    + discriminate.
Qed.

Lemma UpdateSubscription_400 now parsed updated db :
  Handlers.status (fst (Handlers.UpdateSubscription now parsed updated db))
  = 400 ->
  (snd parsed <> None \/ snd updated <> None)
  /\ snd (Handlers.UpdateSubscription now parsed updated db) = db.
Proof.
  unfold Handlers.UpdateSubscription.
  destruct parsed as [id [e|]]; [|destruct updated as [req [e|]]].
  - intros _. split; [left; discriminate | reflexivity].
  - intros _. split; [right; discriminate | reflexivity].
  - destruct (Service.UpdateSubscription now id req db) as [[e|] db']; cbn [fst].
    + intro H. now apply service_failure_status in H.
    + discriminate.
Qed.

Lemma DeleteSubscription_400 parsed db :
  Handlers.status (fst (Handlers.DeleteSubscription parsed db)) = 400 ->
  snd parsed <> None /\ snd (Handlers.DeleteSubscription parsed db) = db.
Proof.
  unfold Handlers.DeleteSubscription. destruct parsed as [id [e|]].
  - intros _. split; [discriminate | reflexivity].
  - destruct (Service.DeleteSubscription id db) as [[e|] db']; cbn [fst].
    + intro H. now apply service_failure_status in H.
    + discriminate.
Qed.

Lemma ListSubscriptions_400 user_id parsed service_name db :
  Handlers.status
    (fst (Handlers.ListSubscriptions user_id parsed service_name db)) = 400 ->
  (user_id <> "" /\ snd parsed <> None)
  /\ snd (Handlers.ListSubscriptions user_id parsed service_name db) = db.
Proof.
  destruct (String.eqb user_id "") eqn:Hu.
  - rewrite ListSubscriptions_calls by (left; now apply String.eqb_eq).
    destruct (Service.ListSubscriptions _ db) as [[l [e|]] db']; discriminate.
  - destruct parsed as [id [e|]].
    + intros _. apply String.eqb_neq in Hu.
      rewrite bad_user_id_List by (try assumption; discriminate).
      repeat split; [assumption | discriminate].
    + rewrite ListSubscriptions_calls by (now right).
      destruct (Service.ListSubscriptions _ db) as [[l [e|]] db']; discriminate.
Qed.

Lemma GetTotalCost_400 user_id parsed service_name start_date end_date db :
  Handlers.status
    (fst (Handlers.GetTotalCost user_id parsed service_name start_date end_date
            db)) = 400 ->
  (user_id <> "" /\ snd parsed <> None)
  /\ snd (Handlers.GetTotalCost user_id parsed service_name start_date end_date
            db) = db.
Proof.
  destruct (String.eqb user_id "") eqn:Hu.
  - rewrite GetTotalCost_calls by (left; now apply String.eqb_eq).
    destruct (Service.GetTotalCost _ db) as [[l [e|]] db']; discriminate.
  - destruct parsed as [id [e|]].
    + intros _. apply String.eqb_neq in Hu.
      rewrite bad_user_id_GetTotalCost by (try assumption; discriminate).
      repeat split; [assumption | discriminate].
    + rewrite GetTotalCost_calls by (now right).
      destruct (Service.GetTotalCost _ db) as [[l [e|]] db']; discriminate.
Qed.

End BadRequests.

(** X22.  Only malformed input is a bad request.  Each of the six handlers
    answers 400 only when the identifier, the body or the [user_id] could not
    be read, and then nothing is sent to the database; no failure of the
    service, a date that does not parse included, is answered with 400. *)
Theorem bad_request_sends_nothing (newID : Uuid) (now now' : GoTime.Timestamp)
    (parsed : Uuid * option error)
    (created : CreateSubscriptionRequest * option error)
    (updated : UpdateSubscriptionRequest * option error)
    (user_id service_name start_date end_date : string) (db : DB) :
  (Handlers.status (fst (Handlers.CreateSubscription newID now now' created db))
   = 400 ->
   snd created <> None
   /\ snd (Handlers.CreateSubscription newID now now' created db) = db)
  /\ (Handlers.status (fst (Handlers.GetSubscription parsed db)) = 400 ->
      snd parsed <> None /\ snd (Handlers.GetSubscription parsed db) = db)
  /\ (Handlers.status (fst (Handlers.UpdateSubscription now parsed updated db))
      = 400 ->
      (snd parsed <> None \/ snd updated <> None)
      /\ snd (Handlers.UpdateSubscription now parsed updated db) = db)
  /\ (Handlers.status (fst (Handlers.DeleteSubscription parsed db)) = 400 ->
      snd parsed <> None /\ snd (Handlers.DeleteSubscription parsed db) = db)
  /\ (Handlers.status
        (fst (Handlers.ListSubscriptions user_id parsed service_name db)) = 400 ->
      (user_id <> "" /\ snd parsed <> None)
      /\ snd (Handlers.ListSubscriptions user_id parsed service_name db) = db)
  /\ (Handlers.status
        (fst (Handlers.GetTotalCost user_id parsed service_name start_date
                end_date db)) = 400 ->
      (user_id <> "" /\ snd parsed <> None)
      /\ snd (Handlers.GetTotalCost user_id parsed service_name start_date
                end_date db) = db).
Proof.
  split; [apply CreateSubscription_400|].
  split; [apply GetSubscription_400|].
  split; [apply UpdateSubscription_400|].
  split; [apply DeleteSubscription_400|].
  split; [apply ListSubscriptions_400 | apply GetTotalCost_400].
Qed.

Lemma bad_request_sends_nothing_witness :
  Handlers.status (fst (Handlers.GetSubscription Cases.no_uuid Sample.store))
  = 400
  /\ snd (Handlers.GetSubscription Cases.no_uuid Sample.store) = Sample.store.
Proof.
  split; [reflexivity|].
  apply (proj1 (proj2 (bad_request_sends_nothing 9%N 400 401 Cases.no_uuid
                         (Sample.create_video, None) (Sample.rename, None)
                         "" "" "" "" Sample.store))).
  reflexivity.
Defined.

Section UpdateThenGet.

Lemma filter_by_id_map id (g : Subscription -> Subscription) t :
  (forall r, Sub.ID (g r) = Sub.ID r) ->
  filter (Spec.by_id id) (map (fun r => if N.eqb (Sub.ID r) id then g r else r) t)
  = map g (filter (Spec.by_id id) t).
Proof.
  intro Hg. unfold Spec.by_id. induction t as [|r t IH]; [reflexivity|].
  cbn [map filter]. destruct (N.eqb (Sub.ID r) id) eqn:E.
  - rewrite Hg, E. cbn [map]. now rewrite IH.
  - rewrite E. exact IH.
Qed.

Lemma GetSubscription_found id t l r :
  fst (Service.GetSubscription id (mkDB t true l)) = (Some r, None) ->
  hd_error (filter (Spec.by_id id) t) = Some r.
Proof.
  destruct (GetByID_online id t l) as [q [Hq _]].
  unfold Service.GetSubscription. rewrite Hq.
  destruct (hd_error (filter (Spec.by_id id) t)); cbn; intro H;
    [now injection H as -> | discriminate].
Qed.

End UpdateThenGet.

(** X23.  Update, then get.  When [getSubscription] finds a record, an
    update of it that the table accepts succeeds (200), and a
    [getSubscription] after it returns that record with the supplied fields
    replaced: the name and the price by the supplied ones, the start date by
    the month supplied, the end date by the month supplied or by none for the
    empty text; the identifier, the user and the creation time are the old
    ones. *)
Theorem updated_record_is_found (now : GoTime.Timestamp) (id : Uuid)
    (req : UpdateSubscriptionRequest) (db : DB) (r : Subscription) :
  online db = true -> Spec.prices_positive (table db) ->
  Spec.acceptable req = true ->
  fst (Service.GetSubscription id db) = (Some r, None) ->
  exists db' got,
    Service.UpdateSubscription now id req db = (None, db')
    /\ fst (Service.GetSubscription id db') = (Some got, None)
    /\ Further.same_data got (Spec.apply_update now req r)
    /\ Further.fixed_fields got = Further.fixed_fields r
    /\ Handlers.status
         (fst (Handlers.UpdateSubscription now (id, None) (req, None) db)) = 200
    /\ Handlers.status (fst (Handlers.GetSubscription (id, None) db')) = 200.
Proof.
  intros Ho Hpos Hacc Hget. destruct db as [t o l].
  cbn [online table] in *. subst o.
  pose proof (GetSubscription_found id t l r Hget) as Hhd.
  destruct (hd_filter_In (Spec.by_id id) t r Hhd) as [Hin Hid].
  unfold Spec.by_id in Hid. apply N.eqb_eq in Hid.
  destruct (GetSubscription_present id r t l Hin Hid) as [q1 [r' Hg]].
  destruct (Update_accepted now id req t (l ++ [(q1, [VUuid id])]) Hacc
              (positive_rows id t Hpos)) as [entry Hu].
  assert (Hs : Service.UpdateSubscription now id req (mkDB t true l)
               = (None,
                  mkDB (map (fun r => if N.eqb (Sub.ID r) id
                                      then Spec.apply_update now req r else r) t)
                       true ((l ++ [(q1, [VUuid id])]) ++ [entry]))).
  { unfold Service.UpdateSubscription. now rewrite Hg, Hu. }
  destruct (GetByID_online id
              (map (fun r => if N.eqb (Sub.ID r) id
                             then Spec.apply_update now req r else r) t)
              ((l ++ [(q1, [VUuid id])]) ++ [entry])) as [q2 [Hq2 _]].
  rewrite (filter_by_id_map id (Spec.apply_update now req) t) in Hq2
    by reflexivity.
  destruct (filter (Spec.by_id id) t) as [|r0 rest]; [discriminate|].
  cbn [hd_error] in Hhd. injection Hhd as ->. cbn [map hd_error] in Hq2.
  eexists. exists (Spec.apply_update now req r).
  split; [exact Hs|]. split; [|split; [|split; [|split]]].
  - unfold Service.GetSubscription. now rewrite Hq2.
  - repeat split.
  - reflexivity.
  - unfold Handlers.UpdateSubscription. now rewrite Hs.
  - unfold Handlers.GetSubscription, Service.GetSubscription. now rewrite Hq2.
Qed.

Lemma updated_record_is_found_witness :
  online Sample.store = true
  /\ Spec.prices_positive (table Sample.store)
  /\ Spec.acceptable Sample.clear_end = true
  /\ fst (Service.GetSubscription 3%N Sample.store)
     = (Some Sample.june_to_august, None)
  /\ exists db' got,
       Service.UpdateSubscription 400 3%N Sample.clear_end Sample.store
       = (None, db')
       /\ fst (Service.GetSubscription 3%N db') = (Some got, None)
       /\ Sub.EndDate got = None
       /\ Sub.ServiceName got = Sub.ServiceName Sample.june_to_august.
Proof.
  assert (Hpos : Spec.prices_positive (table Sample.store))
    by (repeat constructor).
  split; [reflexivity|]. split; [exact Hpos|]. split; [reflexivity|].
  split; [reflexivity|].
  destruct (updated_record_is_found 400 3%N Sample.clear_end Sample.store
              Sample.june_to_august eq_refl Hpos eq_refl eq_refl)
    as [db' [got [Hs [Hg [Hd _]]]]].
  exists db', got. split; [exact Hs|]. split; [exact Hg|].
  destruct Hd as [_ [Hn [_ [_ [_ He]]]]]. split; [exact He | exact Hn].
Defined.

(* ================================================================== *)
(** * Further properties: what a mutation touches                     *)
(* ================================================================== *)

Section CreateOutcome.

(** What an [INSERT] of the repository does, whatever the record: it fails
    and leaves the table, or appends the record, its name cut to 255
    characters when what exceeds them is spaces. *)
Lemma Create_outcome sub t l :
  exists entry,
    (exists d,
       Repository.Create sub (mkDB t true l)
       = (Some (WithMessage (Driver d) "failed to create subscription"),
          mkDB t true (l ++ [entry])))
    \/ (exists name,
          Repository.Create sub (mkDB t true l)
          = (None,
             mkDB (t ++ [Sub.mk (Sub.ID sub) name (Sub.Price sub)
                           (Sub.UserID sub) (Sub.StartDate sub)
                           (Sub.EndDate sub) (Sub.CreatedAt sub)
                           (Sub.UpdatedAt sub)])
                  true (l ++ [entry]))
          /\ varchar255 (Sub.ServiceName sub) = Ok name
          /\ 0 < Sub.Price sub <= int4_max
          /\ has_id (Sub.ID sub) t = false).
Proof.
  unfold Repository.Create, ExecContext, submit. cbn [online table log].
  prepared.
  cbn [bind_args List.length Nat.eqb combine map_result fst snd].
  destruct sub as [id name price user start end_ created updated].
  cbn [Sub.ID Sub.ServiceName Sub.Price Sub.UserID Sub.StartDate Sub.EndDate
       Sub.CreatedAt Sub.UpdatedAt].
  rewrite coerce_VInt.
  destruct ((int4_min <=? price) && (price <=? int4_max)) eqn:Hr.
  2: { cbn [coerce bind]. eexists. left. eexists. reflexivity. }
  apply andb_prop in Hr. destruct Hr as [_ Hmax]. apply Z.leb_le in Hmax.
  destruct end_ as [e|];
    cbn [Repository.nullable_date coerce bind exec]; unfold exec_insert;
    cbn [combine map param nth Nat.sub store_columns set_column Sub.zero bind].
  all: destruct (varchar255 name) as [name'|e1];
    cbn [bind store_columns set_column];
    [| eexists; left; eexists; reflexivity ].
  all: unfold check_row; cbn [Sub.Price];
    destruct (0 <? price) eqn:Hp; cbn [bind Sub.ID];
    [| eexists; left; eexists; reflexivity ].
  all: destruct (has_id id t) eqn:Hid;
    [ eexists; left; eexists; reflexivity |].
  all: apply Z.ltb_lt in Hp; eexists; right; exists name';
    split; [reflexivity|]; split; [reflexivity|]; split; [lia | reflexivity].
Qed.

Lemma Create_offline sub t l :
  exists entry,
    Repository.Create sub (mkDB t false l)
    = (Some (WithMessage (Driver ErrBadConn) "failed to create subscription"),
       mkDB t false (l ++ [entry])).
Proof. eexists. reflexivity. Qed.

Lemma has_id_absent id t : has_id id t = false -> Spec.absent id t.
Proof.
  unfold has_id, Spec.absent. intro H. apply Forall_forall. intros r Hin Heq.
  assert (Ht : existsb (fun r => N.eqb (Sub.ID r) id) t = true).
  { apply existsb_exists. exists r. split; [exact Hin | now apply N.eqb_eq]. }
  congruence.
Qed.

(** The same for the service: the record it returns and the record stored. *)
Lemma CreateSubscription_outcome newID now now' req db :
  (exists e,
     fst (Service.CreateSubscription newID now now' req db) = (None, Some e)
     /\ table (snd (Service.CreateSubscription newID now now' req db))
        = table db)
  \/ (exists sub r,
        fst (Service.CreateSubscription newID now now' req db)
        = (Some sub, None)
        /\ table (snd (Service.CreateSubscription newID now now' req db))
           = table db ++ [r]
        /\ Sub.ID sub = newID
        /\ Sub.ServiceName sub = CreateReq.ServiceName req
        /\ (Sub.ID r = Sub.ID sub /\ Sub.Price r = Sub.Price sub
            /\ Sub.UserID r = Sub.UserID sub
            /\ Sub.StartDate r = Sub.StartDate sub
            /\ Sub.EndDate r = Sub.EndDate sub)
        /\ varchar255 (Sub.ServiceName sub) = Ok (Sub.ServiceName r)
        /\ 0 < Sub.Price r <= int4_max
        /\ online db = true
        /\ Spec.absent newID (table db)).
Proof.
  destruct db as [t o l]. cbn [online table].
  unfold Service.CreateSubscription, time_Parse.
  destruct (GoTime.Parse (CreateReq.StartDate req)) as [d|];
    [| left; eexists; split; reflexivity ].
  assert (H : forall endDate,
            let sub := Sub.mk newID (CreateReq.ServiceName req)
                         (CreateReq.Price req) (CreateReq.UserID req) d endDate
                         now now' in
            (exists e,
               Repository.Create sub (mkDB t o l) = (Some e, mkDB t o (log (snd (Repository.Create sub (mkDB t o l))))))
            \/ (exists name,
                  Repository.Create sub (mkDB t o l)
                  = (None,
                     mkDB (t ++ [Sub.mk newID name (CreateReq.Price req)
                                   (CreateReq.UserID req) d endDate now now'])
                          true (log (snd (Repository.Create sub (mkDB t o l)))))
                  /\ varchar255 (CreateReq.ServiceName req) = Ok name
                  /\ 0 < CreateReq.Price req <= int4_max
                  /\ o = true /\ Spec.absent newID t)).
  { intros endDate sub. destruct o.
    - destruct (Create_outcome sub t l) as [entry [[dd Hc]|[name [Hc [Hv [Hp Hid]]]]]].
      + left. exists (WithMessage (Driver dd) "failed to create subscription").
        now rewrite Hc.
      + right. exists name. rewrite Hc. cbn [snd log].
        repeat split; try assumption; try apply Hp. now apply has_id_absent.
    - destruct (Create_offline sub t l) as [entry Hc]. left.
      eexists. rewrite Hc. reflexivity. }
  destruct (CreateReq.EndDate req) as [s|];
    [ destruct (GoTime.Parse s) as [d'|];
      [| left; eexists; split; reflexivity ]
    | ].
  all: cbv zeta;
    match goal with |- context [Repository.Create ?s _] =>
      match s with Sub.mk _ _ _ _ _ ?e _ _ =>
        destruct (H e) as [[e0 Hc]|[name [Hc [Hv [Hp [Ho Ha]]]]]]
      end
    end;
    rewrite Hc;
    [ left; eexists; split; reflexivity
    | right; do 2 eexists; cbn [fst snd table];
      split; [reflexivity|]; split; [reflexivity|];
      cbn [Sub.ID Sub.ServiceName Sub.Price Sub.UserID Sub.StartDate
           Sub.EndDate];
      repeat split; try assumption; apply Hp ].
Qed.

End CreateOutcome.

(** X24.  A create stores one record or nothing.  Whatever the request and
    the state of the store, [createSubscription] either fails, and then no
    record is added, changed or removed (the answer is 500), or returns a
    record with the drawn identifier and appends exactly one record that
    agrees with it on identifier, price, user and dates (the answer is 201
    with the returned record).  The stored name is the requested one cut to
    255 characters when only spaces exceed them; a success means the price is
    within 1..2147483647 and the identifier was unused. *)
Theorem create_stores_one_record_or_nothing (newID : Uuid)
    (now now' : GoTime.Timestamp) (req : CreateSubscriptionRequest) (db : DB) :
  (exists e,
     fst (Service.CreateSubscription newID now now' req db) = (None, Some e)
     /\ table (snd (Service.CreateSubscription newID now now' req db))
        = table db
     /\ Handlers.status
          (fst (Handlers.CreateSubscription newID now now' (req, None) db))
        = 500)
  \/ (exists sub r,
        fst (Service.CreateSubscription newID now now' req db)
        = (Some sub, None)
        /\ table (snd (Service.CreateSubscription newID now now' req db))
           = table db ++ [r]
        /\ Sub.ID sub = newID
        /\ Sub.ServiceName sub = CreateReq.ServiceName req
        /\ (Sub.ID r = Sub.ID sub /\ Sub.Price r = Sub.Price sub
            /\ Sub.UserID r = Sub.UserID sub
            /\ Sub.StartDate r = Sub.StartDate sub
            /\ Sub.EndDate r = Sub.EndDate sub)
        /\ varchar255 (Sub.ServiceName sub) = Ok (Sub.ServiceName r)
        /\ ((String.length (Sub.ServiceName sub) <= 255)%nat ->
            Sub.ServiceName r = Sub.ServiceName sub)
        /\ 0 < Sub.Price r <= int4_max
        /\ Spec.absent newID (table db)
        /\ fst (Handlers.CreateSubscription newID now now' (req, None) db)
           = Handlers.JSON 201 (Handlers.J_subscription (Some sub))).
Proof.
  destruct (CreateSubscription_outcome newID now now' req db)
    as [[e [He Ht]]|[sub [r [Hs [Ht [Hid [Hn [Hsame [Hv [Hp [Ho Ha]]]]]]]]]]].
  - left. exists e. split; [exact He|]. split; [exact Ht|].
    unfold Handlers.CreateSubscription.
    destruct (Service.CreateSubscription newID now now' req db) as [[s err] db'].
    cbn [fst] in He. injection He as -> ->. reflexivity.
  - right. exists sub, r. split; [exact Hs|]. split; [exact Ht|].
    split; [exact Hid|]. split; [exact Hn|]. split; [exact Hsame|].
    split; [exact Hv|]. split; [|split; [exact Hp|split; [exact Ha|]]].
    + intro Hlen. rewrite (varchar255_fits _ Hlen) in Hv. now injection Hv.
    + unfold Handlers.CreateSubscription.
      destruct (Service.CreateSubscription newID now now' req db)
        as [[s err] db'].
      cbn [fst] in Hs. injection Hs as -> ->. reflexivity.
Qed.

Section OtherRecords.

Lemma map_result_nth {A B} (f : A -> result B) (l : list A) (l' : list B)
    (n : nat) (a : A) :
  map_result f l = Ok l' -> nth_error l n = Some a ->
  exists b, f a = Ok b /\ nth_error l' n = Some b.
Proof.
  revert l' n. induction l as [|x l IH]; intros l' n H Hn.
  - destruct n; discriminate.
  - cbn [map_result] in H.
    destruct (f x) as [b|e] eqn:Hx; cbn [bind] in H; [|discriminate].
    destruct (map_result f l) as [bs|e] eqn:Hl; cbn [bind] in H; [|discriminate].
    injection H as <-. destruct n as [|n].
    + injection Hn as <-. now exists b.
    + cbn [nth_error] in *. now apply IH.
Qed.

Lemma combine_nth_error {A B} (l : list A) (l' : list B) n a b :
  nth_error l n = Some a -> nth_error l' n = Some b ->
  nth_error (combine l l') n = Some (a, b).
Proof.
  revert l' n. induction l as [|x l IH]; intros l' n Ha Hb.
  - destruct n; discriminate.
  - destruct l' as [|y l']; [destruct n; discriminate|].
    destruct n as [|n]; cbn in *; [congruence | now apply IH].
Qed.

(** The argument in the place of a [UUID] parameter is what the statement
    reads there. *)
Lemma bind_args_uuid tys args bound k id :
  bind_args tys args = Ok bound ->
  nth_error tys (k - 1) = Some TUuid ->
  nth_error args (k - 1) = Some (VUuid id) ->
  param bound k = SUuid id.
Proof.
  unfold bind_args, param. destruct (Nat.eqb _ _); [|discriminate].
  intros H Ht Ha.
  destruct (map_result_nth _ _ _ (k - 1)%nat (TUuid, VUuid id) H
              (combine_nth_error _ _ _ _ _ Ht Ha)) as [b [Hb Hn]].
  cbn in Hb. injection Hb as <-.
  now rewrite (nth_error_nth _ _ _ Hn).
Qed.

(** An [UPDATE] by identifier that does not assign [id] leaves the rows with
    another identifier. *)
Lemma update_rows_others bound sets k id t t' :
  param bound k = SUuid id ->
  existsb (column_eqb c_id) (map assigned sets) = false ->
  update_rows bound sets (CCmp c_id OpEq k) t = Ok t' ->
  filter (fun r => negb (Spec.by_id id r)) t'
  = filter (fun r => negb (Spec.by_id id r)) t.
Proof.
  intros Hk Hs. unfold Spec.by_id. revert t'.
  induction t as [|r t IH]; intros t' H; cbn [update_rows] in H.
  - now injection H as <-.
  - rewrite (selected_by_id bound k id r Hk) in H. cbn [bind] in H.
    destruct (N.eqb (Sub.ID r) id) eqn:E.
    + destruct (store_columns _ r) as [r1|e] eqn:Hst; cbn [bind] in H;
        [|discriminate].
      unfold check_row in H. destruct (0 <? Sub.Price r1); cbn [bind] in H;
        [|discriminate].
      destruct (update_rows bound sets _ t) as [rest|e]; cbn [bind] in H;
        [|discriminate].
      injection H as <-. cbn [filter].
      rewrite (store_columns_keeps_id _ _ _
                 (eq_trans (assigned_value_column _ _) Hs) Hst), E.
      cbn [negb]. now apply IH.
    + cbn [bind] in H.
      destruct (update_rows bound sets _ t) as [rest|e]; cbn [bind] in H;
        [|discriminate].
      injection H as <-. cbn [filter]. rewrite E. cbn [negb].
      now rewrite (IH rest eq_refl).
Qed.

Lemma submit_update_others q args db sets k tys id :
  prepare q = Ok (Update sets (CCmp c_id OpEq k), tys) ->
  existsb (column_eqb c_id) (map assigned sets) = false ->
  nth_error tys (k - 1) = Some TUuid ->
  nth_error args (k - 1) = Some (VUuid id) ->
  filter (fun r => negb (Spec.by_id id r)) (table (snd (submit q args db)))
  = filter (fun r => negb (Spec.by_id id r)) (table db).
Proof.
  intros Hq Hs Ht Ha. unfold submit. destruct (online db); [|reflexivity].
  rewrite (run_prepared q _ _ args (table db) Hq).
  destruct (bind_args tys args) as [bound|e] eqn:Hb; [|reflexivity].
  cbn [bind exec]. unfold exec_update.
  destruct (update_rows bound sets _ (table db)) as [t1|e] eqn:Hup;
    [|reflexivity].
  cbn [bind]. rewrite Hs. cbn [andb snd table].
  apply (update_rows_others bound sets k id (table db) t1);
    [now apply (bind_args_uuid tys args) | exact Hs | exact Hup].
Qed.

Lemma Update_others now id req db :
  filter (fun r => negb (Spec.by_id id r))
         (table (snd (Repository.Update now id req db)))
  = filter (fun r => negb (Spec.by_id id r)) (table db).
Proof.
  unfold Repository.Update, time_Parse.
  destruct (UpdateReq.ServiceName req), (UpdateReq.Price req);
    cbn beta iota zeta.
  all: destruct (UpdateReq.StartDate req) as [sd|];
    [destruct (GoTime.Parse sd) as [d|]; [|reflexivity] |].
  all: destruct (UpdateReq.EndDate req) as [ed|];
    [destruct (String.eqb ed "");
     [|destruct (GoTime.Parse ed) as [d'|]; [|reflexivity]] |].
  all: cbn beta iota zeta;
    match goal with |- context [ExecContext ?q ?a ?d] =>
      let r := eval vm_compute in (prepare q) in
      match r with
      | Ok (Update ?s (CCmp c_id OpEq ?k), ?tys) =>
          pose proof (submit_update_others q a d s k tys id
                        ltac:(vm_compute; reflexivity) eq_refl eq_refl eq_refl)
            as H;
          rewrite <- (ExecContext_table q a d) in H;
          destruct (ExecContext q a d) as [err db']
      end
    end;
    exact H.
Qed.

Lemma Delete_others id db :
  filter (fun r => negb (Spec.by_id id r))
         (table (snd (Repository.Delete id db)))
  = filter (fun r => negb (Spec.by_id id r)) (table db).
Proof.
  destruct db as [t [|] l]; [|reflexivity].
  destruct (Delete_online id t l) as [entry ->]. cbn [snd table].
  rewrite filter_filter. apply filter_ext. intro r.
  now destruct (Spec.by_id id r).
Qed.

End OtherRecords.

(** X25.  A mutation touches only its record.  Whatever the request and the
    state of the store, and whether the call succeeds or fails, an update or
    a delete for one identifier leaves the records with any other identifier
    exactly as they were and in their order; after a delete that succeeds no
    record has the identifier. *)
Theorem other_records_are_untouched (now : GoTime.Timestamp) (id : Uuid)
    (req : UpdateSubscriptionRequest) (db : DB) :
  filter (fun r => negb (Spec.by_id id r))
         (table (snd (Service.UpdateSubscription now id req db)))
  = filter (fun r => negb (Spec.by_id id r)) (table db)
  /\ filter (fun r => negb (Spec.by_id id r))
            (table (snd (Service.DeleteSubscription id db)))
     = filter (fun r => negb (Spec.by_id id r)) (table db)
  /\ (fst (Service.DeleteSubscription id db) = None ->
      Spec.absent id (table (snd (Service.DeleteSubscription id db))))
  /\ (forall r, In r (table db) -> Sub.ID r <> id ->
      In r (table (snd (Service.UpdateSubscription now id req db)))
      /\ In r (table (snd (Service.DeleteSubscription id db)))).
Proof.
  assert (HU : filter (fun r => negb (Spec.by_id id r))
                 (table (snd (Service.UpdateSubscription now id req db)))
               = filter (fun r => negb (Spec.by_id id r)) (table db)).
  { unfold Service.UpdateSubscription.
    pose proof (GetSubscription_keeps_table id db) as Ht.
    destruct (Service.GetSubscription id db) as [[sub [e|]] db1];
      cbn [snd] in *; [now rewrite Ht|].
    now rewrite Update_others, Ht. }
  assert (HD : filter (fun r => negb (Spec.by_id id r))
                 (table (snd (Service.DeleteSubscription id db)))
               = filter (fun r => negb (Spec.by_id id r)) (table db)).
  { unfold Service.DeleteSubscription.
    pose proof (GetSubscription_keeps_table id db) as Ht.
    destruct (Service.GetSubscription id db) as [[sub [e|]] db1];
      cbn [snd] in *; [now rewrite Ht|].
    now rewrite Delete_others, Ht. }
  split; [exact HU|]. split; [exact HD|]. split.
  - unfold Service.DeleteSubscription.
    destruct (Service.GetSubscription id db) as [[sub [e|]] db1];
      [discriminate|].
    destruct db1 as [t [|] l]; [|discriminate].
    destruct (Delete_online id t l) as [entry ->]. intros _.
    apply filter_out_absent.
  - intros r Hin Hid.
    assert (Hr : In r (filter (fun r => negb (Spec.by_id id r)) (table db))).
    { apply filter_In. split; [exact Hin|]. unfold Spec.by_id.
      now apply negb_true_iff, N.eqb_neq. }
    split; [rewrite <- HU in Hr | rewrite <- HD in Hr];
      now apply filter_In in Hr.
Qed.

Section SumsAndFetches.

Lemma sum_prices_positive t :
  Spec.prices_positive t ->
  0 <= sum_prices t /\ (sum_prices t = 0 -> t = []).
Proof.
  unfold Spec.prices_positive, sum_prices.
  induction 1 as [|r t Hr _ [IH _]]; cbn [fold_right]; [now split|].
  split; [lia|]. intro H. lia.
Qed.

Lemma filter_positive (p : Subscription -> bool) t :
  Spec.prices_positive t -> Spec.prices_positive (filter p t).
Proof.
  unfold Spec.prices_positive. intro H. apply Forall_forall. intros r Hin.
  apply filter_In in Hin. rewrite Forall_forall in H. now apply H.
Qed.

Lemma sent_keeps_online a b : Spec.sent a b -> online b = online a.
Proof.
  induction 1 as [|db q args db' _ IH]; [reflexivity|].
  now rewrite IH, submit_online.
Qed.

(** Where identifiers are unique, the rows with the identifier of a record
    are that record. *)
Lemma unique_filter t r :
  Further.ids_unique t -> In r t -> filter (Spec.by_id (Sub.ID r)) t = [r].
Proof.
  unfold Further.ids_unique, Spec.by_id.
  induction t as [|x t IH]; intros Hu Hin; [destruct Hin|].
  cbn [map] in Hu. inversion Hu as [|? ? Hx Ht]; subst. cbn [filter].
  destruct Hin as [->|Hin].
  - rewrite N.eqb_refl. f_equal.
    apply (absent_filter (Sub.ID r) t). apply Forall_forall.
    intros y Hy Heq. apply Hx. rewrite <- Heq. now apply in_map.
  - destruct (N.eqb (Sub.ID x) (Sub.ID r)) eqn:E; [|now apply IH].
    apply N.eqb_eq in E. exfalso. apply Hx. rewrite E. now apply in_map.
Qed.

End SumsAndFetches.

(** X26.  The total cost is never negative.  In every store that requests to
    the service lead to from an empty table, and for every filter,
    [getTotalCost] returns a number that is 0 or more; when it returns 0
    without an error, no record of the store matches the filter. *)
Theorem total_cost_is_not_negative (rqs : list Spec.Request) (o : bool)
    (f : SubscriptionFilter) :
  0 <= fst (fst (Service.GetTotalCost f (Spec.serve_all rqs (mkDB [] o []))))
  /\ (fst (Service.GetTotalCost f (Spec.serve_all rqs (mkDB [] o [])))
      = (0, None) ->
      forall r, In r (table (Spec.serve_all rqs (mkDB [] o []))) ->
                Further.counted f r = false).
Proof.
  assert (Hpos : Spec.prices_positive
                   (table (Spec.serve_all rqs (mkDB [] o [])))).
  { apply (sent_keeps_prices (mkDB [] o [])); [apply serve_all_sent|].
    constructor. }
  destruct (Spec.serve_all rqs (mkDB [] o [])) as [t o' l]. cbn [table] in *.
  destruct (Spec.is_month (Filter.StartDate f)
            && Spec.is_month (Filter.EndDate f)) eqn:Hm.
  - apply andb_prop in Hm. destruct Hm as [Hs He]. destruct o'.
    + destruct (GetTotalCost_selects f t l Hs He) as [entry H].
      unfold Service.GetTotalCost. rewrite H. cbn [fst].
      destruct (sum_prices_positive _
                  (filter_positive
                     (fun r => Spec.matches_user f r && Spec.matches_pattern f r
                               && Spec.in_period f r) t Hpos)) as [H0 Hnil].
      split; [exact H0|]. intros Hz r Hin. injection Hz as Hz.
      specialize (Hnil Hz).
      destruct (Further.counted f r) eqn:Hc; [|reflexivity].
      assert (Hr : In r (filter (fun r => Spec.matches_user f r
                                          && Spec.matches_pattern f r
                                          && Spec.in_period f r) t))
        by (apply filter_In; now split).
      rewrite Hnil in Hr. destruct Hr.
    + destruct (GetTotalCost_offline f t l Hs He) as [e [entry [H _]]].
      rewrite H. cbn [fst]. split; [lia | discriminate].
  - destruct (GetTotalCost_bad_date f (mkDB t o' l) Hm) as [e [v [H _]]].
    unfold Service.GetTotalCost. rewrite H. cbn [fst].
    split; [lia | discriminate].
Qed.

(** X27.  List, then get.  In every store that requests to the service lead
    to from an empty table behind a working connection, each record that
    [list] returns, for whatever filter, can be fetched by its identifier:
    [getSubscription] after the listing returns that very record, and the
    handler answers 200 with it. *)
Theorem listed_record_is_found (rqs : list Spec.Request)
    (f : SubscriptionFilter) (r : Subscription) :
  In r (fst (fst (Service.ListSubscriptions f
                    (Spec.serve_all rqs (mkDB [] true []))))) ->
  In r (table (Spec.serve_all rqs (mkDB [] true [])))
  /\ fst (Service.GetSubscription (Sub.ID r)
            (snd (Service.ListSubscriptions f
                    (Spec.serve_all rqs (mkDB [] true [])))))
     = (Some r, None)
  /\ fst (Handlers.GetSubscription (Sub.ID r, None)
            (snd (Service.ListSubscriptions f
                    (Spec.serve_all rqs (mkDB [] true [])))))
     = Handlers.JSON 200 (Handlers.J_subscription (Some r)).
Proof.
  assert (Hu : Further.ids_unique
                 (table (Spec.serve_all rqs (mkDB [] true [])))).
  { apply (sent_keeps_unique (mkDB [] true [])); [apply serve_all_sent|].
    constructor. }
  pose proof (sent_keeps_online _ _ (serve_all_sent rqs (mkDB [] true [])))
    as Ho.
  destruct (Spec.serve_all rqs (mkDB [] true [])) as [t o l].
  cbn [online table] in *. subst o.
  destruct (List_selects f t l) as [entry H].
  unfold Service.ListSubscriptions. rewrite H. cbn [fst snd]. intro Hin.
  apply (Permutation_in _ (sort_rows_perm _ _)) in Hin.
  apply filter_In in Hin. destruct Hin as [Hin _].
  destruct (GetByID_online (Sub.ID r) t (l ++ [entry])) as [q [Hq _]].
  rewrite (unique_filter t r Hu Hin) in Hq. cbn [hd_error] in Hq.
  split; [exact Hin|]. split.
  - unfold Service.GetSubscription. now rewrite Hq.
  - unfold Handlers.GetSubscription, Service.GetSubscription. now rewrite Hq.
Qed.

Lemma listed_record_is_found_witness :
  exists r,
    In r (fst (fst (Service.ListSubscriptions Handlers.no_filter
                      (Spec.serve_all
                         [Spec.DoCreate 1%N 10 10 Sample.create_video]
                         (mkDB [] true [])))))
    /\ fst (Service.GetSubscription (Sub.ID r)
              (snd (Service.ListSubscriptions Handlers.no_filter
                      (Spec.serve_all
                         [Spec.DoCreate 1%N 10 10 Sample.create_video]
                         (mkDB [] true [])))))
       = (Some r, None).
Proof.
  exists (Sub.mk 1%N "Video" 7 Sample.user (GoTime.mkDate 2024 6 1) None 10 10).
  assert (Hin : In (Sub.mk 1%N "Video" 7 Sample.user (GoTime.mkDate 2024 6 1)
                      None 10 10)
                  (fst (fst (Service.ListSubscriptions Handlers.no_filter
                               (Spec.serve_all
                                  [Spec.DoCreate 1%N 10 10 Sample.create_video]
                                  (mkDB [] true []))))))
    by (vm_compute; now left).
  split; [exact Hin|].
  apply (listed_record_is_found [Spec.DoCreate 1%N 10 10 Sample.create_video]
           Handlers.no_filter _ Hin).
Defined.

(** X28.  The empty text in a request.  Only the end date of an update reads
    the empty text as "none".  A create request whose start date is empty, or
    whose end date is given as the empty text, fails on the date before any
    statement is sent (500), and so does an update whose start date is the
    empty text; an update whose service name is the empty text, on an existing
    record, is carried out and stores the empty name. *)
Theorem empty_text_in_a_request (newID id : Uuid) (now now' : GoTime.Timestamp)
    (creq : CreateSubscriptionRequest) (ureq : UpdateSubscriptionRequest)
    (db : DB) :
  (CreateReq.StartDate creq = "" \/ CreateReq.EndDate creq = Some "" ->
   exists e v,
     Service.CreateSubscription newID now now' creq db = ((None, Some e), db)
     /\ Cause e = ParseError v
     /\ Handlers.status
          (fst (Handlers.CreateSubscription newID now now' (creq, None) db))
        = 500)
  /\ (UpdateReq.StartDate ureq = Some "" ->
      exists e v,
        Repository.Update now id ureq db = (Some e, db)
        /\ Cause e = ParseError v)
  /\ (UpdateReq.ServiceName ureq = Some "" -> online db = true ->
      Spec.prices_positive (table db) -> Spec.acceptable ureq = true ->
      (exists r, In r (table db) /\ Sub.ID r = id) ->
      exists db',
        Service.UpdateSubscription now id ureq db = (None, db')
        /\ Forall (fun r => Sub.ID r = id -> Sub.ServiceName r = "") (table db')
        /\ Exists (fun r => Sub.ID r = id) (table db')).
Proof.
  split; [|split].
  - intro H.
    assert (Hb : Spec.bad_create_dates creq = true).
    { unfold Spec.bad_create_dates, Spec.is_month.
      destruct H as [-> | ->]; [reflexivity|]. cbn. apply orb_true_r. }
    destruct (CreateSubscription_bad_date newID now now' creq db Hb)
      as [e [v [Hs Hv]]].
    exists e, v. split; [exact Hs|]. split; [exact Hv|].
    unfold Handlers.CreateSubscription. now rewrite Hs.
  - intro H. apply Update_bad_date.
    unfold Spec.has_bad_date, Spec.is_month. now rewrite H.
  - intros Hn Ho Hpos Hacc [r [Hin Hid]]. destruct db as [t o l].
    cbn [online table] in *. subst o.
    destruct (GetSubscription_present id r t l Hin Hid) as [q1 [r' Hg]].
    destruct (Update_accepted now id ureq t (l ++ [(q1, [VUuid id])]) Hacc
                (positive_rows id t Hpos)) as [entry Hu].
    eexists. split; [|split].
    + unfold Service.UpdateSubscription. rewrite Hg, Hu. reflexivity.
    + cbn [table]. apply Forall_map, Forall_forall. intros r0 _ H0.
      destruct (N.eqb (Sub.ID r0) id) eqn:E.
      * unfold Spec.apply_update. cbn [Sub.ServiceName]. now rewrite Hn.
      * apply N.eqb_neq in E. contradiction.
    + cbn [table]. apply Exists_exists.
      exists (Spec.apply_update now ureq r). split; [|exact Hid].
      apply in_map_iff. exists r. split; [|exact Hin].
      now rewrite (proj2 (N.eqb_eq _ _) Hid).
Qed.

Lemma empty_text_in_a_request_witness :
  (exists e v,
     Service.CreateSubscription 9%N 400 401 Cases.create_open_end Sample.store
     = ((None, Some e), Sample.store)
     /\ Cause e = ParseError v
     /\ Handlers.status
          (fst (Handlers.CreateSubscription 9%N 400 401
                  (Cases.create_open_end, None) Sample.store)) = 500)
  /\ (exists e v,
        Repository.Update 400 1%N Cases.undate Sample.store
        = (Some e, Sample.store)
        /\ Cause e = ParseError v)
  /\ (exists db',
        Service.UpdateSubscription 400 1%N Cases.unname Sample.store
        = (None, db')
        /\ Forall (fun r => Sub.ID r = 1%N -> Sub.ServiceName r = "")
                  (table db')
        /\ Exists (fun r => Sub.ID r = 1%N) (table db')).
Proof.
  destruct (empty_text_in_a_request 9%N 1%N 400 401 Cases.create_open_end
              Cases.unname Sample.store) as [Hc [_ Hu]].
  split; [apply Hc; now right|].
  split;
    [apply (proj1 (proj2 (empty_text_in_a_request 9%N 1%N 400 401
                            Cases.create_open_end Cases.undate Sample.store)));
     reflexivity|].
  apply Hu; [reflexivity | reflexivity | repeat constructor | reflexivity |].
  exists Sample.february. split; [now left | reflexivity].
Defined.

Section Counting.

Lemma Create_log sub db :
  List.length (log (snd (Repository.Create sub db))) = S (List.length (log db)).
Proof.
  unfold Repository.Create. rewrite snd_let, ExecContext_log, length_app.
  cbn. lia.
Qed.

Lemma GetByID_log id db :
  List.length (log (snd (Repository.GetByID id db))) = S (List.length (log db)).
Proof.
  unfold Repository.GetByID, QueryRowContext.
  match goal with |- context [submit ?q ?a ?d] =>
    pose proof (submit_log q a d) as H;
    destruct (submit q a d) as [row db'] end.
  cbn [snd] in H.
  destruct (Row_Scan_subscription row Sub.zero) as [sub err].
  destruct (is_ErrNoRows err); cbn [snd]; rewrite H, length_app; cbn; lia.
Qed.

Lemma GetSubscription_log id db :
  List.length (log (snd (Service.GetSubscription id db)))
  = S (List.length (log db)).
Proof.
  unfold Service.GetSubscription. pose proof (GetByID_log id db) as H.
  destruct (Repository.GetByID id db) as [[sub [e|]] db']; [exact H|].
  destruct sub; exact H.
Qed.

Lemma Delete_log id db :
  List.length (log (snd (Repository.Delete id db))) = S (List.length (log db)).
Proof.
  unfold Repository.Delete. rewrite snd_let, ExecContext_log, length_app.
  cbn. lia.
Qed.

Lemma List_log f db :
  List.length (log (snd (Repository.List f db))) = S (List.length (log db)).
Proof.
  unfold Repository.List.
  destruct (Filter.UserID f), (Filter.ServiceName f); cbn beta iota zeta.
  all: match goal with |- context [QueryContext ?q ?a ?d] =>
      pose proof (QueryContext_log q a d) as H;
      destruct (QueryContext q a d) as [[rows [e|]] db'] end;
    cbn [snd] in *; rewrite H, length_app; cbn; lia.
Qed.

Lemma Update_log now id req db :
  List.length (log (snd (Repository.Update now id req db)))
  = (List.length (log db) + if Spec.has_bad_date req then 0 else 1)%nat.
Proof.
  destruct (Spec.has_bad_date req) eqn:Hb.
  - destruct (Update_bad_date now id req db Hb) as [e [v [-> _]]].
    cbn [snd]. lia.
  - destruct (good_dates req Hb) as [Hs He].
    unfold Repository.Update, time_Parse.
    destruct (UpdateReq.ServiceName req), (UpdateReq.Price req);
      cbn beta iota zeta.
    all: destruct (UpdateReq.StartDate req) as [sd|];
      [destruct Hs as [d ->]|].
    all: destruct (UpdateReq.EndDate req) as [ed|];
      [ destruct (String.eqb ed "") eqn:Heq;
        [| destruct He as [He|[d' ->]]; [discriminate|] ]
      | ].
    all: cbn beta iota zeta; rewrite snd_let, ExecContext_log, length_app;
      reflexivity.
Qed.

Lemma GetTotalCost_log f db :
  List.length (log (snd (Repository.GetTotalCost f db)))
  = (List.length (log db)
     + if Spec.is_month (Filter.StartDate f) && Spec.is_month (Filter.EndDate f)
       then 1 else 0)%nat.
Proof.
  destruct (Spec.is_month (Filter.StartDate f)
            && Spec.is_month (Filter.EndDate f)) eqn:Hm.
  - apply andb_prop in Hm. destruct Hm as [Hs He].
    unfold Spec.is_month in Hs, He.
    unfold Repository.GetTotalCost, time_Parse.
    destruct (Filter.UserID f), (Filter.ServiceName f); cbn beta iota zeta.
    all: destruct (Filter.StartDate f) as [sd|];
      [destruct (GoTime.Parse sd) as [d|]; [|discriminate] |].
    all: destruct (Filter.EndDate f) as [ed|];
      [destruct (GoTime.Parse ed) as [d'|]; [|discriminate] |].
    all: cbn beta iota zeta; unfold QueryRowContext;
      match goal with |- context [submit ?q ?a ?d] =>
        pose proof (submit_log q a d) as H;
        destruct (submit q a d) as [row db'] end;
      destruct (Row_Scan_int row 0); cbn [snd] in *;
      rewrite H, length_app; reflexivity.
  - destruct (GetTotalCost_bad_date f db Hm) as [e [v [-> _]]]. cbn [snd]. lia.
Qed.

End Counting.

(** X29.  No statement is sent twice.  Whatever the state of the store, and
    whether a statement succeeds or fails, a get and a list submit exactly
    one statement; a create and a total cost submit one, or none when a date
    does not parse; an update and a delete submit the query of the existence
    check and, only when that found the record, one more statement (none for
    an update with a date that does not parse).  There is no retry. *)
Theorem statements_are_sent_once (newID id : Uuid) (now now' : GoTime.Timestamp)
    (creq : CreateSubscriptionRequest) (ureq : UpdateSubscriptionRequest)
    (f : SubscriptionFilter) (db : DB) :
  List.length (log (snd (Service.GetSubscription id db)))
  = S (List.length (log db))
  /\ List.length (log (snd (Service.ListSubscriptions f db)))
     = S (List.length (log db))
  /\ List.length (log (snd (Service.CreateSubscription newID now now' creq db)))
     = (List.length (log db)
        + if Spec.bad_create_dates creq then 0 else 1)%nat
  /\ List.length (log (snd (Service.GetTotalCost f db)))
     = (List.length (log db)
        + if Spec.is_month (Filter.StartDate f)
             && Spec.is_month (Filter.EndDate f)
          then 1 else 0)%nat
  /\ List.length (log (snd (Service.UpdateSubscription now id ureq db)))
     = (S (List.length (log db))
        + match snd (fst (Service.GetSubscription id db)) with
          | Some _ => 0
          | None => if Spec.has_bad_date ureq then 0 else 1
          end)%nat
  /\ List.length (log (snd (Service.DeleteSubscription id db)))
     = (S (List.length (log db))
        + match snd (fst (Service.GetSubscription id db)) with
          | Some _ => 0
          | None => 1
          end)%nat.
Proof.
  split; [apply GetSubscription_log|]. split; [apply List_log|].
  split; [|split; [apply GetTotalCost_log|split]].
  - destruct (Spec.bad_create_dates creq) eqn:Hb.
    + destruct (CreateSubscription_bad_date newID now now' creq db Hb)
        as [e [v [-> _]]].
      cbn [snd]. lia.
    + unfold Spec.bad_create_dates, Spec.is_month in Hb.
      apply orb_false_elim in Hb. destruct Hb as [Hs He].
      apply negb_false_iff in Hs. apply negb_false_iff in He.
      unfold Service.CreateSubscription, time_Parse.
      destruct (GoTime.Parse (CreateReq.StartDate creq)) as [d|];
        [|discriminate].
      destruct (CreateReq.EndDate creq) as [s|];
        [destruct (GoTime.Parse s) as [d'|]; [|discriminate]|].
      all: match goal with |- context [Repository.Create ?s ?d] =>
          pose proof (Create_log s d) as H;
          destruct (Repository.Create s d) as [[e|] db'] end;
        cbn [snd] in *; rewrite H; lia.
  - unfold Service.UpdateSubscription.
    pose proof (GetSubscription_log id db) as H.
    destruct (Service.GetSubscription id db) as [[sub [e|]] db1];
      cbn [fst snd] in *; [lia|].
    rewrite Update_log, H. reflexivity.
  - unfold Service.DeleteSubscription.
    pose proof (GetSubscription_log id db) as H.
    destruct (Service.GetSubscription id db) as [[sub [e|]] db1];
      cbn [fst snd] in *; [lia|].
    rewrite Delete_log, H. lia.
Qed.
